(** * openalex-types: normalization, projection and hydration of OpenAlex records

    A shallow embedding of the pydantic models of [openalex_types]
    (works.py, authors.py, institutions.py, sources.py, topics.py,
    concepts.py, publishers.py, data.py, common.py, utils.py) together with
    the part of Python and pydantic they run on,
    followed by the properties of the normalization / flattening engine.

    Layout:
    - [Py]        Python values, exceptions, dictionaries, iteration;
    - [Datetime]  datetime objects, [isoformat] and [fromisoformat];
    - [Pydantic]  declared field types, model validation;
    - [Common], [Utils], [Sources], [Institutions], [Authors], [Topics],
      [Works], [Concepts], [Publishers], [Data]
                  the modules of the package, one Rocq module each;
    - the theorems. *)

From Stdlib Require Import ZArith List String Ascii Bool Lia.
From Stdlib Require Import DecimalString.
Import ListNotations.
Open Scope string_scope.
Open Scope list_scope.
Set Warnings "-register-all".

(** * Python values and exceptions *)

Module Py.

(** The exceptions the modelled code can raise.  pydantic turns a
    [ValueError] raised inside a validator into one entry of its
    [ValidationError]; every other exception leaves the constructor as it
    is. *)
Inductive exn : Type :=
| KeyError (key : string)
| TypeError
| IndexError
| RuntimeError
| ValueError (msg : string)
| ValidationError (errors : list string).

Inductive result (A : Type) : Type :=
| Ok (a : A)
| Raise (e : exn).
Arguments Ok {A} a.
Arguments Raise {A} e.

Definition bind {A B} (r : result A) (k : A -> result B) : result B :=
  match r with
  | Ok a => k a
  | Raise e => Raise e
  end.

Definition is_ok {A} (r : result A) : bool :=
  match r with Ok _ => true | Raise _ => false end.

(** A datetime object: calendar fields and, for an aware datetime, the UTC
    offset in seconds. *)
Record datetime : Type := mkDatetime {
  dt_year : Z; dt_month : Z; dt_day : Z;
  dt_hour : Z; dt_minute : Z; dt_second : Z; dt_microsecond : Z;
  dt_utcoffset : option Z
}.

(** Values as [orjson.loads] and the database driver hand them over, plus
    validated model instances ([VObj], the class name and the instance
    [__dict__] in declaration order).  Records decoded from JSON are trees:
    no two positions share one mutable object, so the in-place updates of the
    validators are modelled as functional updates.  A [dict] keeps insertion
    order, hence the association list.  Tuples and lists are both [VList].
    A character of [string] stands for one code point (up to U+00FF).  A
    float is carried by its shortest round-trip decimal text ([repr]); float
    arithmetic is not modelled. *)
Inductive value : Type :=
| VNone
| VBool (b : bool)
| VInt (z : Z)
| VFloat (repr : string)
| VStr (s : string)
| VDatetime (d : datetime)
| VList (l : list value)
| VDict (d : list (string * value))
| VObj (cls : string) (fields : list (string * value)).

Definition pydict : Type := list (string * value).

Definition is_none (v : value) : bool :=
  match v with VNone => true | _ => false end.

(** ** dict *)

Fixpoint dict_get {A} (k : string) (d : list (string * A)) : option A :=
  match d with
  | [] => None
  | (k', v) :: d' => if String.eqb k k' then Some v else dict_get k d'
  end.

Definition dict_mem {A} (k : string) (d : list (string * A)) : bool :=
  match dict_get k d with Some _ => true | None => false end.

(** [d[k] = v]: an existing key keeps its position, a new key goes last. *)
Fixpoint dict_set {A} (k : string) (v : A) (d : list (string * A))
  : list (string * A) :=
  match d with
  | [] => [(k, v)]
  | (k', v') :: d' =>
      if String.eqb k k' then (k, v) :: d' else (k', v') :: dict_set k v d'
  end.

(** [dict(zip(keys, t))]. *)
Definition dict_zip {A} (keys : list string) (t : list A)
  : list (string * A) :=
  fold_left (fun d kv => dict_set (fst kv) (snd kv) d) (combine keys t) [].

(** [getattr(self, key, None)] on a model instance. *)
Definition getattr (self : value) (key : string) : value :=
  match self with
  | VObj _ fs => match dict_get key fs with Some v => v | None => VNone end
  | _ => VNone
  end.

(** [self.key = v] on a model instance without [validate_assignment]. *)
Definition setattr (self : value) (key : string) (v : value) : value :=
  match self with
  | VObj c fs => VObj c (dict_set key v fs)
  | _ => self
  end.

(** ** Operators *)

Definition chars (s : string) : list value :=
  map (fun c => VStr (String c EmptyString)) (list_ascii_of_string s).

(** Is [sub] a substring of [s]? *)
Definition str_contains (sub s : string) : bool :=
  match String.index 0 sub s with Some _ => true | None => false end.

(** [key in obj]. *)
Definition py_in (key : string) (obj : value) : result bool :=
  match obj with
  | VDict d => Ok (dict_mem key d)
  | VList l =>
      Ok (existsb (fun x => match x with
                            | VStr s => String.eqb key s
                            | _ => false
                            end) l)
  | VStr s => Ok (str_contains key s)
  | VObj _ _ => Ok false
  | _ => Raise TypeError
  end.

(** [obj[key]] for a string key. *)
Definition py_getitem (obj : value) (key : string) : result value :=
  match obj with
  | VDict d =>
      match dict_get key d with
      | Some v => Ok v
      | None => Raise (KeyError key)
      end
  | _ => Raise TypeError
  end.

(** [obj[key] = v] for a string key; the updated [obj]. *)
Definition py_setitem (obj : value) (key : string) (v : value)
  : result value :=
  match obj with
  | VDict d => Ok (VDict (dict_set key v d))
  | _ => Raise TypeError
  end.

(** The elements [for x in obj] visits. *)
Definition py_iter (obj : value) : result (list value) :=
  match obj with
  | VList l => Ok l
  | VStr s => Ok (chars s)
  | VDict d => Ok (map (fun kv => VStr (fst kv)) d)
  | _ => Raise TypeError
  end.

(** [len(obj)]. *)
Definition py_len (obj : value) : result nat :=
  match obj with
  | VList l => Ok (List.length l)
  | VStr s => Ok (String.length s)
  | VDict d => Ok (List.length d)
  | _ => Raise TypeError
  end.

(** [t[i]] for a non-negative constant index into a list or tuple. *)
Definition py_index (t : value) (i : nat) : result value :=
  match t with
  | VList l =>
      match nth_error l i with
      | Some v => Ok v
      | None => Raise IndexError
      end
  | VStr s =>
      match String.get i s with
      | Some c => Ok (VStr (String c EmptyString))
      | None => Raise IndexError
      end
  | VDict d => Raise (KeyError (NilEmpty.string_of_uint (Nat.to_uint i)))
  | _ => Raise TypeError
  end.

(** Run [f] on every element, left to right, stopping at the first
    exception. *)
Section MapM.
Context {A B : Type} (f : A -> result B).

Fixpoint mapM (l : list A) : result (list B) :=
  match l with
  | [] => Ok []
  | x :: l' =>
      match f x with
      | Ok y =>
          match mapM l' with
          | Ok ys => Ok (y :: ys)
          | Raise e => Raise e
          end
      | Raise e => Raise e
      end
  end.
End MapM.

(** [bool(v)], the truth value [not v] negates. *)
Definition py_truthy (v : value) : bool :=
  match v with
  | VNone => false
  | VBool b => b
  | VInt z => negb (Z.eqb z 0)
  | VFloat r => negb (String.eqb r "0.0" || String.eqb r "-0.0")
  | VStr s => negb (String.eqb s "")
  | VDatetime _ => true
  | VList l => match l with [] => false | _ => true end
  | VDict d => match d with [] => false | _ => true end
  | VObj _ _ => true
  end.

(** Structural equality of values.  It is used where the code compares
    strings, or a string with [None], and there it is Python's [==]. *)
Fixpoint value_eqb (a b : value) {struct a} : bool :=
  let fix list_eqb (l1 l2 : list value) {struct l1} : bool :=
    match l1, l2 with
    | [], [] => true
    | x :: l1', y :: l2' => value_eqb x y && list_eqb l1' l2'
    | _, _ => false
    end in
  let fix items_eqb (l1 l2 : list (string * value)) {struct l1} : bool :=
    match l1, l2 with
    | [], [] => true
    | (k1, x) :: l1', (k2, y) :: l2' =>
        String.eqb k1 k2 && value_eqb x y && items_eqb l1' l2'
    | _, _ => false
    end in
  match a, b with
  | VNone, VNone => true
  | VBool x, VBool y => Bool.eqb x y
  | VInt x, VInt y => Z.eqb x y
  | VFloat x, VFloat y => String.eqb x y
  | VStr x, VStr y => String.eqb x y
  | VDatetime x, VDatetime y =>
      Z.eqb (dt_year x) (dt_year y) && Z.eqb (dt_month x) (dt_month y)
      && Z.eqb (dt_day x) (dt_day y) && Z.eqb (dt_hour x) (dt_hour y)
      && Z.eqb (dt_minute x) (dt_minute y)
      && Z.eqb (dt_second x) (dt_second y)
      && Z.eqb (dt_microsecond x) (dt_microsecond y)
      && match dt_utcoffset x, dt_utcoffset y with
         | None, None => true
         | Some p, Some q => Z.eqb p q
         | _, _ => false
         end
  | VList x, VList y => list_eqb x y
  | VDict x, VDict y => items_eqb x y
  | VObj c x, VObj c' y => String.eqb c c' && items_eqb x y
  | _, _ => false
  end.

End Py.
Export Py.

Declare Scope py_scope.
Notation "x <- e ;; k" := (Py.bind e (fun x => k))
  (at level 61, e at next level, right associativity) : py_scope.
Notation "e1 ;;; e2" := (Py.bind e1 (fun _ => e2))
  (at level 61, right associativity) : py_scope.
Open Scope py_scope.

(** * datetime *)

Module Datetime.

Open Scope Z_scope.

Definition digit (n : Z) : ascii := ascii_of_nat (48 + Z.to_nat (n mod 10)).

Definition pad2 (n : Z) : string :=
  String (digit (n / 10)) (String (digit n) "").

Definition pad4 (n : Z) : string :=
  String (digit (n / 1000)) (String (digit (n / 100)) (pad2 n)).

Definition pad6 (n : Z) : string :=
  String (digit (n / 100000)) (String (digit (n / 10000)) (pad4 n)).

Definition is_leap (y : Z) : bool :=
  ((y mod 4 =? 0) && negb (y mod 100 =? 0)) || (y mod 400 =? 0).

Definition days_in_month (y m : Z) : Z :=
  if m =? 2 then (if is_leap y then 29 else 28)
  else if (m =? 4) || (m =? 6) || (m =? 9) || (m =? 11) then 30
  else 31.

(** The ranges every datetime object is in. *)
Definition datetime_okb (d : datetime) : bool :=
  (1 <=? dt_year d) && (dt_year d <=? 9999)
  && (1 <=? dt_month d) && (dt_month d <=? 12)
  && (1 <=? dt_day d) && (dt_day d <=? days_in_month (dt_year d) (dt_month d))
  && (0 <=? dt_hour d) && (dt_hour d <? 24)
  && (0 <=? dt_minute d) && (dt_minute d <? 60)
  && (0 <=? dt_second d) && (dt_second d <? 60)
  && (0 <=? dt_microsecond d) && (dt_microsecond d <? 1000000)
  && match dt_utcoffset d with
     | None => true
     | Some o => (-86400 <? o) && (o <? 86400)
     end.

(** [utcoffset] as [isoformat] prints it: [+HH:MM], and [:SS] when the
    seconds are not zero. *)
Definition format_offset (o : Z) : string :=
  let a := Z.abs o in
  ((if (o <? 0)%Z then "-" else "+") ++ pad2 (a / 3600)%Z ++ ":"
   ++ pad2 ((a mod 3600) / 60)%Z
   ++ (if (a mod 60 =? 0)%Z then "" else ":" ++ pad2 (a mod 60)%Z))%string.

(** [dt.isoformat()]. *)
Definition isoformat (d : datetime) : string :=
  (pad4 (dt_year d) ++ "-" ++ pad2 (dt_month d) ++ "-" ++ pad2 (dt_day d)
   ++ "T" ++ pad2 (dt_hour d) ++ ":" ++ pad2 (dt_minute d) ++ ":"
   ++ pad2 (dt_second d)
   ++ (if (dt_microsecond d =? 0)%Z then ""
       else "." ++ pad6 (dt_microsecond d))
   ++ match dt_utcoffset d with
      | None => ""
      | Some o => format_offset o
      end)%string.

(** ** Reading the ISO form *)

Definition digit_val (c : ascii) : option Z :=
  let n := Z.of_nat (nat_of_ascii c) in
  if (48 <=? n) && (n <=? 57) then Some (n - 48) else None.

Definition take2 (s : string) : option (Z * string) :=
  match s with
  | String a (String b rest) =>
      match digit_val a, digit_val b with
      | Some x, Some y => Some (10 * x + y, rest)
      | _, _ => None
      end
  | _ => None
  end.

Definition take4 (s : string) : option (Z * string) :=
  match take2 s with
  | Some (hi, s') =>
      match take2 s' with
      | Some (lo, rest) => Some (100 * hi + lo, rest)
      | None => None
      end
  | None => None
  end.

Definition take6 (s : string) : option (Z * string) :=
  match take2 s with
  | Some (hi, s') =>
      match take4 s' with
      | Some (lo, rest) => Some (10000 * hi + lo, rest)
      | None => None
      end
  | None => None
  end.

Definition expect (c : ascii) (s : string) : option string :=
  match s with
  | String c' rest => if Ascii.eqb c c' then Some rest else None
  | EmptyString => None
  end.

(** The offset suffix: nothing, [Z], [+HH:MM] or [+HH:MM:SS]. *)
Definition parse_offset (s : string) : option (option Z) :=
  match s with
  | EmptyString => Some None
  | String c rest =>
      if Ascii.eqb c "Z" then
        match rest with EmptyString => Some (Some 0) | _ => None end
      else
        let sign :=
          if Ascii.eqb c "+" then Some 1
          else if Ascii.eqb c "-" then Some (-1) else None in
        match sign, take2 rest with
        | Some sg, Some (h, s1) =>
            match expect ":" s1 with
            | Some s2 =>
                match take2 s2 with
                | Some (m, EmptyString) =>
                    if (h <? 24) && (m <? 60)
                    then Some (Some (sg * (h * 3600 + m * 60))) else None
                | Some (m, s3) =>
                    match expect ":" s3 with
                    | Some s4 =>
                        match take2 s4 with
                        | Some (sec, EmptyString) =>
                            if (h <? 24) && (m <? 60) && (sec <? 60)
                            then Some (Some (sg * (h * 3600 + m * 60 + sec)))
                            else None
                        | _ => None
                        end
                    | None => None
                    end
                | None => None
                end
            | None => None
            end
        | _, _ => None
        end
  end.

(** The part after the seconds: an optional [.ffffff], then the offset. *)
Definition parse_fraction (s : string) : option (Z * option Z) :=
  match s with
  | String c rest =>
      if Ascii.eqb c "." then
        match take6 rest with
        | Some (us, s') =>
            match parse_offset s' with
            | Some o => Some (us, o)
            | None => None
            end
        | None => None
        end
      else
        match parse_offset s with
        | Some o => Some (0, o)
        | None => None
        end
  | EmptyString => Some (0, None)
  end.

(** The fields of [YYYY-MM-DD], alone or followed by [T] or a space and
    [HH:MM:SS[.ffffff][offset]], before any range check. *)
Definition parse_fields (s : string) : option datetime :=
  match take4 s with
  | Some (y, s1) =>
    match expect "-" s1 with
    | Some s2 =>
      match take2 s2 with
      | Some (mo, s3) =>
        match expect "-" s3 with
        | Some s4 =>
          match take2 s4 with
          | Some (d, EmptyString) => Some (mkDatetime y mo d 0 0 0 0 None)
          | Some (d, String sep s5) =>
            if Ascii.eqb sep "T" || Ascii.eqb sep " " then
              match take2 s5 with
              | Some (h, s6) =>
                match expect ":" s6 with
                | Some s7 =>
                  match take2 s7 with
                  | Some (mi, s8) =>
                    match expect ":" s8 with
                    | Some s9 =>
                      match take2 s9 with
                      | Some (sec, s10) =>
                        match parse_fraction s10 with
                        | Some (us, o) =>
                            Some (mkDatetime y mo d h mi sec us o)
                        | None => None
                        end
                      | None => None
                      end
                    | None => None
                    end
                  | None => None
                  end
                | None => None
                end
              | None => None
              end
            else None
          | None => None
          end
        | None => None
        end
      | None => None
      end
    | None => None
    end
  | None => None
  end.

(** [datetime.fromisoformat(s)] on the forms above; [None] stands for its
    [ValueError].  Python reads further ISO 8601 spellings (week dates,
    basic format, times without seconds, fractions of fewer than six
    digits), which are not modelled: on them the answer here is [None]. *)
Definition fromisoformat (s : string) : option datetime :=
  match parse_fields s with
  | Some d => if datetime_okb d then Some d else None
  | None => None
  end.

(** [dt.strftime("%Y-%m-%d %H:%M:%S")]; the C library prints a year below
    1000 without leading zeros. *)
Definition strftime (d : datetime) : string :=
  ((if (dt_year d <? 1000)%Z
    then NilEmpty.string_of_uint (N.to_uint (Z.to_N (dt_year d)))
    else pad4 (dt_year d))
   ++ "-" ++ pad2 (dt_month d) ++ "-" ++ pad2 (dt_day d) ++ " "
   ++ pad2 (dt_hour d) ++ ":" ++ pad2 (dt_minute d) ++ ":"
   ++ pad2 (dt_second d))%string.

End Datetime.

(** * pydantic: declared types and model validation

    What [BaseModel.__init__] does with the declarations of the package.
    Scalars are accepted at their own JSON type, an [int] where a [float] is
    declared, and a datetime object or its ISO text where a [datetime] is
    declared.  The further conversions of pydantic's lax mode (numeric text
    for numbers, 0 and 1 for booleans, timestamps for datetimes) are left
    out: on such input the model raises where pydantic converts.  Two types
    are simplified: a URL is any text that holds [://], kept as it is
    written, where pydantic parses and normalises it; and the float of an
    [int] is printed as the digits of the [int] and [.0], which is Python's
    [repr] of the float for integers up to 2^53. *)

Module Pydantic.

Definition validator : Type := value -> result value.

(** A declared field; [frequired = false] is [Optional[T] = None].  A field
    with a [validation_alias] is read under its [AliasChoices], the first one
    present in the input. *)
Record field_of (T : Type) : Type := mkField {
  fname : string;
  faliases : list string;
  frequired : bool;
  ftype : T
}.
Arguments mkField {T}.
Arguments fname {T}.
Arguments faliases {T}.
Arguments frequired {T}.
Arguments ftype {T}.

(** The validators of a class, each list in the order of definition:
    [@model_validator(mode="before")], [@field_validator(names)] and
    [@model_validator(mode="after")]. *)
Record hooks : Type := mkHooks {
  before : list validator;
  field_validators : list (list string * validator);
  after : list validator
}.

Definition no_hooks : hooks := mkHooks [] [] [].

Inductive ty : Type :=
| TStr
| TInt
| TFloat
| TBool
| TDatetime
| TDict
| TDictOf (elem : ty)
| TLiteral (choices : list string)
| TConstrStr (min_length max_length : nat)
| TAnyUrl
| TList (elem : ty)
| TAfter (t : ty) (f : validator)
| TUnion (a b : ty)
| TModel (name : string) (fields : list (field_of ty)) (h : hooks).

Definition invalid {A} (msg : string) : result A :=
  Raise (ValidationError [msg]).

(** A [ValueError] raised by a validator becomes a validation error. *)
Definition wrap {A} (r : result A) : result A :=
  match r with
  | Raise (ValueError msg) => Raise (ValidationError [msg])
  | _ => r
  end.

(** Validation goes on after a validation error and gathers the later ones;
    any other exception ends it at once. *)
Definition both {A B C} (f : A -> B -> C) (ra : result A) (rb : result B)
  : result C :=
  match ra with
  | Ok a =>
      match rb with
      | Ok b => Ok (f a b)
      | Raise e => Raise e
      end
  | Raise (ValidationError e1) =>
      match rb with
      | Ok _ => Raise (ValidationError e1)
      | Raise (ValidationError e2) => Raise (ValidationError (e1 ++ e2))
      | Raise e => Raise e
      end
  | Raise e => Raise e
  end.

Fixpoint collect {A} (l : list (result A)) : result (list A) :=
  match l with
  | [] => Ok []
  | r :: l' => both cons r (collect l')
  end.

(** Validators applied one after the other. *)
Fixpoint run (fs : list validator) (v : value) : result value :=
  match fs with
  | [] => Ok v
  | f :: fs' => x <- wrap (f v) ;; run fs' x
  end.

(** The raw value of a field in the input mapping. *)
Fixpoint first_present (names : list string) (d : pydict) : option value :=
  match names with
  | [] => None
  | n :: names' =>
      match dict_get n d with
      | Some v => Some v
      | None => first_present names' d
      end
  end.

Definition lookup (d : pydict) (name : string) (aliases : list string)
  : option value :=
  match aliases with
  | [] => dict_get name d
  | _ => first_present aliases d
  end.

(** The field validators that name [field], in the order of definition. *)
Definition validators_of (h : hooks) (field : string) : list validator :=
  map snd
    (filter (fun nv => existsb (String.eqb field) (fst nv))
       (field_validators h)).

Definition float_of_int (z : Z) : value :=
  VFloat (NilEmpty.string_of_int (Z.to_int z) ++ ".0").

Definition is_str (v : value) : bool :=
  match v with VStr _ => true | _ => false end.

Fixpoint validate (t : ty) (v : value) {struct t} : result value :=
  match t with
  | TStr =>
      match v with
      | VStr _ => Ok v
      | _ => invalid "Input should be a valid string"
      end
  | TInt =>
      match v with
      | VInt _ => Ok v
      | _ => invalid "Input should be a valid integer"
      end
  | TFloat =>
      match v with
      | VFloat _ => Ok v
      | VInt z => Ok (float_of_int z)
      | _ => invalid "Input should be a valid number"
      end
  | TBool =>
      match v with
      | VBool _ => Ok v
      | _ => invalid "Input should be a valid boolean"
      end
  | TDatetime =>
      match v with
      | VDatetime d =>
          if Datetime.datetime_okb d then Ok v
          else invalid "Input should be a valid datetime"
      | VStr s =>
          match Datetime.fromisoformat s with
          | Some d => Ok (VDatetime d)
          | None => invalid "Input should be a valid datetime"
          end
      | _ => invalid "Input should be a valid datetime"
      end
  | TDict =>
      match v with
      | VDict _ => Ok v
      | _ => invalid "Input should be a valid dictionary"
      end
  | TDictOf e =>
      match v with
      | VDict d =>
          vs <- collect (map (fun kv => validate e (snd kv)) d) ;;
          Ok (VDict (combine (map fst d) vs))
      | _ => invalid "Input should be a valid dictionary"
      end
  | TLiteral choices =>
      match v with
      | VStr s =>
          if existsb (String.eqb s) choices then Ok v
          else invalid "Input should be one of the literals"
      | _ => invalid "Input should be one of the literals"
      end
  | TConstrStr lo hi =>
      match v with
      | VStr s =>
          if (lo <=? String.length s)%nat && (String.length s <=? hi)%nat
          then Ok v
          else invalid "String length out of bounds"
      | _ => invalid "Input should be a valid string"
      end
  | TAnyUrl =>
      match v with
      | VStr s =>
          if str_contains "://" s then Ok v
          else invalid "Input should be a valid URL"
      | _ => invalid "URL input should be a string or URL"
      end
  | TList e =>
      match v with
      | VList l => vs <- collect (map (validate e) l) ;; Ok (VList vs)
      | _ => invalid "Input should be a valid list"
      end
  | TAfter t' f => x <- validate t' v ;; wrap (f x)
  | TUnion a b =>
      match validate a v with
      | Ok x => Ok x
      | Raise (ValidationError e1) =>
          match validate b v with
          | Ok y => Ok y
          | Raise (ValidationError e2) => Raise (ValidationError (e1 ++ e2))
          | Raise e => Raise e
          end
      | Raise e => Raise e
      end
  | TModel name fields h =>
      v1 <- run (rev (before h)) v ;;
      match v1 with
      | VDict d =>
          fs <- collect
                  (map (fun fld =>
                          match fld with
                          | mkField n aliases required ft =>
                              match lookup d n aliases with
                              | None =>
                                  if required then invalid "Field required"
                                  else Ok (n, VNone)
                              | Some x =>
                                  y <- (if negb required && is_none x
                                        then Ok VNone else validate ft x) ;;
                                  z <- run (validators_of h n) y ;;
                                  Ok (n, z)
                              end
                          end) fields) ;;
          run (after h) (VObj name fs)
      | VObj cls _ =>
          if String.eqb cls name then run (after h) v1
          else invalid "Input should be a valid dictionary or instance"
      | _ => invalid "Input should be a valid dictionary or instance"
      end
  end.

End Pydantic.
Export Pydantic.

(** * orjson *)

Module Orjson.

Definition hex_digit (n : nat) : ascii :=
  ascii_of_nat (if (n <? 10)%nat then 48 + n else 87 + n).

Definition dquote : ascii := ascii_of_nat 34.
Definition backslash : ascii := ascii_of_nat 92.

Definition escape_char (c : ascii) : string :=
  let n := nat_of_ascii c in
  if Ascii.eqb c dquote then String backslash (String dquote "")
  else if Ascii.eqb c backslash then String backslash (String backslash "")
  else if (n =? 8)%nat then String backslash "b"
  else if (n =? 9)%nat then String backslash "t"
  else if (n =? 10)%nat then String backslash "n"
  else if (n =? 12)%nat then String backslash "f"
  else if (n =? 13)%nat then String backslash "r"
  else if (n <? 32)%nat then
    String backslash
      (String "u" (String "0" (String "0"
         (String (hex_digit (n / 16)) (String (hex_digit (n mod 16)) "")))))
  else String c "".

Definition quote (s : string) : string :=
  String dquote
    (String.concat "" (map escape_char (list_ascii_of_string s))
     ++ String dquote "").

(** [orjson.dumps(v).decode()]: compact JSON, keys in insertion order.  An
    integer outside 64 bits and a model instance are [TypeError]s. *)
Fixpoint dumps (v : value) : result string :=
  match v with
  | VNone => Ok "null"
  | VBool b => Ok (if b then "true" else "false")
  | VInt z =>
      if ((- 2 ^ 63 <=? z) && (z <? 2 ^ 64))%Z
      then Ok (NilEmpty.string_of_int (Z.to_int z))
      else Raise TypeError
  | VFloat r => Ok r
  | VStr s => Ok (quote s)
  | VDatetime d => Ok (quote (Datetime.isoformat d))
  | VList l =>
      items <- mapM dumps l ;;
      Ok ("[" ++ String.concat "," items ++ "]")%string
  | VDict d =>
      items <- mapM (fun kv =>
                       x <- dumps (snd kv) ;;
                       Ok (quote (fst kv) ++ ":" ++ x)%string) d ;;
      Ok ("{" ++ String.concat "," items ++ "}")%string
  | VObj _ _ => Raise TypeError
  end.

(** ** Decoding

    [orjson.loads] on the text a topic's [keywords] column holds: a JSON
    array of strings, or [null].  Any other JSON text decodes to a value
    that [list[str]] rejects, and text that is no JSON is a [ValueError]
    (JSONDecodeError): both end as a validation error, as [None] does
    here. *)

Inductive scan_state : Type :=
| Open
| First
| Elem
| Str (cur : list ascii)
| Esc (cur : list ascii)
| Uni (cur : list ascii) (read : nat) (code : nat)
| Next
| Done.

Definition is_ws (c : ascii) : bool :=
  let n := nat_of_ascii c in
  (n =? 32)%nat || (n =? 9)%nat || (n =? 10)%nat || (n =? 13)%nat.

Definition hex_val (c : ascii) : option nat :=
  let n := nat_of_ascii c in
  if (48 <=? n)%nat && (n <=? 57)%nat then Some (n - 48)
  else if (97 <=? n)%nat && (n <=? 102)%nat then Some (n - 87)
  else if (65 <=? n)%nat && (n <=? 70)%nat then Some (n - 55)
  else None.

Definition unescape (c : ascii) : option ascii :=
  if Ascii.eqb c dquote then Some dquote
  else if Ascii.eqb c backslash then Some backslash
  else if Ascii.eqb c "/" then Some "/"%char
  else if Ascii.eqb c "b" then Some (ascii_of_nat 8)
  else if Ascii.eqb c "f" then Some (ascii_of_nat 12)
  else if Ascii.eqb c "n" then Some (ascii_of_nat 10)
  else if Ascii.eqb c "r" then Some (ascii_of_nat 13)
  else if Ascii.eqb c "t" then Some (ascii_of_nat 9)
  else None.

Fixpoint scan (st : scan_state) (acc : list string) (s : string)
  : option (list string) :=
  match s with
  | EmptyString =>
      match st with
      | Done => Some (rev acc)
      | _ => None
      end
  | String c s' =>
      match st with
      | Open =>
          if is_ws c then scan Open acc s'
          else if Ascii.eqb c "[" then scan First acc s' else None
      | First =>
          if is_ws c then scan First acc s'
          else if Ascii.eqb c "]" then scan Done acc s'
          else if Ascii.eqb c dquote then scan (Str []) acc s' else None
      | Elem =>
          if is_ws c then scan Elem acc s'
          else if Ascii.eqb c dquote then scan (Str []) acc s' else None
      | Str cur =>
          if Ascii.eqb c dquote
          then scan Next (string_of_list_ascii (rev cur) :: acc) s'
          else if Ascii.eqb c backslash then scan (Esc cur) acc s'
          else if (nat_of_ascii c <? 32)%nat then None
          else scan (Str (c :: cur)) acc s'
      | Esc cur =>
          if Ascii.eqb c "u" then scan (Uni cur 0 0) acc s'
          else match unescape c with
               | Some c' => scan (Str (c' :: cur)) acc s'
               | None => None
               end
      | Uni cur read code =>
          match hex_val c with
          | Some h =>
              let code' := (16 * code + h)%nat in
              if (read =? 3)%nat then
                if (code' <? 256)%nat
                then scan (Str (ascii_of_nat code' :: cur)) acc s'
                else None
              else scan (Uni cur (S read) code') acc s'
          | None => None
          end
      | Next =>
          if is_ws c then scan Next acc s'
          else if Ascii.eqb c "," then scan Elem acc s'
          else if Ascii.eqb c "]" then scan Done acc s' else None
      | Done => if is_ws c then scan Done acc s' else None
      end
  end.

Fixpoint lstrip (s : string) : string :=
  match s with
  | String c s' => if is_ws c then lstrip s' else s
  | EmptyString => EmptyString
  end.

Definition is_null (s : string) : bool :=
  match lstrip s with
  | String "n" (String "u" (String "l" (String "l" rest))) =>
      match lstrip rest with EmptyString => true | _ => false end
  | _ => false
  end.

Definition loads (s : string) : option value :=
  if is_null s then Some VNone
  else match scan Open [] s with
       | Some l => Some (VList (map VStr l))
       | None => None
       end.

End Orjson.

(** * openalex_types.utils *)

Module Utils.

(** [check(arg_name, obj)]: is [arg_name] in [obj] and not [None]? *)
Definition check (arg_name : string) (obj : value) : result bool :=
  present <- py_in arg_name obj ;;
  if negb present then Ok false
  else
    x <- py_getitem obj arg_name ;;
    if is_none x then Ok false else Ok true.

End Utils.
Export Utils.

(** * openalex_types.common *)

Module Common.

(** [no_tz(dt)]: the datetime to whole seconds, without time zone. *)
Definition no_tz (dt : value) : result value :=
  match dt with
  | VDatetime d =>
      match Datetime.fromisoformat (Datetime.strftime d) with
      | Some d' => Ok (VStr (Datetime.isoformat d'))
      | None => Raise (ValueError "Invalid isoformat string")
      end
  | _ => Raise TypeError
  end.

(** [check_8601(dt)]. *)
Definition check_8601 (dt : value) : result value :=
  match dt with
  | VDatetime d => Ok (VStr (Datetime.isoformat d))
  | _ => Raise TypeError
  end.

Definition DateTimeNoTZ : ty := TAfter TDatetime no_tz.
Definition Date8601 : ty := TAfter TDatetime check_8601.
Definition CountryCode : ty := TConstrStr 2 2.

(** Declarations are written [opt name T] for [name: Optional[T] = None]
    and [req name T] for [name: T]. *)
Definition opt (name : string) (t : ty) : field_of ty :=
  mkField name [] false t.
Definition req (name : string) (t : ty) : field_of ty :=
  mkField name [] true t.
Definition opt_alias (name : string) (aliases : list string) (t : ty)
  : field_of ty :=
  mkField name aliases false t.

Module OpenAlexObject.
Definition fields : list (field_of ty) := [req "id" TStr].
End OpenAlexObject.

Module SQLTable.

Fixpoint replace_char (c : ascii) (by_ : string) (s : string) : string :=
  match s with
  | EmptyString => EmptyString
  | String c' s' =>
      if Ascii.eqb c c' then (by_ ++ replace_char c by_ s')%string
      else String c' (replace_char c by_ s')
  end.

Definition char_is (i : nat) (c : ascii) (s : string) : bool :=
  match String.get i s with
  | Some c' => Ascii.eqb c c'
  | None => false
  end.

(** The value [to_sql_values] appends for one attribute. *)
Definition sql_value (value : value) : result Py.value :=
  match value with
  | VDict _ => s <- Orjson.dumps value ;; Ok (VStr s)
  | VStr s =>
      if negb (String.eqb s "") && (10 <=? String.length s)%nat then
        if char_is 4 "-" s && char_is 7 "-" s then
          match (if str_contains "T" s || str_contains " " s
                 then Datetime.fromisoformat (replace_char "Z" "+00:00" s)
                 else Datetime.fromisoformat (s ++ "T00:00:00")%string)
          with
          | Some d => Ok (VDatetime d)
          | None => Ok value
          end
        else Ok value
      else Ok value
  | _ => Ok value
  end.

(** [self.to_sql_values()]: the tuple of the attributes named by
    [_sql_order]. *)
Definition to_sql_values (_sql_order : list string) (self : value)
  : result (list value) :=
  mapM (fun key => sql_value (getattr self key)) _sql_order.

(** [str(x)] of a number. *)
Definition str_number (x : value) : option string :=
  match x with
  | VBool b => Some (if b then "True" else "False")
  | VInt z => Some (NilEmpty.string_of_int (Z.to_int z))
  | VFloat r => Some r
  | _ => None
  end.

Fixpoint all_some {A} (l : list (option A)) : option (list A) :=
  match l with
  | [] => Some []
  | Some x :: l' =>
      match all_some l' with
      | Some xs => Some (x :: xs)
      | None => None
      end
  | None :: _ => None
  end.

(** Get arg_name if it exists: the SQL literal of the attribute.  [None]
    stands for what this model leaves out: an attribute the instance does
    not have (an [AttributeError]), and the literals of a date, of a model
    instance, and of a list that holds anything but texts, or anything but
    numbers (there the code takes [str] or [repr] of values whose text is
    not modelled, or raises an [AttributeError]). *)
Definition _get_arg (self : value) (arg_name : string)
  : option (result string) :=
  match self with
  | VObj _ fs =>
      match dict_get arg_name fs with
      | None => None
      | Some arg =>
          match arg with
          | VNone => Some (Ok "NULL")
          | VList [] => Some (Ok "NULL")
          | VList ((VStr _ :: _) as l) =>
              match all_some
                      (map (fun x =>
                              match x with
                              | VStr s =>
                                  Some (String Orjson.dquote
                                          (replace_char "'" "''" s
                                           ++ String Orjson.dquote ""))%string
                              | _ => None
                              end) l)
              with
              | Some parts =>
                  Some (Ok ("'[" ++ String.concat "," parts ++ "]'"))%string
              | None => None
              end
          | VList l =>
              match all_some (map str_number l) with
              | Some parts =>
                  Some (Ok ("'[" ++ String.concat ", " parts ++ "]'"))%string
              | None => None
              end
          | VBool b => Some (Ok (if b then "TRUE" else "FALSE"))
          | VInt _ | VFloat _ =>
              match str_number arg with
              | Some s => Some (Ok s)
              | None => None
              end
          | VDict _ =>
              Some (s <- Orjson.dumps arg ;;
                    Ok ("'" ++ replace_char "'" "''" s ++ "'")%string)
          | VStr s => Some (Ok ("'" ++ replace_char "'" "''" s ++ "'"))%string
          | VDatetime _ | VObj _ _ => None
          end
      end
  | _ => None
  end.

(** SQL string for columns. *)
Definition sql_columns (_sql_order : list string) : string :=
  ("(" ++ String.concat ", " _sql_order ++ ")")%string.

(** SQL string for INSERT; [None] when the literal of a column is left
    out of the model. *)
Definition sql_values (_sql_order : list string) (self : value)
  : option (result string) :=
  match all_some (map (_get_arg self) _sql_order) with
  | Some rs =>
      Some (args <- mapM (fun r => r) rs ;;
            Ok ("(" ++ String.concat ", " args ++ ")")%string)
  | None => None
  end.

End SQLTable.

Module BaseCountByYear.
Definition fields : list (field_of ty) :=
  [ req "year" TInt;
    opt "works_count" TInt;
    opt "cited_by_count" TInt;
    opt "oa_works_count" TInt ].
End BaseCountByYear.

Definition SummaryStats : ty :=
  TModel "SummaryStats"
    [ opt_alias "twoyr_mean_citedness" ["2yr_mean_citedness"] TFloat;
      opt "h_index" TInt;
      opt "i10_index" TInt ]
    no_hooks.

Definition Role : ty :=
  TModel "Role"
    [ req "role" (TLiteral ["institution"; "funder"; "publisher"]);
      req "id" TStr;
      req "works_count" TInt ]
    no_hooks.

End Common.
Export Common.

(** ** Identifier replication, as the before-validators write it *)

Module Replicate.

(** [if check(name, self): self[name][key] = self["id"]]. *)
Definition into (name key : string) (self : value) : result value :=
  c <- check name self ;;
  if c then
    id_ <- py_getitem self "id" ;;
    sub <- py_getitem self name ;;
    sub' <- py_setitem sub key id_ ;;
    py_setitem self name sub'
  else Ok self.

(** [if check(name, self): for x in self[name]: x[key] = self["id"]].  The
    elements of a list are updated in place; a string or a dict in place of
    the list is iterated as Python does, and its elements (strings) take no
    item assignment. *)
Definition into_each (name key : string) (self : value) : result value :=
  c <- check name self ;;
  if c then
    xs <- py_getitem self name ;;
    let assign x := id_ <- py_getitem self "id" ;; py_setitem x key id_ in
    match xs with
    | VList l => l' <- mapM assign l ;; py_setitem self name (VList l')
    | _ => items <- py_iter xs ;; mapM assign items ;;; Ok self
    end
  else Ok self.

End Replicate.

(** * openalex_types.sources *)

Module Sources.

Module SourceCountByYear.
Definition _sql_table_name := "openalex.sources_counts_by_year".
Definition _sql_order :=
  ["source_id"; "year"; "works_count"; "cited_by_count"; "oa_works_count"].
Definition model : ty :=
  TModel "SourceCountByYear"
    (BaseCountByYear.fields ++ [req "source_id" TStr]) no_hooks.
End SourceCountByYear.

Module SourceIDs.
Definition _sql_table_name := "openalex.sources_ids".
Definition _sql_order :=
  ["source_id"; "openalex"; "issn_l"; "issn"; "mag"; "wikidata"; "fatcat"].
Definition model : ty :=
  TModel "SourceIDs"
    [ req "source_id" TStr;
      opt "openalex" TStr;
      opt "issn_l" TStr;
      opt "issn" (TList TStr);
      opt "mag" TInt;
      opt "wikidata" TStr;
      opt "fatcat" TStr ]
    no_hooks.
End SourceIDs.

Definition SourceAPC : ty :=
  TModel "SourceAPC" [opt "price" TInt; opt "currency" TStr] no_hooks.

Definition DehydratedSource : ty :=
  TModel "DehydratedSource"
    (OpenAlexObject.fields ++
     [ opt "issn_l" TStr;
       opt "display_name" TStr;
       opt "is_oa" TBool;
       opt "is_in_doaj" TBool;
       opt "issn" (TList TStr);
       opt "host_organization" TStr;
       opt "host_organization_lineage" (TList TStr);
       opt "host_organization_name" TStr;
       opt "is_core" TBool;
       opt "type" TStr ])
    no_hooks.

Module Source.
Definition _sql_table_name := "openalex.sources".
Definition _sql_order :=
  ["id"; "issn_l"; "issn"; "display_name"; "publisher"; "works_count";
   "cited_by_count"; "is_oa"; "is_in_doaj"; "homepage_url";
   "works_api_url"; "updated_date"].
Definition _sql_subtables := ["counts_by_year"; "ids"].

(** Replicate Source ID. *)
Definition _replicate_id (self : value) : result value :=
  self <- Replicate.into_each "counts_by_year" "source_id" self ;;
  self <- Replicate.into "ids" "source_id" self ;;
  Ok self.

Definition fields : list (field_of ty) :=
  OpenAlexObject.fields ++
  [ opt "issn_l" TStr;
    opt "display_name" TStr;
    opt "publisher" TStr;
    opt "works_count" TInt;
    opt "cited_by_count" TInt;
    opt "is_oa" TBool;
    opt "is_in_doaj" TBool;
    opt "homepage_url" TStr;
    opt "works_api_url" TStr;
    opt "updated_date" DateTimeNoTZ;
    opt "issn" (TList TStr);
    opt "abbreviated_title" TStr;
    opt "alternate_titles" (TList TStr);
    opt "apc_prices" (TList SourceAPC);
    opt "apc_usd" TInt;
    opt "country_code" CountryCode;
    opt "counts_by_year" (TList SourceCountByYear.model);
    opt "host_organization" TStr;
    opt "host_organization_lineage" (TList TStr);
    opt "host_organization_name" TStr;
    opt "ids" SourceIDs.model;
    opt "is_core" TBool;
    opt "summary_stats" SummaryStats;
    opt "type" TStr ].

Definition model : ty :=
  TModel "Source" fields (mkHooks [_replicate_id] [] []).
End Source.

End Sources.

(** * openalex_types.institutions *)

Module Institutions.

Module InstitutionAssociatedInstitution.
Definition _sql_table_name :=
  "openalex.institutions_associated_institutions".
Definition _sql_order :=
  ["institution_id"; "associated_institution_id"; "relationship"].
Definition model : ty :=
  TModel "InstitutionAssociatedInstitution"
    [ opt "institution_id" TStr;
      opt_alias "associated_institution_id"
        ["id"; "associated_institution_id"] TStr;
      opt "relationship" TStr;
      opt "country_code" CountryCode;
      opt "display_name" TStr;
      opt "ror" TStr;
      opt "type" TStr;
      opt "lineage" (TList TStr) ]
    no_hooks.
End InstitutionAssociatedInstitution.

Module InstitutionCountByYear.
Definition _sql_table_name := "openalex.institutions_counts_by_year".
Definition _sql_order :=
  ["institution_id"; "year"; "works_count"; "cited_by_count";
   "oa_works_count"].
Definition model : ty :=
  TModel "InstitutionCountByYear"
    (BaseCountByYear.fields ++ [req "institution_id" TStr]) no_hooks.
End InstitutionCountByYear.

Module InstitutionGeo.
Definition _sql_table_name := "openalex.institutions_geo".
Definition _sql_order :=
  ["institution_id"; "city"; "geonames_city_id"; "region"; "country_code";
   "country"; "latitude"; "longitude"].
Definition model : ty :=
  TModel "InstitutionGeo"
    [ req "institution_id" TStr;
      opt "city" TStr;
      opt "geonames_city_id" TStr;
      opt "region" TStr;
      opt "country_code" CountryCode;
      opt "country" TStr;
      opt "latitude" TFloat;
      opt "longitude" TFloat ]
    no_hooks.
End InstitutionGeo.

Module InstitutionIDs.
Definition _sql_table_name := "openalex.institutions_ids".
Definition _sql_order :=
  ["institution_id"; "openalex"; "ror"; "grid"; "wikipedia"; "wikidata";
   "mag"].
Definition model : ty :=
  TModel "InstitutionIDs"
    [ req "institution_id" TStr;
      opt "openalex" TStr;
      opt "ror" TStr;
      opt "grid" TStr;
      opt "wikidata" TStr;
      opt "wikipedia" TStr;
      opt "mag" TInt ]
    no_hooks.
End InstitutionIDs.

Definition InstitutionInternationl : ty :=
  TModel "InstitutionInternationl"
    [req "display_name" (TDictOf TStr)] no_hooks.

Definition DehydratedInstitution : ty :=
  TModel "DehydratedInstitution"
    (OpenAlexObject.fields ++
     [ opt "country_code" CountryCode;
       opt "display_name" TStr;
       opt "ror" TStr;
       opt "type" TStr;
       opt "lineage" (TList TStr) ])
    no_hooks.

Module Institution.
Definition _sql_table_name := "openalex.institutions".
Definition _sql_order :=
  ["id"; "ror"; "display_name"; "country_code"; "type"; "homepage_url";
   "image_url"; "image_thumbnail_url"; "display_name_acronyms";
   "display_name_alternatives"; "works_count"; "cited_by_count";
   "works_api_url"; "updated_date"].
Definition _sql_subtables :=
  ["associated_institutions"; "counts_by_year"; "geo"; "ids"].

(** Replicate institution_id in 'subtables'. *)
Definition _replicate_id (self : value) : result value :=
  self <- Replicate.into "geo" "institution_id" self ;;
  self <- Replicate.into_each "counts_by_year" "institution_id" self ;;
  self <- Replicate.into "ids" "institution_id" self ;;
  self <- Replicate.into_each "associated_institutions" "institution_id"
            self ;;
  Ok self.

(** Check host_org. *)
Definition _check_repositories (self : value) : result value :=
  match getattr self "repositories" with
  | VNone => Ok self
  | repositories =>
      repos <- py_iter repositories ;;
      if forallb (fun repo =>
                    value_eqb (getattr repo "host_organization")
                      (getattr self "id")) repos
      then Ok self
      else Raise (ValueError "Repository host id doesn't match institution id")
  end.

(** Check if list is not empty. *)
Definition _check_not_empty (val : value) : result value :=
  if is_none val then Ok VNone
  else
    n <- py_len val ;;
    if (n =? 0)%nat then Ok VNone else Ok val.

Definition fields : list (field_of ty) :=
  OpenAlexObject.fields ++
  [ opt "ror" TStr;
    opt "lineage" (TList TStr);
    opt "display_name" TStr;
    opt "country_code" CountryCode;
    opt "type" TStr;
    opt "homepage_url" TStr;
    opt "image_url" TStr;
    opt "image_thumbnail_url" TStr;
    opt "display_name_acronyms" (TList TStr);
    opt "display_name_alternatives" (TList TStr);
    opt "works_count" TInt;
    opt "cited_by_count" TInt;
    opt "works_api_url" TStr;
    opt "updated_date" DateTimeNoTZ;
    opt "geo" InstitutionGeo.model;
    opt "counts_by_year" (TList InstitutionCountByYear.model);
    opt "ids" InstitutionIDs.model;
    opt "associated_institutions"
      (TList InstitutionAssociatedInstitution.model);
    opt "created_date" Date8601;
    opt "is_supersystem" TBool;
    opt "international" InstitutionInternationl;
    opt "repositories"
      (TList (TUnion Sources.Source.model Sources.DehydratedSource));
    opt "summary_stats" SummaryStats;
    opt "roles" (TList Role) ].

Definition hooks : Pydantic.hooks :=
  mkHooks
    [_replicate_id]
    [ (["display_name_acronyms"; "display_name_alternatives";
        "associated_institutions"; "counts_by_year"], _check_not_empty) ]
    [_check_repositories].

Definition model : ty := TModel "Institution" fields hooks.

(** The constructor, called with the record as keyword arguments. *)
Definition new (raw : pydict) : result value := validate model (VDict raw).
End Institution.

End Institutions.

(** * openalex_types.authors *)

Module Authors.

Module AuthorCountByYear.
Definition _sql_table_name := "openalex.authors_counts_by_year".
Definition _sql_order :=
  ["author_id"; "year"; "works_count"; "cited_by_count"; "oa_works_count"].
Definition model : ty :=
  TModel "AuthorCountByYear"
    (BaseCountByYear.fields ++ [req "author_id" TStr]) no_hooks.
End AuthorCountByYear.

Module AuthorIDs.
Definition _sql_table_name := "openalex.authors_ids".
Definition _sql_order :=
  ["author_id"; "openalex"; "orcid"; "scopus"; "twitter"; "wikipedia";
   "mag"].
Definition model : ty :=
  TModel "AuthorIDs"
    [ req "author_id" TStr;
      opt "openalex" TStr;
      opt "orcid" TStr;
      opt "scopus" TStr;
      opt "twitter" TStr;
      opt "wikipedia" TStr;
      opt "mag" TInt ]
    no_hooks.
End AuthorIDs.

Definition AuthorAffiliation : ty :=
  TModel "AuthorAffiliation"
    [ opt "institution" Institutions.DehydratedInstitution;
      opt "years" (TList TInt) ]
    no_hooks.

Definition DehydratedAuthor : ty :=
  TModel "DehydratedAuthor"
    (OpenAlexObject.fields ++ [opt "display_name" TStr; opt "orcid" TStr])
    no_hooks.

Module Author.
Definition _sql_table_name := "openalex.authors".
Definition _sql_order :=
  ["id"; "orcid"; "display_name"; "display_name_alternatives";
   "works_count"; "cited_by_count"; "last_known_institution";
   "works_api_url"; "updated_date"].
Definition _sql_subtables := ["counts_by_year"; "ids"].

(** Replicate author_id in 'subtables'. *)
Definition _replicate_id (self : value) : result value :=
  self <- Replicate.into_each "counts_by_year" "author_id" self ;;
  self <- Replicate.into "ids" "author_id" self ;;
  Ok self.

Fixpoint remove_char (c : ascii) (s : string) : string :=
  match s with
  | EmptyString => EmptyString
  | String c' s' =>
      if Ascii.eqb c c' then remove_char c s'
      else String c' (remove_char c s')
  end.

(** Remove quotation marks from display_name_alternatives. *)
Definition _remove_quotation_marks (v : value) : result value :=
  match v with
  | VNone => Ok VNone
  | _ =>
      xs <- py_iter v ;;
      ys <- mapM (fun x =>
                    match x with
                    | VStr s => Ok (VStr (remove_char Orjson.dquote s))
                    | _ => Raise TypeError
                    end) xs ;;
      Ok (VList ys)
  end.

(** Check if list is not empty. *)
Definition _check_not_empty (val : value) : result value :=
  if is_none val then Ok VNone
  else
    n <- py_len val ;;
    if (n =? 0)%nat then Ok VNone else Ok val.

Definition fields : list (field_of ty) :=
  OpenAlexObject.fields ++
  [ opt "orcid" TStr;
    opt "display_name" TStr;
    opt "display_name_alternatives" (TList TStr);
    opt "works_count" TInt;
    opt "cited_by_count" TInt;
    opt "last_known_institution" TStr;
    opt "works_api_url" TStr;
    opt "updated_date" DateTimeNoTZ;
    opt "ids" AuthorIDs.model;
    opt "counts_by_year" (TList AuthorCountByYear.model);
    opt "affiliations" (TList AuthorAffiliation);
    opt "created_date" Date8601;
    opt "last_known_institutions"
      (TList Institutions.DehydratedInstitution);
    opt "summary_stats" SummaryStats ].

Definition hooks : Pydantic.hooks :=
  mkHooks
    [_replicate_id]
    [ (["display_name_alternatives"], _remove_quotation_marks);
      (["counts_by_year"; "display_name_alternatives"], _check_not_empty) ]
    [].

Definition model : ty := TModel "Author" fields hooks.

(** The constructor, called with the record as keyword arguments. *)
Definition new (raw : pydict) : result value := validate model (VDict raw).
End Author.

End Authors.

(** * openalex_types.topics *)

Module Topics.

Definition TopicDomainOrField : ty :=
  TModel "TopicDomainOrField" [req "id" TStr; req "display_name" TStr]
    no_hooks.

Definition TopicIDs : ty :=
  TModel "TopicIDs" [opt "openalex" TStr; opt "wikipedia" TStr] no_hooks.

Module Topic.
Definition _sql_table_name := "openalex.topics".
Definition _sql_order :=
  ["id"; "display_name"; "subfield_id"; "subfield_display_name";
   "field_id"; "field_display_name"; "domain_id"; "domain_display_name";
   "description"; "keywords"; "works_api_url"; "wikipedia_id";
   "works_count"; "cited_by_count"; "updated_date"].

(** Replicate ID if no ID in IDs. *)
Definition _replicate_id (self : value) : result value :=
  Replicate.into "ids" "openalex" self.

(** Check IDs. *)
Definition _check_ids (self : value) : result value :=
  match getattr self "ids" with
  | VNone => Ok self
  | ids =>
      if value_eqb (getattr ids "openalex") (getattr self "id") then Ok self
      else Raise (ValueError "IDs' ID and object's OpenAlex ID do not match")
  end.

(** Convert keywords to list. *)
Definition _str_to_list (self : value) : result value :=
  keywords <- py_getitem self "keywords" ;;
  match keywords with
  | VStr s =>
      match Orjson.loads s with
      | Some l => py_setitem self "keywords" l
      | None => Raise (ValueError "JSONDecodeError")
      end
  | _ => Ok self
  end.

(** [self.name_id = self.name.id] and the same for [display_name], when
    [self.name] is not [None]. *)
Definition flatten_one (name : string) (self : value) : value :=
  match getattr self name with
  | VNone => self
  | x =>
      let self := setattr self (name ++ "_id") (getattr x "id") in
      setattr self (name ++ "_display_name") (getattr x "display_name")
  end.

(** Flatten and populate. *)
Definition _flatten (self : value) : result value :=
  let self := flatten_one "domain" self in
  let self := flatten_one "field" self in
  let self := flatten_one "subfield" self in
  Ok self.

Definition fields : list (field_of ty) :=
  OpenAlexObject.fields ++
  [ opt "display_name" TStr;
    opt "subfield_id" TStr;
    opt "subfield_display_name" TStr;
    opt "field_id" TStr;
    opt "field_display_name" TStr;
    opt "domain_id" TStr;
    opt "domain_display_name" TStr;
    opt "description" TStr;
    opt "works_api_url" TAnyUrl;
    opt "wikipedia_id" TStr;
    opt "works_count" TInt;
    opt "cited_by_count" TInt;
    opt "updated_date" DateTimeNoTZ;
    opt "domain" TopicDomainOrField;
    opt "field" TopicDomainOrField;
    opt "ids" TopicIDs;
    opt "keywords" (TList TStr);
    opt "subfield" TopicDomainOrField ].

Definition hooks : Pydantic.hooks :=
  mkHooks [_replicate_id; _str_to_list] [] [_check_ids; _flatten].

Definition model : ty := TModel "Topic" fields hooks.

(** The constructor, called with the record as keyword arguments. *)
Definition new (raw : pydict) : result value := validate model (VDict raw).

(** Create Topic from SQL. *)
Definition from_sql (t : list value) : result value :=
  new (dict_zip _sql_order t).
End Topic.

End Topics.

(** * openalex_types.works *)

Module Works.

(** [int(y)] for a position of the inverted index, and the same value as a
    list index.  A position that is no integer makes
    [_construct_abstract_from_index] raise: [int] may reject it, and where it
    does not, indexing the list with it is a [TypeError]; the model raises
    [TypeError] for both. *)
Definition position (y : value) : result Z :=
  match y with
  | VInt z => Ok z
  | VBool b => Ok (if b then 1 else 0)%Z
  | _ => Raise TypeError
  end.

(** [abs_[position] = word]; a negative position counts from the end. *)
Definition list_assign (abs_ : list string) (position : Z) (word : string)
  : result (list string) :=
  let n := Z.of_nat (List.length abs_) in
  let i := (if position <? 0 then n + position else position)%Z in
  if ((0 <=? i) && (i <? n))%Z then
    Ok (firstn (Z.to_nat i) abs_ ++ word :: skipn (S (Z.to_nat i)) abs_)
  else Raise IndexError.

Fixpoint assign_all (abs_ : list string) (word : string) (ps : list Z)
  : result (list string) :=
  match ps with
  | [] => Ok abs_
  | p :: ps' => abs_ <- list_assign abs_ p word ;; assign_all abs_ word ps'
  end.

Fixpoint place (abs_ : list string) (items : list (string * list Z))
  : result (list string) :=
  match items with
  | [] => Ok abs_
  | (word, ps) :: items' =>
      abs_ <- assign_all abs_ word ps ;; place abs_ items'
  end.

(** Construct abstract from inverted index. *)
Definition _construct_abstract_from_index (index : option pydict)
  : result string :=
  match index with
  | None => Ok ""
  | Some index =>
      items <- mapM (fun kv =>
                       x <- py_iter (snd kv) ;;
                       ps <- mapM position x ;;
                       Ok (fst kv, ps)) index ;;
      let list_ := List.concat (map snd items) in
      match list_ with
      | [] => Ok ""
      | y :: ys =>
          let max_ := fold_left Z.max ys y in
          let abs_ := repeat "" (Z.to_nat (max_ + 1)) in
          abs_ <- place abs_ items ;;
          Ok (String.concat " " abs_)
      end
  end.

(** Construct dict from ID. *)
Definition _construct_dict_from_id (work_id other_id : value) : value :=
  VDict [("id", other_id); ("work_id", work_id)].

Module BaseWorkLocation.
Definition _sql_order :=
  ["work_id"; "source_id"; "landing_page_url"; "pdf_url"; "is_oa";
   "version"; "license"].

(** Populate source_id. *)
Definition _populate_source_id (self : value) : result value :=
  match getattr self "source" with
  | VNone => Ok self
  | source => Ok (setattr self "source_id" (getattr source "id"))
  end.

Definition fields : list (field_of ty) :=
  [ opt "work_id" TStr;
    opt "source_id" TStr;
    opt "landing_page_url" TStr;
    opt "pdf_url" TStr;
    opt "is_oa" TBool;
    opt "version"
      (TLiteral ["publishedVersion"; "acceptedVersion"; "submittedVersion"]);
    opt "license" TStr;
    opt "source" Sources.Source.model;
    opt "is_accepted" TBool;
    opt "is_published" TBool ].

Definition hooks : Pydantic.hooks := mkHooks [] [] [_populate_source_id].
End BaseWorkLocation.

Module WorkPrimaryLocation.
Definition _sql_table_name := "openalex.works_primary_locations".
Definition _sql_order := BaseWorkLocation._sql_order.
Definition model : ty :=
  TModel "WorkPrimaryLocation" BaseWorkLocation.fields
    BaseWorkLocation.hooks.
End WorkPrimaryLocation.

Module WorkLocation.
Definition _sql_table_name := "openalex.works_locations".
Definition _sql_order := BaseWorkLocation._sql_order.
Definition model : ty :=
  TModel "WorkLocation" BaseWorkLocation.fields BaseWorkLocation.hooks.
End WorkLocation.

Module WorkBestOALocation.
Definition _sql_table_name := "openalex.works_best_oa_locations".
Definition _sql_order := BaseWorkLocation._sql_order.
Definition model : ty :=
  TModel "WorkBestOALocation" BaseWorkLocation.fields
    BaseWorkLocation.hooks.
End WorkBestOALocation.

Module WorkAuthorship.
Definition _sql_table_name := "openalex.works_authorships".
Definition _sql_order :=
  ["work_id"; "author_position"; "author_id"; "institution_id";
   "raw_affiliation_string"].

(** Replicate author_id. *)
Definition _replicate_id (self : value) : result value :=
  c <- check "author" self ;;
  if c then
    author <- py_getitem self "author" ;;
    id_ <- py_getitem author "id" ;;
    py_setitem self "author_id" id_
  else Ok self.

(** Check author_id. *)
Definition _check_author_id (self : value) : result value :=
  match getattr self "author" with
  | VNone => Ok self
  | author =>
      if value_eqb (getattr author "id") (getattr self "author_id")
      then Ok self
      else Raise (ValueError "author_id must match author.id")
  end.

Definition fields : list (field_of ty) :=
  [ opt "work_id" TStr;
    opt "author_position" (TLiteral ["first"; "last"; "middle"]);
    opt "author_id" TStr;
    opt "institution_id" TStr;
    opt "raw_affiliation_string" TStr;
    opt "author" Authors.DehydratedAuthor;
    opt "countries" (TList TStr);
    opt "institutions" (TList Institutions.DehydratedInstitution);
    opt "is_corresponding" TBool;
    opt "raw_author_name" TStr ].

Definition model : ty :=
  TModel "WorkAuthorship" fields
    (mkHooks [_replicate_id] [] [_check_author_id]).
End WorkAuthorship.

Module WorkBiblio.
Definition _sql_table_name := "openalex.works_biblio".
Definition _sql_order :=
  ["work_id"; "volume"; "issue"; "first_page"; "last_page"].
Definition model : ty :=
  TModel "WorkBiblio"
    [ opt "work_id" TStr;
      opt "volume" TStr;
      opt "issue" TStr;
      opt "first_page" TStr;
      opt "last_page" TStr ]
    no_hooks.
End WorkBiblio.

Module WorkTopic.
Definition _sql_table_name := "openalex.works_topics".
Definition _sql_order := ["work_id"; "topic_id"; "score"].
Definition model : ty :=
  TModel "WorkTopic"
    [ opt_alias "work_id" ["id"; "work_id"] TStr;
      opt "topic_id" TStr;
      opt "score" TFloat;
      opt "subfield" TDict ]
    no_hooks.
End WorkTopic.

Module WorkConcept.
Definition _sql_table_name := "openalex.works_concepts".
Definition _sql_order := ["work_id"; "concept_id"; "score"].
Definition model : ty :=
  TModel "WorkConcept"
    [opt "work_id" TStr; opt "concept_id" TStr; opt "score" TFloat]
    no_hooks.
End WorkConcept.

Module WorkIDs.
Definition _sql_table_name := "openalex.works_ids".
Definition _sql_order :=
  ["work_id"; "openalex"; "doi"; "mag"; "pmid"; "pmcid"].
Definition model : ty :=
  TModel "WorkIDs"
    [ req "work_id" TStr;
      opt "openalex" TStr;
      opt "doi" TStr;
      opt "mag" TInt;
      opt "pmid" TStr;
      opt "pmcid" TStr ]
    no_hooks.
End WorkIDs.

Module WorkMesh.
Definition _sql_table_name := "openalex.works_mesh".
Definition _sql_order :=
  ["work_id"; "descriptor_ui"; "descriptor_name"; "qualifier_ui";
   "qualifier_name"; "is_major_topic"].
Definition model : ty :=
  TModel "WorkMesh"
    [ opt "work_id" TStr;
      opt "descriptor_ui" TStr;
      opt "descriptor_name" TStr;
      opt "qualifier_ui" TStr;
      opt "qualifier_name" TStr;
      opt "is_major_topic" TBool ]
    no_hooks.
End WorkMesh.

Module NomicEmbedText768.
Definition _sql_table_name := "openalex.nomic_embed_text_768".
Definition _sql_order := ["work_id"; "embedding"].
Definition model : ty :=
  TModel "NomicEmbedText768"
    [opt "work_id" TStr; opt "embedding" (TList TFloat)] no_hooks.
End NomicEmbedText768.

Module WorkOpenAccess.
Definition _sql_table_name := "openalex.works_open_access".
Definition _sql_order :=
  ["work_id"; "is_oa"; "oa_status"; "oa_url";
   "any_repository_has_fulltext"].
Definition model : ty :=
  TModel "WorkOpenAccess"
    [ opt "work_id" TStr;
      opt "is_oa" TBool;
      opt "oa_status" TStr;
      opt "oa_url" TStr;
      opt "any_repository_has_fulltext" TBool ]
    no_hooks.
End WorkOpenAccess.

Module WorkReferencedWork.
Definition _sql_table_name := "openalex.works_referenced_works".
Definition _sql_order := ["work_id"; "referenced_work_id"].
Definition model : ty :=
  TModel "WorkReferencedWork"
    [ opt "work_id" TStr;
      opt_alias "referenced_work_id" ["id"; "referenced_work_id"] TStr ]
    no_hooks.
End WorkReferencedWork.

Module WorkRelatedWork.
Definition _sql_table_name := "openalex.works_related_works".
Definition _sql_order := ["work_id"; "related_work_id"].
Definition model : ty :=
  TModel "WorkRelatedWork"
    [ opt "work_id" TStr;
      opt_alias "related_work_id" ["id"; "related_work_id"] TStr ]
    no_hooks.
End WorkRelatedWork.

Definition WorkAPC : ty :=
  TModel "WorkAPC"
    [ opt "value" TInt; opt "currency" TStr; opt "provenance" TStr;
      opt "value_usd" TInt ]
    no_hooks.

Definition WorkCountByYear : ty :=
  TModel "WorkCountByYear" [req "year" TInt; req "cited_by_count" TInt]
    no_hooks.

Definition WorkGrant : ty :=
  TModel "WorkGrant"
    [opt "funder" TStr; opt "funder_display_name" TStr; opt "award_id" TStr]
    no_hooks.

Definition WorkKeyword : ty :=
  TModel "WorkKeyword"
    [opt "id" TStr; opt "display_name" TStr; opt "score" TFloat] no_hooks.

Definition WorkSDG : ty :=
  TModel "WorkSDG"
    [opt "id" TStr; opt "display_name" TStr; opt "score" TFloat] no_hooks.

(** The class and the column order of each subtable. *)
Definition SQL_TABLES_TO_CLASSES : list (string * (ty * list string)) :=
  [ ("primary_location",
      (WorkPrimaryLocation.model, WorkPrimaryLocation._sql_order));
    ("locations", (WorkLocation.model, WorkLocation._sql_order));
    ("best_oa_location",
      (WorkBestOALocation.model, WorkBestOALocation._sql_order));
    ("authorships", (WorkAuthorship.model, WorkAuthorship._sql_order));
    ("biblio", (WorkBiblio.model, WorkBiblio._sql_order));
    ("topics", (WorkTopic.model, WorkTopic._sql_order));
    ("concepts", (WorkConcept.model, WorkConcept._sql_order));
    ("ids", (WorkIDs.model, WorkIDs._sql_order));
    ("mesh", (WorkMesh.model, WorkMesh._sql_order));
    ("open_access", (WorkOpenAccess.model, WorkOpenAccess._sql_order));
    ("referenced_works",
      (WorkReferencedWork.model, WorkReferencedWork._sql_order));
    ("related_works", (WorkRelatedWork.model, WorkRelatedWork._sql_order)) ].

(** which tables have multiple values (list)? *)
Definition MULTIVALUE : list string :=
  ["locations"; "authorships"; "topics"; "concepts"; "mesh";
   "referenced_works"; "related_works"].

Definition sql_order_of (subtable : string) : list string :=
  match dict_get subtable SQL_TABLES_TO_CLASSES with
  | Some (_, order) => order
  | None => []
  end.

Definition str_in (s : string) (l : list string) : bool :=
  existsb (String.eqb s) l.

Module Work.
Definition _sql_table_name := "openalex.works".
Definition _sql_order :=
  ["id"; "doi"; "title"; "display_name"; "publication_year";
   "publication_date"; "type"; "cited_by_count"; "is_retracted";
   "is_paratext"; "cited_by_api_url"; "abstract_inverted_index";
   "language"].
Definition _sql_subtables :=
  ["primary_location"; "locations"; "best_oa_location"; "authorships";
   "biblio"; "topics"; "concepts"; "ids"; "mesh"; "open_access";
   "referenced_works"; "related_works"].

(** Replicate work_id in 'subtables'. *)
Definition _replicate_id_1 (self : value) : result value :=
  self <- Replicate.into_each "counts_by_year" "author_id" self ;;
  self <- Replicate.into "ids" "work_id" self ;;
  self <- Replicate.into_each "locations" "work_id" self ;;
  self <- Replicate.into_each "authorships" "work_id" self ;;
  self <- Replicate.into "biblio" "work_id" self ;;
  Ok self.

(** Replicate IDs in 'subtables'. *)
Definition _replicate_id_2 (self : value) : result value :=
  self <- Replicate.into_each "topics" "work_id" self ;;
  self <- Replicate.into_each "concepts" "work_id" self ;;
  self <- Replicate.into_each "mesh" "work_id" self ;;
  self <- Replicate.into "open_access" "work_id" self ;;
  Ok self.

(** Replicate IDs in 'subtables'. *)
Definition _replicate_id_3 (self : value) : result value :=
  self <- Replicate.into "best_oa_location" "work_id" self ;;
  self <- Replicate.into "primary_location" "work_id" self ;;
  self <- Replicate.into_each "locations" "work_id" self ;;
  Ok self.

(** [for n, x in enumerate(self[name]): self[name][n] =
    _construct_dict_from_id(self["id"], x)], under [check(name, self)].
    Item assignment by position needs a list: a string takes none, and a
    dict that gains the key [n] while it is iterated is a
    [RuntimeError]. *)
Definition wrap_ids (name : string) (self : value) : result value :=
  c <- check name self ;;
  if c then
    xs <- py_getitem self name ;;
    let wrap1 x :=
      id_ <- py_getitem self "id" ;; Ok (_construct_dict_from_id id_ x) in
    match xs with
    | VList l => l' <- mapM wrap1 l ;; py_setitem self name (VList l')
    | VStr s =>
        if String.eqb s "" then Ok self
        else py_getitem self "id" ;;; Raise TypeError
    | VDict d =>
        match d with
        | [] => Ok self
        | _ => py_getitem self "id" ;;; Raise RuntimeError
        end
    | _ => Raise TypeError
    end
  else Ok self.

(** Appropriately format reference and related works as dict. *)
Definition _work_id_ref_related (self : value) : result value :=
  self <- wrap_ids "related_works" self ;;
  self <- wrap_ids "referenced_works" self ;;
  Ok self.

(** The entries one authorship of the record turns into. *)
Definition flatten_authorship (authorship : value) : result (list value) :=
  c <- check "institutions" authorship ;;
  if negb c then Ok [authorship]
  else
    institutions <- py_getitem authorship "institutions" ;;
    empty <- (if is_none institutions then Ok true
              else n <- py_len institutions ;; Ok (n =? 0)%nat) ;;
    if (empty : bool) then Ok [authorship]
    else
      items <- py_iter institutions ;;
      mapM (fun institution =>
              id_ <- py_getitem institution "id" ;;
              authorship_ <- py_setitem authorship "institution_id" id_ ;;
              py_setitem authorship_ "institutions" (VList [institution]))
        items.

(** Flatten authorships, they can have multiple institutions. *)
Definition _flatten_authorships (self : value) : result value :=
  c <- check "authorships" self ;;
  if c then
    xs <- py_getitem self "authorships" ;;
    items <- py_iter xs ;;
    authorships <- mapM flatten_authorship items ;;
    py_setitem self "authorships" (VList (List.concat authorships))
  else Ok self.

(** Validate best_oa_location. *)
Definition _validate_best_oa_location (value : value) : result Py.value :=
  if is_none value then Ok value
  else if negb (py_truthy (getattr value "is_oa"))
  then Raise (ValueError "best_oa_location must be OA.")
  else Ok value.

(** Validate abstract_inverted_index. *)
Definition _validate_abstract_inverted_index (value : value)
  : result Py.value :=
  if is_none value then Ok value
  else
    n <- py_len value ;;
    if (n =? 0)%nat then Ok VNone else Ok value.

Definition fields : list (field_of ty) :=
  OpenAlexObject.fields ++
  [ opt "doi" TStr;
    opt "title" TStr;
    opt "display_name" TStr;
    opt "publication_year" TInt;
    opt "publication_date" Date8601;
    opt "type" TStr;
    opt "cited_by_count" TInt;
    opt "is_retracted" TBool;
    opt "is_paratext" TBool;
    opt "cited_by_api_url" TStr;
    opt "abstract_inverted_index" TDict;
    opt "language" TStr;
    opt "ids" WorkIDs.model;
    opt "locations" (TList WorkLocation.model);
    opt "authorships" (TList WorkAuthorship.model);
    opt "biblio" WorkBiblio.model;
    opt "topics" (TList WorkTopic.model);
    opt "concepts" (TList WorkConcept.model);
    opt "mesh" (TList WorkMesh.model);
    opt "open_access" WorkOpenAccess.model;
    opt "referenced_works" (TList WorkReferencedWork.model);
    opt "related_works" (TList WorkRelatedWork.model);
    opt "apc_list" WorkAPC;
    opt "apc_paid" WorkAPC;
    opt "best_oa_location" WorkBestOALocation.model;
    opt "corresponding_author_ids" (TList TStr);
    opt "corresponding_institution_ids" (TList TStr);
    opt "countries_distinct_count" TInt;
    opt "created_date" Date8601;
    opt "counts_by_year" (TList WorkCountByYear);
    opt "fulltext_origin" (TLiteral ["pdf"; "ngrams"]);
    opt "fwci" TFloat;
    opt "grants" (TList WorkGrant);
    opt "has_fulltext" TBool;
    opt "indexed_in" (TList TStr);
    opt "institutions_distinct_count" TInt;
    opt "keywords" (TList WorkKeyword);
    opt "license" TStr;
    opt "locations_count" TInt;
    opt "primary_location" WorkPrimaryLocation.model;
    opt "primary_topic" WorkTopic.model;
    opt "sustainable_development_goals" (TList WorkSDG);
    opt "type_crossref" TStr;
    opt "updated_date" Date8601;
    opt "abstract_embedding_nomic_embed_text" NomicEmbedText768.model ].

(** The before-validators run last-defined first: the authorships are
    flattened, the relations wrapped, then the identifier replicated. *)
Definition hooks : Pydantic.hooks :=
  mkHooks
    [ _replicate_id_1; _replicate_id_2; _replicate_id_3;
      _work_id_ref_related; _flatten_authorships ]
    [ (["best_oa_location"], _validate_best_oa_location);
      (["abstract_inverted_index"], _validate_abstract_inverted_index) ]
    [].

Definition model : ty := TModel "Work" fields hooks.

(** The constructor, called with the record as keyword arguments. *)
Definition new (raw : pydict) : result value := validate model (VDict raw).

(** Abstract as plain-text. *)
Definition abstract (self : value) : result (option string) :=
  match getattr self "abstract_inverted_index" with
  | VNone => Ok None
  | VDict index =>
      s <- _construct_abstract_from_index (Some index) ;; Ok (Some s)
  | _ => Raise TypeError
  end.

(** The keyword argument [from_sql] builds for one subtable. *)
Definition subtable_arg (subtable : string) (rows : value)
  : result value :=
  if str_in subtable ["referenced_works"; "related_works"] then
    ts <- py_iter rows ;;
    ids <- mapM (fun t => py_index t 1) ts ;;
    Ok (VList ids)
  else if str_in subtable MULTIVALUE then
    ts <- py_iter rows ;;
    ds <- mapM (fun t =>
                  cols <- py_iter t ;;
                  Ok (VDict (dict_zip (sql_order_of subtable) cols))) ts ;;
    Ok (VList ds)
  else
    cols <- py_iter rows ;;
    Ok (VDict (dict_zip (sql_order_of subtable) cols)).

Fixpoint add_subtables (names : list string) (subtables args : pydict)
  : result pydict :=
  match names with
  | [] => Ok args
  | subtable :: names' =>
      match dict_get subtable subtables with
      | Some rows =>
          arg <- subtable_arg subtable rows ;;
          add_subtables names' subtables (dict_set subtable arg args)
      | None => add_subtables names' subtables args
      end
  end.

(** Create Work from SQL, without a connection: from the row of the work
    alone, or with the rows of its subtables already queried. *)
Definition from_sql (t : list value) (subtables : option pydict)
  : result value :=
  let args := dict_zip _sql_order t in
  match subtables with
  | None => new args
  | Some subtables =>
      args <- add_subtables _sql_subtables subtables args ;;
      new args
  end.

End Work.

(** ** Projection

    The rows of one work, table by table, as [process_work_item]
    (scripts/example_upload.py) walks them: the row of the work, then for
    each name of [_sql_subtables] whose attribute is not [None] one row per
    element of a list, or the one row of a single object; each row is the
    [to_sql_values] tuple of its object. *)
Definition subtable_rows (work_ : value) (subtable : string)
  : result (option value) :=
  match getattr work_ subtable with
  | VNone => Ok None
  | VList l =>
      rows <- mapM (SQLTable.to_sql_values (sql_order_of subtable)) l ;;
      Ok (Some (VList (map VList rows)))
  | a =>
      row <- SQLTable.to_sql_values (sql_order_of subtable) a ;;
      Ok (Some (VList row))
  end.

Fixpoint project_subtables (work_ : value) (names : list string)
  : result pydict :=
  match names with
  | [] => Ok []
  | subtable :: names' =>
      rows <- subtable_rows work_ subtable ;;
      rest <- project_subtables work_ names' ;;
      match rows with
      | Some r => Ok ((subtable, r) :: rest)
      | None => Ok rest
      end
  end.

Definition project (work_ : value) : result (list value * pydict) :=
  t <- SQLTable.to_sql_values Work._sql_order work_ ;;
  subtables <- project_subtables work_ Work._sql_subtables ;;
  Ok (t, subtables).

(** The names the before-validators of [Work] write to. *)
Definition work_touched : list string :=
  ["counts_by_year"; "ids"; "locations"; "authorships"; "biblio"; "topics";
   "concepts"; "mesh"; "open_access"; "best_oa_location";
   "primary_location"; "related_works"; "referenced_works"].

End Works.

(** * openalex_types.concepts *)

Module Concepts.

Module ConceptAncestor.
Definition _sql_table_name := "openalex.concepts_ancestors".
Definition _sql_order := ["concept_id"; "ancestor_id"].
Definition model : ty :=
  TModel "ConceptAncestor"
    [ opt "concept_id" TStr;
      opt_alias "ancestor_id" ["id"; "ancestor_id"] TStr ]
    no_hooks.
End ConceptAncestor.

Module ConceptCountByYear.
Definition _sql_table_name := "openalex.concepts_counts_by_year".
Definition _sql_order :=
  ["concept_id"; "year"; "works_count"; "cited_by_count"; "oa_works_count"].
Definition model : ty :=
  TModel "ConceptCountByYear"
    (BaseCountByYear.fields ++ [req "concept_id" TStr]) no_hooks.
End ConceptCountByYear.

Module ConceptIDs.
Definition _sql_table_name := "openalex.concepts_ids".
Definition _sql_order :=
  ["concept_id"; "openalex"; "wikidata"; "wikipedia"; "umls_aui";
   "umls_cui"; "mag"].
Definition model : ty :=
  TModel "ConceptIDs"
    [ req "concept_id" TStr;
      opt "openalex" TStr;
      opt "wikidata" TStr;
      opt "wikipedia" TStr;
      opt "umls_aui" (TList TStr);
      opt "umls_cui" (TList TStr);
      opt "mag" TInt ]
    no_hooks.
End ConceptIDs.

Module ConceptRelatedConcept.
Definition _sql_table_name := "openalex.concepts_related_concepts".
Definition _sql_order := ["concept_id"; "related_concept_id"; "score"].
Definition model : ty :=
  TModel "ConceptRelatedConcept"
    [ opt "concept_id" TStr;
      opt_alias "related_concept_id" ["id"; "related_concept_id"] TStr;
      opt "score" TFloat ]
    no_hooks.
End ConceptRelatedConcept.

Module Concept.
Definition _sql_table_name := "openalex.concepts".
Definition _sql_order :=
  ["id"; "wikidata"; "display_name"; "level"; "description"; "works_count";
   "cited_by_count"; "image_url"; "image_thumbnail_url"; "works_api_url";
   "updated_date"].
Definition _sql_subtables :=
  ["ancestors"; "related_concepts"; "counts_by_year"; "ids"].

(** Replicate self.id. *)
Definition _replicate_id (self : value) : result value :=
  self <- Replicate.into "ids" "concept_id" self ;;
  self <- Replicate.into_each "counts_by_year" "concept_id" self ;;
  self <- Replicate.into_each "ancestors" "concept_id" self ;;
  self <- Replicate.into_each "related_concepts" "concept_id" self ;;
  Ok self.

(** Check if list is not empty. *)
Definition _check_not_empty (val : value) : result value :=
  if is_none val then Ok VNone
  else
    n <- py_len val ;;
    if (n =? 0)%nat then Ok VNone else Ok val.

Definition fields : list (field_of ty) :=
  OpenAlexObject.fields ++
  [ opt "wikidata" TStr;
    opt "display_name" TStr;
    opt "level" TInt;
    opt "description" TStr;
    opt "works_count" TInt;
    opt "cited_by_count" TInt;
    opt "image_url" TStr;
    opt "image_thumbnail_url" TStr;
    opt "works_api_url" TStr;
    opt "updated_date" DateTimeNoTZ;
    opt "ancestors" (TList ConceptAncestor.model);
    opt "related_concepts" (TList ConceptRelatedConcept.model);
    opt "counts_by_year" (TList ConceptCountByYear.model);
    opt "ids" ConceptIDs.model ].

Definition hooks : Pydantic.hooks :=
  mkHooks
    [_replicate_id]
    [ (["ancestors"; "related_concepts"; "counts_by_year"],
       _check_not_empty) ]
    [].

Definition model : ty := TModel "Concept" fields hooks.

(** The constructor, called with the record as keyword arguments. *)
Definition new (raw : pydict) : result value := validate model (VDict raw).
End Concept.

End Concepts.

(** * openalex_types.publishers *)

Module Publishers.

Module PublisherCountByYear.
Definition _sql_table_name := "openalex.publishers_counts_by_year".
Definition _sql_order :=
  ["publisher_id"; "year"; "works_count"; "cited_by_count";
   "oa_works_count"].
Definition model : ty :=
  TModel "PublisherCountByYear"
    (BaseCountByYear.fields ++ [req "publisher_id" TStr]) no_hooks.
End PublisherCountByYear.

Module PublisherIDs.
Definition _sql_table_name := "openalex.publishers_ids".
Definition _sql_order := ["publisher_id"; "openalex"; "ror"; "wikidata"].
Definition model : ty :=
  TModel "PublisherIDs"
    [ opt "publisher_id" TStr;
      opt "openalex" TStr;
      opt "ror" TStr;
      opt "wikidata" TStr ]
    no_hooks.
End PublisherIDs.

Definition ParentPublisher : ty :=
  TModel "ParentPublisher" [opt "id" TStr; opt "display_name" TStr] no_hooks.

Module Publisher.
Definition _sql_table_name := "openalex.publishers".
Definition _sql_order :=
  ["id"; "display_name"; "alternate_titles"; "country_codes";
   "hierarchy_level"; "parent_publisher"; "works_count"; "cited_by_count";
   "sources_api_url"; "updated_date"].
Definition _sql_subtables := ["counts_by_year"; "ids"].

(** Replicate ID. *)
Definition _replicate_id (self : value) : result value :=
  self <- Replicate.into_each "counts_by_year" "publisher_id" self ;;
  self <- Replicate.into "ids" "publisher_id" self ;;
  Ok self.

Definition fields : list (field_of ty) :=
  OpenAlexObject.fields ++
  [ opt "display_name" TStr;
    opt "alternate_titles" (TList TStr);
    opt "country_codes" (TList CountryCode);
    opt "hierarchy_level" TInt;
    opt "parent_publisher" ParentPublisher;
    opt "works_count" TInt;
    opt "cited_by_count" TInt;
    opt "sources_api_url" TStr;
    opt "updated_date" DateTimeNoTZ;
    opt "counts_by_year" (TList PublisherCountByYear.model);
    opt "created_date" Date8601;
    opt "ids" PublisherIDs.model;
    opt "image_thumbnail_url" TStr;
    opt "image_url" TStr;
    opt "lineage" (TList TStr);
    opt "roles" (TList Role);
    opt "summary_stats" SummaryStats ].

Definition hooks : Pydantic.hooks := mkHooks [_replicate_id] [] [].

Definition model : ty := TModel "Publisher" fields hooks.

(** The constructor, called with the record as keyword arguments. *)
Definition new (raw : pydict) : result value := validate model (VDict raw).
End Publisher.

End Publishers.

(** * openalex_types.data *)

Module Data.

(** [s.split(sep)] for a separator of one character. *)
Fixpoint split (sep : ascii) (s : string) : list string :=
  match s with
  | EmptyString => [EmptyString]
  | String c s' =>
      if Ascii.eqb c sep then EmptyString :: split sep s'
      else
        match split sep s' with
        | p :: ps => String c p :: ps
        | [] => [String c EmptyString]
        end
  end.

Module S3Directory.

(** The before-validator of the class: the type and the date of a
    directory of the snapshot, read off its prefix.  [None] stands for the
    [AttributeError] of a prefix that is not text, which this model leaves
    out. *)
Definition _from_prefix (self : value) : option (result value) :=
  match py_getitem self "Prefix" with
  | Raise e => Some (Raise e)
  | Ok (VStr prefix) =>
      if negb (String.prefix "data/" prefix) then
        Some (Raise (ValueError
                       ("Prefix must start with 'data/': " ++ prefix)))
      else
        let parts := split "/" prefix in
        if negb (List.length parts =? 4)%nat then
          Some (Raise (ValueError ("Prefix must have 3 parts: " ++ prefix)))
        else
          Some (type_ <- py_index (VList (map VStr parts)) 1 ;;
                self <- py_setitem self "type" type_ ;;
                match nth_error parts 2 with
                | Some part =>
                    date <- py_index (VList (map VStr (split "=" part))) 1 ;;
                    py_setitem self "date" date
                | None => Raise IndexError
                end)
  | Ok _ => None
  end.

End S3Directory.

End Data.

(** * Vocabulary of the statements *)

Module Spec.

(** The validated value of one declared field of a model, read from the
    input mapping [d]: the body of the loop over the fields in
    [Pydantic.validate]. *)
Definition field_value (h : hooks) (d : pydict) (fld : field_of ty)
  : result (string * value) :=
  match lookup d (fname fld) (faliases fld) with
  | None =>
      if frequired fld then invalid "Field required"
      else Ok (fname fld, VNone)
  | Some x =>
      y <- (if negb (frequired fld) && is_none x
            then Ok VNone else validate (ftype fld) x) ;;
      z <- run (validators_of h (fname fld)) y ;;
      Ok (fname fld, z)
  end.

(** Text that [to_sql_values] takes for a date: ten characters or more with
    a hyphen at positions 4 and 7. *)
Definition datelike (s : string) : bool :=
  (10 <=? String.length s)%nat
  && SQLTable.char_is 4 "-" s && SQLTable.char_is 7 "-" s.

(** A value [to_sql_values] hands over as it is. *)
Definition plain (v : value) : bool :=
  match v with
  | VDict _ => false
  | VStr s => negb (datelike s)
  | _ => true
  end.

Definition raises {A} (r : result A) : Prop :=
  exists e, r = Raise e.

(** A validator frames the key [k]: it maps a mapping to a mapping with the
    same entry at [k]. *)
Definition frames (k : string) (V : validator) : Prop :=
  forall r v, V (VDict r) = Ok v ->
    exists r', v = VDict r' /\ dict_get k r' = dict_get k r.

(** The inverted index that records the words [items] at integer
    positions. *)
Definition index_of (items : list (string * list Z)) : pydict :=
  map (fun wp => (fst wp, VList (map VInt (snd wp)))) items.

(** The word a slot ends with: the last word of [items] recorded at the
    position [p], and [default] when there is none. *)
Definition word_at (items : list (string * list Z)) (p : Z)
    (default : string) : string :=
  fold_left (fun acc wp =>
               if existsb (Z.eqb p) (snd wp) then fst wp else acc)
    items default.

(** The largest position of a non-empty index. *)
Definition max_position (items : list (string * list Z)) : Z :=
  match List.concat (map snd items) with
  | [] => (-1)%Z
  | y :: ys => fold_left Z.max ys y
  end.

(** An [abstract_inverted_index] that yields no abstract. *)
Definition no_index (x : option value) : Prop :=
  x = None \/ x = Some VNone \/ x = Some (VDict []).

(** The mapping without the key [k]. *)
Definition dict_remove {A} (k : string) (d : list (string * A))
  : list (string * A) :=
  filter (fun kv => negb (String.eqb k (fst kv))) d.

(** A result that is a mapping, without the key [k]. *)
Definition without (k : string) (r : result value) : result value :=
  match r with
  | Ok (VDict d) => Ok (VDict (dict_remove k d))
  | _ => r
  end.

(** On a record whose field [f] is the empty list, the validator [V] does
    to the record without [f] what it does to the record, and keeps the
    empty list. *)
Definition ignores_empty (f : string) (V : validator) : Prop :=
  forall r, dict_get f r = Some (VList []) ->
    V (VDict (dict_remove f r)) = without f (V (VDict r))
    /\ forall v, V (VDict r) = Ok v ->
         exists r', v = VDict r' /\ dict_get f r' = Some (VList []).

(** The declaration [fld] reads the record without the empty list [f] as
    it reads the record: it is another field, or it is the optional list
    field [f] itself and the field validators of the class turn the empty
    list into [None]. *)
Definition collapses (h : hooks) (f : string) (fld : field_of ty) : Prop :=
  faliases fld = []
  /\ (fname fld <> f
      \/ (fname fld = f /\ frequired fld = false
          /\ (exists t, ftype fld = TList t)
          /\ run (validators_of h f) (VList []) = Ok VNone)).






(** Declared types whose values are scalars. *)
Definition scalar_ty (t : ty) : bool :=
  match t with
  | TStr | TInt | TFloat | TBool | TLiteral _ | TConstrStr _ _ | TAnyUrl =>
      true
  | _ => false
  end.

Definition is_dict (v : value) : bool :=
  match v with VDict _ => true | _ => false end.

(** The rows [g] of the authorships table that one authorship [a] of the
    record accounts for.  With N >= 1 institutions: N rows, the k-th with
    the id of the k-th institution in the column institution_id (column 3,
    as [to_sql_values] hands it over), all with the same values in the
    other columns.  With no institutions (the key absent, null, or the empty
    list): one row, whose institution_id is null when the authorship itself
    gives none. *)
Definition fanout_rows (a : value) (g : list (list value)) : Prop :=
  match a with
  | VDict d =>
      match dict_get "institutions" d with
      | Some (VList (i :: rest)) =>
          Forall2 (fun inst row =>
                     exists idv, py_getitem inst "id" = Ok idv
                       /\ SQLTable.sql_value idv = Ok (nth 3 row VNone))
            (i :: rest) g
          /\ (forall row row' c,
                In row g -> In row' g -> c <> 3%nat ->
                nth c row VNone = nth c row' VNone)
      | None | Some VNone | Some (VList []) =>
          exists row, g = [row]
            /\ (dict_get "institution_id" d = None
                \/ dict_get "institution_id" d = Some VNone ->
                nth 3 row VNone = VNone)
      | Some _ => True
      end
  | _ => True
  end.

(** The row of the authorships table for the entry [x] of the flattened
    record, once the id [idv] of the work is replicated into it. *)
Definition authorship_row (idv x : value) (row : list value) : Prop :=
  exists dx o,
    x = VDict dx
    /\ validate Works.WorkAuthorship.model
         (VDict (dict_set "work_id" idv dx)) = Ok o
    /\ SQLTable.to_sql_values Works.WorkAuthorship._sql_order o = Ok row.

(** A value that the declaration [fld] reads as it is: [None] under an
    optional declaration, or a value its type validates to itself. *)
Definition stable (fld : field_of ty) (z : value) : Prop :=
  (if negb (frequired fld) && is_none z then Ok VNone
   else validate (ftype fld) z) = Ok z.

Definition fields_of (t : ty) : list (field_of ty) :=
  match t with TModel _ fields _ => fields | _ => [] end.

(** The attribute [k] of [o] is declared in [fields], its value reads as
    it is, and [to_sql_values] hands it over as it is. *)
Definition column_ok (fields : list (field_of ty)) (o : value) (k : string)
  : Prop :=
  match find (fun f => String.eqb k (fname f)) fields with
  | Some fld => stable fld (getattr o k) /\ plain (getattr o k) = true
  | None => False
  end.

Definition row_ok (model : ty) (order : list string) (o : value) : Prop :=
  Forall (column_ok (fields_of model) o) order.

(** The mapping [from_sql] builds from the row of [o]. *)
Definition reread (order : list string) (o : value) : value :=
  VDict (dict_zip order (map (getattr o) order)).

(** The columns of [o] alone: the instance whose attributes in [order] are
    those of [o] and whose other attributes are [None]. *)
Definition restored (model : ty) (order : list string) (o : value)
  : value :=
  match model with
  | TModel cls fields _ =>
      VObj cls
        (map (fun fld =>
                (fname fld,
                 if Works.str_in (fname fld) order
                 then getattr o (fname fld) else VNone))
           fields)
  | _ => VNone
  end.

(** The value [to_sql_values] hands over for the attribute value [v]. *)
Definition sql_of (v : value) : value :=
  match SQLTable.sql_value v with Ok c => c | Raise _ => VNone end.

(** The declaration [fld] reads what [to_sql_values] hands over for [v] as
    [v]. *)
Definition reads_back (fld : field_of ty) (v : value) : Prop :=
  exists c,
    SQLTable.sql_value v = Ok c
    /\ (if negb (frequired fld) && is_none c then Ok VNone
        else validate (ftype fld) c) = Ok v.

Definition is_relation (name : string) : bool :=
  Works.str_in name ["referenced_works"; "related_works"].

Definition model_of (subtable : string) : ty :=
  match dict_get subtable Works.SQL_TABLES_TO_CLASSES with
  | Some (model, _) => model
  | None => TStr
  end.

(** The keyword argument [from_sql] builds for a subtable from the rows of
    the work [O]. *)
Definition arg_of (O : value) (subtable : string) : option value :=
  match getattr O subtable with
  | VNone => None
  | VList l =>
      Some (VList
              (map (fun o =>
                      if is_relation subtable
                      then getattr o (nth 1 (Works.sql_order_of subtable) "")
                      else reread (Works.sql_order_of subtable) o) l))
  | o => Some (reread (Works.sql_order_of subtable) o)
  end.

(** The columns of a subtable attribute alone. *)
Definition restored_attr (O : value) (subtable : string) : value :=
  match getattr O subtable with
  | VNone => VNone
  | VList l =>
      VList (map (restored (model_of subtable)
                    (Works.sql_order_of subtable)) l)
  | o => restored (model_of subtable) (Works.sql_order_of subtable) o
  end.

(** The work that holds what the tables hold of [O]: its columns, the
    columns of the objects of its subtables, and [None] elsewhere. *)
Definition restored_work (O : value) : value :=
  VObj "Work"
    (map (fun fld =>
            (fname fld,
             if Works.str_in (fname fld) Works.Work._sql_order
             then getattr O (fname fld)
             else if Works.str_in (fname fld) Works.Work._sql_subtables
                  then restored_attr O (fname fld)
                  else VNone))
       Works.Work.fields).

(** An object of a subtable whose columns read back and which carries the
    id of the work. *)
Definition entry_ok (O : value) (subtable : string) (o : value) : Prop :=
  row_ok (model_of subtable) (Works.sql_order_of subtable) o
  /\ getattr o "work_id" = getattr O "id".

Definition sub_ok (O : value) (subtable : string) : Prop :=
  match getattr O subtable with
  | VNone => True
  | VList l =>
      Works.str_in subtable Works.MULTIVALUE = true
      /\ Forall (entry_ok O subtable) l
  | o =>
      Works.str_in subtable Works.MULTIVALUE = false
      /\ entry_ok O subtable o
  end.

(** A work whose rows [from_sql] reads back. *)
Definition ready (O : value) : Prop :=
  Forall (fun k =>
            match find (fun f => String.eqb k (fname f)) Works.Work.fields
            with
            | Some fld => reads_back fld (getattr O k)
            | None => False
            end) Works.Work._sql_order
  /\ getattr O "abstract_inverted_index" = VNone
  /\ Forall (sub_ok O) Works.Work._sql_subtables
  /\ (getattr O "best_oa_location" = VNone
      \/ py_truthy (getattr (getattr O "best_oa_location") "is_oa") = true).

(** A mapping that carries [idv] under [key]. *)
Definition keyed (key : string) (idv v : value) : Prop :=
  exists dx, v = VDict dx /\ dict_get key dx = Some idv.

(** An entry of a record into which the id is replicated already: absent,
    null, or a mapping that carries it. *)
Definition keyed_entry (key : string) (idv : value) (x : option value)
  : Prop :=
  match x with
  | None | Some VNone => True
  | Some v => keyed key idv v
  end.

Definition keyed_entries (key : string) (idv : value) (x : option value)
  : Prop :=
  match x with
  | None | Some VNone => True
  | Some (VList l) => Forall (keyed key idv) l
  | Some _ => False
  end.

(** The keyword arguments [from_sql] builds from the rows of [O], by
    name. *)
Definition args_of (O : value) (k : string) : option value :=
  if Works.str_in k Works.Work._sql_order then Some (sql_of (getattr O k))
  else if Works.str_in k Works.Work._sql_subtables then arg_of O k
  else None.

(** The same once the before-validators of the work have run: the
    identifiers of the relations are wrapped. *)
Definition wrapped_of (O : value) (k : string) : option value :=
  if is_relation k then
    match args_of O k with
    | Some (VList l) =>
        Some (VList (map (Works._construct_dict_from_id (getattr O "id")) l))
    | x => x
    end
  else args_of O k.

(** Whatever the record holds, the validator [V] leaves under [name] an
    entry that is [P] of the id of the record. *)
Definition ensures (P : value -> option value -> Prop) (name : string)
    (V : validator) : Prop :=
  forall r r' idv,
    V (VDict r) = Ok (VDict r') ->
    dict_get "id" r = Some idv ->
    P idv (dict_get name r').

(** A list entry whose elements carry [idv] under [key]. *)
Definition keyed_list (key : string) (idv : value) (x : option value)
  : Prop :=
  match x with
  | Some (VList l) => Forall (keyed key idv) l
  | _ => True
  end.

(** A list entry whose elements are identifiers wrapped with [idv]. *)
Definition wrapped_list (idv : value) (x : option value) : Prop :=
  match x with
  | Some (VList l') =>
      exists l, l' = map (Works._construct_dict_from_id idv) l
  | _ => True
  end.

(** Declared types of text. *)
Definition text_ty (t : ty) : bool :=
  match t with
  | TStr | TLiteral _ | TConstrStr _ _ | TAnyUrl => true
  | _ => false
  end.

(** What a column of text holds when [to_sql_values] hands it over as it
    is: null, or text that is not date-like. *)
Definition plain_text (v : value) : bool :=
  match v with
  | VNone => true
  | VStr s => negb (datelike s)
  | _ => false
  end.

Definition text_column (model : ty) (k : string) : bool :=
  match find (fun f => String.eqb k (fname f)) (fields_of model) with
  | Some fld => text_ty (ftype fld)
  | None => false
  end.

(** The columns of text of [o] hold plain text. *)
Definition texts_plain (model : ty) (order : list string) (o : value)
  : bool :=
  forallb (fun k => if text_column model k then plain_text (getattr o k)
                    else true) order.

(** The same for a work and the objects of its subtables. *)
Definition work_texts_plain (O : value) : bool :=
  texts_plain Works.Work.model Works.Work._sql_order O
  && forallb (fun subtable =>
                match getattr O subtable with
                | VNone => true
                | VList l =>
                    forallb (texts_plain (model_of subtable)
                               (Works.sql_order_of subtable)) l
                | o =>
                    texts_plain (model_of subtable)
                      (Works.sql_order_of subtable) o
                end) Works.Work._sql_subtables.

(** Every topic of the work carries the id of the work as its work_id. *)
Definition topics_keyed (O : value) : bool :=
  match getattr O "topics" with
  | VList l =>
      forallb (fun o => value_eqb (getattr o "work_id") (getattr O "id")) l
  | _ => true
  end.

(** A column declared with a scalar type and without field validators. *)
Definition scalar_column (h : hooks) (fields : list (field_of ty))
    (k : string) : bool :=
  match find (fun f => String.eqb k (fname f)) fields with
  | Some fld =>
      scalar_ty (ftype fld)
      && match validators_of h (fname fld) with
         | [] => true
         | _ => false
         end
  | None => false
  end.

(** [Work.from_sql] on the rows of [O]: the row of the work and the rows of
    its subtables, each built in the column order of its table. *)
Definition hydrated (O : value) : result value :=
  p <- Works.project O ;; Works.Work.from_sql (fst p) (Some (snd p)).

(** The datetime [d] to whole seconds, without time zone. *)
Definition whole_seconds (d : datetime) : datetime :=
  mkDatetime (dt_year d) (dt_month d) (dt_day d) (dt_hour d) (dt_minute d)
    (dt_second d) 0 None.

(** Text without the character [c]. *)
Definition lacks (c : ascii) (s : string) : Prop :=
  ~ In c (list_ascii_of_string s).

(** Text in which every single quote is one of a pair of adjacent single
    quotes; [pending] says that the text comes after the first quote of a
    pair. *)
Fixpoint quotes_paired (pending : bool) (s : string) : bool :=
  match s with
  | EmptyString => negb pending
  | String c s' =>
      if Ascii.eqb c "'" then quotes_paired (negb pending) s'
      else if pending then false else quotes_paired false s'
  end.

(** An attribute value that is text, a list of texts, or a mapping. *)
Definition textual (v : value) : Prop :=
  match v with
  | VStr _ | VDict _ => True
  | VList (VStr _ :: _) => True
  | _ => False
  end.

(** The validator [V] keeps the empty list of the record under [f]. *)
Definition keeps_empty (f : string) (V : validator) : Prop :=
  forall r v, dict_get f r = Some (VList []) -> V (VDict r) = Ok v ->
    exists r', v = VDict r' /\ dict_get f r' = Some (VList []).

(** The text a literal stands for: each pair of adjacent single quotes read
    as one single quote; [pending] says that the text comes after the first
    quote of a pair. *)
Fixpoint undouble (pending : bool) (s : string) : string :=
  match s with
  | EmptyString => EmptyString
  | String c s' =>
      if Ascii.eqb c "'" then
        if pending then undouble false s' else String c (undouble true s')
      else String c (undouble false s')
  end.

(** A text between quotation marks. *)
Definition quoted (s : string) : string :=
  String Orjson.dquote (s ++ String Orjson.dquote "").

(** The constructor [new] reads a record whose field [f] is the empty list
    as it reads the record without the field. *)
Definition absent_when_empty (new : pydict -> result value) (f : string)
  : Prop :=
  forall raw, dict_get f raw = Some (VList []) ->
    new (dict_remove f raw) = new raw.

(** Every object [new] makes of a record whose field [f] is the empty list
    has the empty list, not [None], as its [f]. *)
Definition kept_when_empty (new : pydict -> result value) (f : string)
  : Prop :=
  forall raw w, dict_get f raw = Some (VList []) ->
    new raw = Ok w -> getattr w f = VList [].

End Spec.
Export Spec.

(** * Properties *)

(** ** Dictionaries *)

Section DictFacts.
Context {A : Type}.
Implicit Types (d : list (string * A)) (k : string) (v : A).

Lemma dict_get_set_same k v d : dict_get k (dict_set k v d) = Some v.
Proof.
  induction d as [|[k' v'] d IH]; simpl.
  - now rewrite String.eqb_refl.
  - destruct (String.eqb k k') eqn:E; simpl; rewrite ?String.eqb_refl, ?E;
      auto.
Qed.

Lemma dict_get_set_other k k' v d :
  k <> k' -> dict_get k (dict_set k' v d) = dict_get k d.
Proof.
  intros Hne. induction d as [|[k2 v2] d IH]; simpl.
  - apply String.eqb_neq in Hne. now rewrite Hne.
  - destruct (String.eqb k' k2) eqn:E; simpl.
    + apply String.eqb_eq in E. subst k2.
      apply String.eqb_neq in Hne. now rewrite Hne.
    + now rewrite IH.
Qed.

Lemma dict_set_id k v d : dict_get k d = Some v -> dict_set k v d = d.
Proof.
  induction d as [|[k' v'] d IH]; simpl; [discriminate|].
  destruct (String.eqb k k') eqn:E.
  - intros [= ->]. apply String.eqb_eq in E. now subst.
  - intros H. now rewrite IH.
Qed.


Lemma dict_mem_set_other k k' v d :
  k <> k' -> dict_mem k (dict_set k' v d) = dict_mem k d.
Proof. intros H. unfold dict_mem. now rewrite dict_get_set_other. Qed.
End DictFacts.

(** ** Results *)

Lemma bind_ok {A B} (r : result A) (k : A -> result B) (b : B) :
  bind r k = Ok b -> exists a, r = Ok a /\ k a = Ok b.
Proof. destruct r as [a|e]; simpl; [eauto | discriminate]. Qed.

Lemma wrap_ok {A} (r : result A) (a : A) : wrap r = Ok a -> r = Ok a.
Proof. destruct r as [x|[]]; simpl; congruence. Qed.

Lemma wrap_Ok {A} (a : A) : wrap (Ok a) = Ok a.
Proof. reflexivity. Qed.

Section MapMFacts.
Context {A B : Type} (f : A -> result B).

Lemma mapM_ok l ys :
  mapM f l = Ok ys -> Forall2 (fun x y => f x = Ok y) l ys.
Proof.
  revert ys. induction l as [|x l IH]; simpl; intros ys H.
  - injection H as <-. constructor.
  - destruct (f x) as [y|] eqn:E; [|discriminate].
    destruct (mapM f l) as [ys'|]; [|discriminate].
    injection H as <-. constructor; auto.
Qed.

Lemma mapM_of_Forall2 l ys :
  Forall2 (fun x y => f x = Ok y) l ys -> mapM f l = Ok ys.
Proof.
  induction 1 as [|x y l ys H _ IH]; simpl; [reflexivity|].
  now rewrite H, IH.
Qed.

Lemma mapM_length l ys : mapM f l = Ok ys -> List.length ys = List.length l.
Proof.
  intros H. apply mapM_ok in H. symmetry. eapply Forall2_length; eauto.
Qed.

Lemma mapM_app l1 l2 :
  mapM f (l1 ++ l2)
  = (ys1 <- mapM f l1 ;; ys2 <- mapM f l2 ;; Ok (ys1 ++ ys2)).
Proof.
  induction l1 as [|x l1 IH]; simpl.
  - destruct (mapM f l2); reflexivity.
  - destruct (f x); [|reflexivity]. rewrite IH.
    destruct (mapM f l1); simpl; [|reflexivity].
    destruct (mapM f l2); reflexivity.
Qed.
End MapMFacts.

Lemma mapM_ext {A B} (f g : A -> result B) l :
  (forall x, In x l -> f x = g x) -> mapM f l = mapM g l.
Proof.
  induction l as [|x l IH]; simpl; intros H; [reflexivity|].
  rewrite (H x) by auto. rewrite IH by auto. reflexivity.
Qed.

Lemma mapM_fixed {A} (f : A -> result A) l :
  Forall (fun x => f x = Ok x) l -> mapM f l = Ok l.
Proof.
  induction 1 as [|x l H _ IH]; simpl; [reflexivity|]. now rewrite H, IH.
Qed.

Lemma both_ok {A B C} (f : A -> B -> C) ra rb c :
  both f ra rb = Ok c -> exists a b, ra = Ok a /\ rb = Ok b /\ c = f a b.
Proof.
  destruct ra as [a|[]], rb as [b|[]]; simpl; try discriminate.
  intros [= <-]. eauto.
Qed.

Lemma collect_ok {A} (l : list (result A)) xs :
  collect l = Ok xs <-> l = map Ok xs.
Proof.
  revert xs. induction l as [|r l IH]; simpl; intros xs.
  - split; [intros [= <-]; reflexivity | destruct xs; [reflexivity | discriminate]].
  - split.
    + intros H. apply both_ok in H as (a & b & -> & Hb & ->).
      apply IH in Hb. simpl. congruence.
    + destruct xs as [|x xs]; [discriminate|]. simpl. intros [= -> Hl].
      apply IH in Hl. now rewrite Hl.
  Qed.

Lemma collect_map_ok {A B} (f : A -> result B) l ys :
  collect (map f l) = Ok ys -> Forall2 (fun x y => f x = Ok y) l ys.
Proof.
  revert ys. induction l as [|x l IH]; simpl; intros ys H.
  - injection H as <-. constructor.
  - apply both_ok in H as (a & b & Ha & Hb & ->). constructor; auto.
Qed.

Lemma collect_map_of_Forall2 {A B} (f : A -> result B) l ys :
  Forall2 (fun x y => f x = Ok y) l ys -> collect (map f l) = Ok ys.
Proof.
  induction 1 as [|x y l ys H _ IH]; simpl; [reflexivity|].
  now rewrite H, IH.
Qed.

Lemma collect_raises {A} (l : list (result A)) r :
  In r l -> raises r -> raises (collect l).
Proof.
  induction l as [|r' l IH]; simpl; [tauto|].
  intros [->|Hin] Hr.
  - destruct Hr as [e ->]. unfold both.
    destruct e; try (eexists; reflexivity).
    destruct (collect l) as [|[]]; eexists; reflexivity.
  - destruct (IH Hin Hr) as [e He]. rewrite He. unfold both.
    destruct r' as [a|[]]; try (eexists; reflexivity);
      destruct e; eexists; reflexivity.
Qed.

Lemma raises_not_ok {A} (r : result A) a : raises r -> r <> Ok a.
Proof. intros [e ->]. discriminate. Qed.

(** ** Model validation, unfolded *)

Lemma validate_model_eq name fields h v :
  validate (TModel name fields h) v =
  (v1 <- run (rev (before h)) v ;;
   match v1 with
   | VDict d =>
       fs <- collect (map (field_value h d) fields) ;;
       run (after h) (VObj name fs)
   | VObj cls _ =>
       if String.eqb cls name then run (after h) v1
       else invalid "Input should be a valid dictionary or instance"
   | _ => invalid "Input should be a valid dictionary or instance"
   end).
Proof.
  cbn [validate]. destruct (run (rev (before h)) v) as [v1|]; [|reflexivity].
  cbn [bind]. destruct v1; try reflexivity.
  f_equal. f_equal. apply map_ext. intros [n al rq ft]. reflexivity.
Qed.

Lemma validate_list_eq e v :
  validate (TList e) v =
  match v with
  | VList l => vs <- collect (map (validate e) l) ;; Ok (VList vs)
  | _ => invalid "Input should be a valid list"
  end.
Proof. reflexivity. Qed.

(** ** datetime: reading back what [isoformat] prints *)

Section DatetimeFacts.
Import Datetime.
Open Scope Z_scope.

Lemma digit_val_digit n : digit_val (digit n) = Some (n mod 10).
Proof.
  unfold digit_val, digit.
  assert (H : 0 <= n mod 10 < 10) by (apply Z.mod_pos_bound; lia).
  rewrite nat_ascii_embedding by lia.
  replace (Z.of_nat (48 + Z.to_nat (n mod 10))) with (48 + n mod 10) by lia.
  replace ((48 <=? 48 + n mod 10) && (48 + n mod 10 <=? 57)) with true.
  - f_equal. lia.
  - symmetry. apply andb_true_iff. split; apply Z.leb_le; lia.
Qed.

Lemma take2_digits a b rest :
  take2 (String (digit a) (String (digit b) rest))
  = Some (10 * (a mod 10) + b mod 10, rest).
Proof. unfold take2. rewrite !digit_val_digit. reflexivity. Qed.

Lemma take2_pad2 n rest : 0 <= n < 100 -> take2 (pad2 n ++ rest) = Some (n, rest).
Proof.
  intros H. unfold pad2. cbn [String.append]. rewrite take2_digits.
  f_equal. f_equal. Z.to_euclidean_division_equations. lia.
Qed.

Lemma take4_pad4 n rest : 0 <= n < 10000 -> take4 (pad4 n ++ rest) = Some (n, rest).
Proof.
  intros H. unfold take4, pad4, pad2. cbn [String.append]. rewrite !take2_digits.
  f_equal. f_equal. Z.to_euclidean_division_equations. lia.
Qed.

Lemma take6_pad6 n rest : 0 <= n < 1000000 -> take6 (pad6 n ++ rest) = Some (n, rest).
Proof.
  intros H. unfold take6, take4, pad6, pad4, pad2. cbn [String.append]. rewrite !take2_digits.
  f_equal. f_equal. Z.to_euclidean_division_equations. lia.
Qed.

Lemma okb_bounds d : datetime_okb d = true ->
  1 <= dt_year d <= 9999 /\ 1 <= dt_month d <= 12 /\ 1 <= dt_day d <= 31
  /\ 0 <= dt_hour d < 24 /\ 0 <= dt_minute d < 60 /\ 0 <= dt_second d < 60
  /\ 0 <= dt_microsecond d < 1000000
  /\ match dt_utcoffset d with None => True | Some o => -86400 < o < 86400 end.
Proof.
  unfold datetime_okb. rewrite !andb_true_iff.
  intros H. 
  assert (Hd : days_in_month (dt_year d) (dt_month d) <= 31).
  { unfold days_in_month. repeat match goal with |- context [if ?b then _ else _] => destruct b end; lia. }
  destruct (dt_utcoffset d); try rewrite andb_true_iff in H; lia.
Qed.

Lemma take2_pad2_end n : 0 <= n < 100 -> take2 (pad2 n) = Some (n, "").
Proof.
  intros H. unfold pad2. rewrite take2_digits.
  f_equal. f_equal. Z.to_euclidean_division_equations. lia.
Qed.

Lemma parse_offset_format o :
  -86400 < o < 86400 -> parse_offset (format_offset o) = Some (Some o).
Proof.
  intros Ho. unfold format_offset.
  set (a := Z.abs o).
  assert (Habs : a = Z.abs o) by reflexivity. clearbody a.
  assert (Ha : 0 <= a < 86400) by lia.
  assert (H1 : 0 <= a / 3600 < 24) by (Z.to_euclidean_division_equations; lia).
  assert (H2 : 0 <= a mod 3600 / 60 < 60) by (Z.to_euclidean_division_equations; lia).
  assert (H3 : 0 <= a mod 60 < 60) by (Z.to_euclidean_division_equations; lia).
  assert (E : a = a / 3600 * 3600 + a mod 3600 / 60 * 60 + a mod 60)
    by (Z.to_euclidean_division_equations; lia).
  assert (L1 : (a / 3600 <? 24) = true) by (apply Z.ltb_lt; lia).
  assert (L2 : (a mod 3600 / 60 <? 60) = true) by (apply Z.ltb_lt; lia).
  assert (L3 : (a mod 60 <? 60) = true) by (apply Z.ltb_lt; lia).
  destruct (o <? 0) eqn:Hs; [apply Z.ltb_lt in Hs | apply Z.ltb_ge in Hs];
  (destruct (a mod 60 =? 0) eqn:Hz; [apply Z.eqb_eq in Hz | apply Z.eqb_neq in Hz]);
  cbn [String.append parse_offset Ascii.eqb Bool.eqb];
  rewrite take2_pad2 by lia; cbn [expect Ascii.eqb Bool.eqb String.append];
  rewrite take2_pad2 by lia; cbn [expect Ascii.eqb Bool.eqb];
  try rewrite take2_pad2_end by lia;
  rewrite ?L1, ?L2, ?L3; cbn [andb]; f_equal; f_equal; lia.
Qed.

Lemma format_offset_head x :
  exists c rest, format_offset x = String c rest /\ Ascii.eqb c "." = false.
Proof.
  unfold format_offset. destruct (x <? 0); cbn [String.append];
    eexists; eexists; (split; [reflexivity | reflexivity]).
Qed.

Lemma parse_fraction_format us o :
  0 <= us < 1000000 ->
  match o with None => True | Some x => -86400 < x < 86400 end ->
  parse_fraction
    ((if (us =? 0)%Z then "" else "." ++ pad6 us)
     ++ match o with None => "" | Some x => format_offset x end)%string
  = Some (us, o).
Proof.
  intros Hus Ho.
  destruct (us =? 0) eqn:Hz; [apply Z.eqb_eq in Hz | apply Z.eqb_neq in Hz].
  - subst us. cbn [String.append]. destruct o as [x|]; [|reflexivity].
    pose proof (parse_offset_format x Ho) as P.
    destruct (format_offset_head x) as (c & rest & F & Hc).
    rewrite F in *. unfold parse_fraction. rewrite Hc, P. reflexivity.
  - cbn [String.append]. unfold parse_fraction.
    replace (Ascii.eqb "." ".") with true by reflexivity.
    rewrite take6_pad6 by lia.
    destruct o as [x|].
    + rewrite parse_offset_format by assumption. reflexivity.
    + reflexivity.
Qed.

Lemma parse_fields_isoformat d :
  datetime_okb d = true -> parse_fields (isoformat d) = Some d.
Proof.
  intros Hok. pose proof (okb_bounds d Hok) as B.
  destruct d as [y mo dd h mi s us o]. cbn [dt_year dt_month dt_day dt_hour dt_minute dt_second dt_microsecond dt_utcoffset] in *.
  unfold isoformat, parse_fields.
  cbn [dt_year dt_month dt_day dt_hour dt_minute dt_second dt_microsecond dt_utcoffset].
  rewrite take4_pad4 by lia. cbn [String.append expect Ascii.eqb Bool.eqb].
  rewrite take2_pad2 by lia. cbn [String.append expect Ascii.eqb Bool.eqb].
  rewrite take2_pad2 by lia. cbn [String.append expect Ascii.eqb Bool.eqb orb].
  rewrite take2_pad2 by lia. cbn [String.append expect Ascii.eqb Bool.eqb].
  rewrite take2_pad2 by lia. cbn [String.append expect Ascii.eqb Bool.eqb].
  rewrite take2_pad2 by lia.
  rewrite parse_fraction_format by (try lia; apply B).
  reflexivity.
Qed.

Theorem fromisoformat_isoformat d :
  datetime_okb d = true -> fromisoformat (isoformat d) = Some d.
Proof.
  intros Hok. unfold fromisoformat. rewrite parse_fields_isoformat by assumption.
  rewrite Hok. reflexivity.
Qed.

End DatetimeFacts.

(** ** The before-validators on a mapping *)

Lemma check_dict name r :
  check name (VDict r) =
  Ok (match dict_get name r with
      | None | Some VNone => false
      | Some _ => true
      end).
Proof.
  unfold check, py_in, dict_mem, py_getitem. cbn [bind].
  destruct (dict_get name r) as [[]|]; reflexivity.
Qed.

Lemma into_dict name key r :
  Replicate.into name key (VDict r) =
  match dict_get name r with
  | None | Some VNone => Ok (VDict r)
  | Some sub =>
      id_ <- py_getitem (VDict r) "id" ;;
      sub' <- py_setitem sub key id_ ;;
      Ok (VDict (dict_set name sub' r))
  end.
Proof.
  unfold Replicate.into. rewrite check_dict. cbn [bind].
  destruct (dict_get name r) as [sub|] eqn:E; [|reflexivity].
  destruct sub; try reflexivity;
    destruct (py_getitem (VDict r) "id"); cbn [bind py_getitem];
    rewrite ?E; reflexivity.
Qed.

Lemma into_each_dict name key r :
  Replicate.into_each name key (VDict r) =
  let assign x :=
    id_ <- py_getitem (VDict r) "id" ;; py_setitem x key id_ in
  match dict_get name r with
  | None | Some VNone => Ok (VDict r)
  | Some (VList l) =>
      l' <- mapM assign l ;; Ok (VDict (dict_set name (VList l') r))
  | Some xs => items <- py_iter xs ;; mapM assign items ;;; Ok (VDict r)
  end.
Proof.
  unfold Replicate.into_each. rewrite check_dict. cbn [bind].
  destruct (dict_get name r) as [sub|] eqn:E; [|reflexivity].
  destruct sub; cbn [bind py_getitem]; rewrite ?E; reflexivity.
Qed.

Lemma frames_into name key k :
  k <> name -> frames k (Replicate.into name key).
Proof.
  intros Hne r v. rewrite into_dict.
  destruct (dict_get name r) as [sub|]; [|intros [= <-]; eauto].
  destruct sub; try (intros [= <-]; eauto; fail);
    intros H; apply bind_ok in H as (i & _ & H);
    apply bind_ok in H as (s' & _ & [= <-]);
    eexists; (split; [reflexivity | now apply dict_get_set_other]).
Qed.

Lemma frames_into_each name key k :
  k <> name -> frames k (Replicate.into_each name key).
Proof.
  intros Hne r v. rewrite into_each_dict. cbv zeta.
  destruct (dict_get name r) as [sub|]; [|intros [= <-]; eauto].
  destruct sub; try (intros [= <-]; eauto; fail);
    intros H; apply bind_ok in H as (i & _ & H);
    try (apply bind_ok in H as (s' & _ & [= <-]));
    try (injection H as <-);
    eexists; (split; [reflexivity|]); try reflexivity;
    now apply dict_get_set_other.
Qed.

Lemma frames_bind k (V1 V2 : validator) :
  frames k V1 -> frames k V2 -> frames k (fun s => x <- V1 s ;; V2 x).
Proof.
  intros H1 H2 r v H. apply bind_ok in H as (x & Hx & H).
  apply H1 in Hx as (r1 & -> & E1). apply H2 in H as (r2 & -> & E2).
  eexists; split; [reflexivity | congruence].
Qed.

Lemma frames_ret k : frames k (fun s => Ok s).
Proof. intros r v [= <-]. eauto. Qed.

Lemma run_frames k Vs :
  Forall (frames k) Vs -> frames k (run Vs).
Proof.
  induction 1 as [|V Vs HV _ IH]; intros r v; simpl.
  - intros [= <-]. eauto.
  - intros H. apply bind_ok in H as (x & Hx & H). apply wrap_ok in Hx.
    apply HV in Hx as (r1 & -> & E1). apply IH in H as (r2 & -> & E2).
    eexists; split; [reflexivity | congruence].
Qed.

Lemma wrap_ids_dict name r :
  Works.Work.wrap_ids name (VDict r) =
  match dict_get name r with
  | None | Some VNone => Ok (VDict r)
  | Some (VList l) =>
      l' <- mapM (fun x =>
                    id_ <- py_getitem (VDict r) "id" ;;
                    Ok (Works._construct_dict_from_id id_ x)) l ;;
      Ok (VDict (dict_set name (VList l') r))
  | Some (VStr s) =>
      if String.eqb s "" then Ok (VDict r)
      else py_getitem (VDict r) "id" ;;; Raise TypeError
  | Some (VDict d) =>
      match d with
      | [] => Ok (VDict r)
      | _ => py_getitem (VDict r) "id" ;;; Raise RuntimeError
      end
  | Some _ => Raise TypeError
  end.
Proof.
  unfold Works.Work.wrap_ids. rewrite check_dict. cbn [bind].
  destruct (dict_get name r) as [sub|] eqn:E; [|reflexivity].
  destruct sub; cbn [bind py_getitem py_setitem]; rewrite ?E; reflexivity.
Qed.

Lemma flatten_dict r :
  Works.Work._flatten_authorships (VDict r) =
  match dict_get "authorships" r with
  | None | Some VNone => Ok (VDict r)
  | Some xs =>
      items <- py_iter xs ;;
      groups <- mapM Works.Work.flatten_authorship items ;;
      Ok (VDict (dict_set "authorships" (VList (List.concat groups)) r))
  end.
Proof.
  unfold Works.Work._flatten_authorships. rewrite check_dict. cbn [bind].
  destruct (dict_get "authorships" r) as [sub|] eqn:E; [|reflexivity].
  destruct sub; cbn [bind py_getitem py_setitem]; rewrite ?E; reflexivity.
Qed.

Lemma frames_wrap_ids name k :
  k <> name -> frames k (Works.Work.wrap_ids name).
Proof.
  intros Hne r v. rewrite wrap_ids_dict.
  destruct (dict_get name r) as [sub|]; [|intros [= <-]; eauto].
  destruct sub; try discriminate; try (intros [= <-]; eauto; fail).
  - destruct (String.eqb s ""); [intros [= <-]; eauto|].
    destruct (py_getitem (VDict r) "id"); discriminate.
  - intros H. apply bind_ok in H as (l' & _ & [= <-]).
    eexists; split; [reflexivity | now apply dict_get_set_other].
  - destruct d; [intros [= <-]; eauto|].
    destruct (py_getitem (VDict r) "id"); discriminate.
Qed.

Lemma frames_flatten k :
  k <> "authorships" -> frames k Works.Work._flatten_authorships.
Proof.
  intros Hne r v. rewrite flatten_dict.
  destruct (dict_get "authorships" r) as [sub|]; [|intros [= <-]; eauto].
  destruct sub; try (intros [= <-]; eauto; fail);
    intros H; apply bind_ok in H as (items & _ & H);
    apply bind_ok in H as (groups & _ & [= <-]);
    eexists; (split; [reflexivity | now apply dict_get_set_other]).
Qed.

Ltac frames_side H :=
  let E := fresh in
  intros E; apply H; rewrite E; simpl; tauto.

Ltac frames_tac H :=
  repeat first
    [ apply frames_ret
    | apply frames_into; frames_side H
    | apply frames_into_each; frames_side H
    | apply frames_wrap_ids; frames_side H
    | apply frames_flatten; frames_side H
    | apply frames_bind ].

Lemma work_before_frames k :
  ~ In k Works.work_touched ->
  frames k (run (rev (before Works.Work.hooks))).
Proof.
  intros H. apply run_frames. cbn [rev before Works.Work.hooks app].
  repeat constructor;
    unfold Works.Work._replicate_id_1, Works.Work._replicate_id_2,
      Works.Work._replicate_id_3, Works.Work._work_id_ref_related;
    frames_tac H.
Qed.

(** ** The fields of a validated object *)

Lemma field_value_name h d fld n z :
  field_value h d fld = Ok (n, z) -> n = fname fld.
Proof.
  unfold field_value. destruct (lookup d (fname fld) (faliases fld)).
  - intros H. apply bind_ok in H as (y & _ & H).
    apply bind_ok in H as (z' & _ & [= <- _]). reflexivity.
  - destruct (frequired fld); [discriminate|]. now intros [= <- _].
Qed.

Lemma fields_get h d fields fs n fld :
  collect (map (field_value h d) fields) = Ok fs ->
  find (fun f => String.eqb n (fname f)) fields = Some fld ->
  exists z, field_value h d fld = Ok (n, z) /\ dict_get n fs = Some z.
Proof.
  revert fs. induction fields as [|f fields IH]; simpl; intros fs H F;
    [discriminate|].
  apply both_ok in H as ([n' z'] & fs' & Hf & Hfs & ->).
  pose proof (field_value_name _ _ _ _ _ Hf) as ->.
  simpl. destruct (String.eqb n (fname f)) eqn:E.
  - injection F as <-. apply String.eqb_eq in E. subst n. eauto.
  - destruct (IH _ Hfs F) as (z & Hz & Hg). eauto.
Qed.

Lemma work_new_inv raw w :
  Works.Work.new raw = Ok w ->
  exists d fs,
    run (rev (before Works.Work.hooks)) (VDict raw) = Ok (VDict d)
    /\ collect (map (field_value Works.Work.hooks d) Works.Work.fields)
       = Ok fs
    /\ w = VObj "Work" fs.
Proof.
  unfold Works.Work.new, Works.Work.model. rewrite validate_model_eq.
  intros H. apply bind_ok in H as (v1 & Hb & H).
  assert (F : frames "id" (run (rev (before Works.Work.hooks)))).
  { apply work_before_frames. simpl. intuition discriminate. }
  destruct (F _ _ Hb) as (d & -> & _).
  apply bind_ok in H as (fs & Hfs & H). cbn in H. injection H as <-.
  eauto.
Qed.

(** The value of the attribute [n] of a work, from the record: [n] is
    declared with the type [ft] and is none of the names the
    before-validators write to. *)
Lemma work_field raw w n ft :
  Works.Work.new raw = Ok w ->
  find (fun f => String.eqb n (fname f)) Works.Work.fields
    = Some (opt n ft) ->
  ~ In n Works.work_touched ->
  exists z, getattr w n = z /\
    match dict_get n raw with
    | None => z = VNone
    | Some x =>
        exists y, (if is_none x then Ok VNone else validate ft x) = Ok y
          /\ run (validators_of Works.Work.hooks n) y = Ok z
    end.
Proof.
  intros Hw Hf Hn. apply work_new_inv in Hw as (d & fs & Hb & Hfs & ->).
  destruct (fields_get _ _ _ _ _ _ Hfs Hf) as (z & Hz & Hg).
  destruct (work_before_frames n Hn _ _ Hb) as (d' & [= <-] & Hd).
  exists z. split; [cbn [getattr]; now rewrite Hg|].
  unfold field_value, opt in Hz. cbn [fname faliases frequired ftype] in Hz.
  cbn [lookup] in Hz. rewrite Hd in Hz.
  destruct (dict_get n raw) as [x|].
  - apply bind_ok in Hz as (y & Hy & Hz).
    apply bind_ok in Hz as (z' & Hz' & [= <-]). cbn [negb andb] in Hy. eauto.
  - now injection Hz as <-.
Qed.

(** ** The abstract *)

Section AbstractFacts.
Import Works.
Open Scope Z_scope.

Lemma firstn_app_length {A} (l1 l2 : list A) k :
  List.length l1 = k -> firstn k (l1 ++ l2) = l1.
Proof. intros <-. induction l1; simpl; congruence. Qed.

Lemma skipn_app_length {A} (l1 l2 : list A) x k :
  List.length l1 = k -> skipn (S k) (l1 ++ x :: l2) = l2.
Proof. intros <-. induction l1 as [|a l1 IH]; [reflexivity | exact IH]. Qed.

Lemma list_assign_seq (f : nat -> string) n p w :
  0 <= p < Z.of_nat n ->
  list_assign (map f (seq 0 n)) p w
  = Ok (map (fun i => if Z.of_nat i =? p then w else f i) (seq 0 n)).
Proof.
  intros Hp. unfold list_assign. rewrite length_map, length_seq.
  replace (p <? 0) with false by (symmetry; apply Z.ltb_ge; lia).
  replace ((0 <=? p) && (p <? Z.of_nat n)) with true
    by (symmetry; apply andb_true_iff; split;
        [apply Z.leb_le | apply Z.ltb_lt]; lia).
  f_equal.
  set (k := Z.to_nat p).
  replace n with (k + S (n - S k))%nat by lia.
  rewrite seq_app, !map_app. cbn [seq map plus].
  assert (Hl : List.length (map f (seq 0 k)) = k)
    by now rewrite length_map, length_seq.
  rewrite firstn_app_length, skipn_app_length by exact Hl.
  f_equal; [|f_equal].
  - apply map_ext_in. intros i Hi. apply in_seq in Hi.
    replace (Z.of_nat i =? p) with false; [reflexivity|].
    symmetry. apply Z.eqb_neq. lia.
  - replace (Z.of_nat k =? p) with true; [reflexivity|].
    symmetry. apply Z.eqb_eq. lia.
  - apply map_ext_in. intros i Hi. apply in_seq in Hi.
    replace (Z.of_nat i =? p) with false; [reflexivity|].
    symmetry. apply Z.eqb_neq. lia.
Qed.

Lemma assign_all_seq (f : nat -> string) n w ps :
  Forall (fun p => 0 <= p < Z.of_nat n) ps ->
  assign_all (map f (seq 0 n)) w ps
  = Ok (map (fun i => if existsb (Z.eqb (Z.of_nat i)) ps then w else f i)
          (seq 0 n)).
Proof.
  intros H. revert f. induction H as [|p ps Hp _ IH]; intros f; simpl.
  - reflexivity.
  - rewrite list_assign_seq by assumption. cbn [bind]. rewrite IH.
    f_equal. apply map_ext. intros i.
    destruct (Z.of_nat i =? p); simpl;
      destruct (existsb (Z.eqb (Z.of_nat i)) ps); reflexivity.
Qed.

Lemma place_seq (f : nat -> string) n items :
  Forall (fun p => 0 <= p < Z.of_nat n) (List.concat (map snd items)) ->
  place (map f (seq 0 n)) items
  = Ok (map (fun i => word_at items (Z.of_nat i) (f i)) (seq 0 n)).
Proof.
  revert f. induction items as [|[w ps] items IH]; intros f H; simpl.
  - reflexivity.
  - simpl in H. apply Forall_app in H as [H1 H2].
    rewrite assign_all_seq by assumption. cbn [bind]. rewrite IH by assumption.
    reflexivity.
Qed.

Lemma fold_max_ge ys y : y <= fold_left Z.max ys y.
Proof.
  revert y. induction ys as [|a ys IH]; intros y; simpl; [lia|].
  specialize (IH (Z.max y a)). lia.
Qed.

Lemma fold_max_bound ys y p : In p (y :: ys) -> p <= fold_left Z.max ys y.
Proof.
  revert y. induction ys as [|a ys IH]; intros y; simpl.
  - intros [->|[]]. lia.
  - intros [->|[->|H]].
    + pose proof (fold_max_ge ys (Z.max p a)). lia.
    + pose proof (fold_max_ge ys (Z.max y p)). lia.
    + apply IH. right. exact H.
Qed.

Lemma index_items items :
  mapM (fun kv : string * value =>
          x <- py_iter (snd kv) ;;
          ps <- mapM position x ;; Ok (fst kv, ps)) (index_of items)
  = Ok items.
Proof.
  induction items as [|[w ps] items IH]; [reflexivity|].
  assert (E : mapM position (map VInt ps) = Ok ps).
  { clear. induction ps as [|p ps IH]; simpl; [reflexivity|].
    now rewrite IH. }
  change (index_of ((w, ps) :: items))
    with ((w, VList (map VInt ps)) :: index_of items).
  cbn [mapM snd fst py_iter bind]. rewrite E. cbn [bind]. rewrite IH.
  reflexivity.
Qed.

Lemma repeat_map_seq {A} (x : A) n s :
  repeat x n = map (fun _ => x) (seq s n).
Proof.
  revert s. induction n as [|n IH]; intros s; simpl; [reflexivity|].
  f_equal. apply IH.
Qed.

(** The abstract of an index with positions from 0 on: as many slots as the
    largest position plus one, each holding the last word recorded at it
    (the empty string when there is none), joined with single spaces. *)
Lemma construct_abstract_slots items :
  Forall (fun p => 0 <= p) (List.concat (map snd items)) ->
  _construct_abstract_from_index (Some (index_of items))
  = Ok (String.concat " "
          (map (fun i => word_at items (Z.of_nat i) "")
             (seq 0 (Z.to_nat (max_position items + 1))))).
Proof.
  intros H. unfold _construct_abstract_from_index, max_position.
  rewrite index_items. cbn [bind].
  destruct (List.concat (map snd items)) as [|y ys] eqn:E; [reflexivity|].
  rewrite (repeat_map_seq _ _ 0%nat), place_seq; [reflexivity|].
  rewrite E. apply Forall_forall. intros p Hp.
  pose proof (fold_max_bound ys y p Hp).
  rewrite Forall_forall in H. specialize (H p Hp). lia.
Qed.

End AbstractFacts.

Lemma not_touched_abstract :
  ~ In "abstract_inverted_index" Works.work_touched.
Proof. simpl. intuition discriminate. Qed.

Lemma work_abstract_of_record raw w :
  Works.Work.new raw = Ok w ->
  match dict_get "abstract_inverted_index" raw with
  | None | Some VNone | Some (VDict []) => Works.Work.abstract w = Ok None
  | Some (VDict index) =>
      Works.Work.abstract w =
      (s <- Works._construct_abstract_from_index (Some index) ;; Ok (Some s))
  | Some _ => False
  end.
Proof.
  intros Hw.
  destruct (work_field raw w "abstract_inverted_index" TDict Hw eq_refl
              not_touched_abstract) as (z & Hz & H).
  unfold Works.Work.abstract. rewrite Hz. clear Hz.
  destruct (dict_get "abstract_inverted_index" raw) as [x|];
    [|rewrite H; reflexivity].
  destruct H as (y & Hy & Hr).
  destruct x; cbn in Hy; try discriminate; injection Hy as <-;
    cbn in Hr.
  - now injection Hr as <-.
  - destruct d; cbn in Hr; injection Hr as <-; reflexivity.
Qed.

(** C6.  The abstract of a work is derived from its positional inverted
    index: a work normalized from a record whose index is
    the: [0], cat: [1], sat: [2] has the abstract [the cat sat]; a
    record whose index is absent, null or the empty mapping has no abstract
    ([None], not the empty string); and for an index with positions from 0
    on the abstract is the join, with single spaces, of max-position + 1
    slots, each holding the word recorded at its position. *)
Theorem work_abstract_correct :
  (forall raw w,
     Works.Work.new raw = Ok w ->
     dict_get "abstract_inverted_index" raw
       = Some (VDict (index_of [("the", [0%Z]); ("cat", [1%Z]);
                                ("sat", [2%Z])])) ->
     Works.Work.abstract w = Ok (Some "the cat sat"))
  /\ (forall raw w,
        Works.Work.new raw = Ok w ->
        no_index (dict_get "abstract_inverted_index" raw) ->
        Works.Work.abstract w = Ok None)
  /\ (forall raw w items,
        Works.Work.new raw = Ok w ->
        dict_get "abstract_inverted_index" raw
          = Some (VDict (index_of items)) ->
        items <> [] ->
        Forall (fun p => (0 <= p)%Z) (List.concat (map snd items)) ->
        Works.Work.abstract w =
        Ok (Some (String.concat " "
                    (map (fun i => word_at items (Z.of_nat i) "")
                       (seq 0 (Z.to_nat (max_position items + 1))))))).
Proof.
  split; [|split].
  - intros raw w Hw E. pose proof (work_abstract_of_record raw w Hw) as H.
    rewrite E in H. exact H.
  - intros raw w Hw [E|[E|E]];
      pose proof (work_abstract_of_record raw w Hw) as H;
      rewrite E in H; exact H.
  - intros raw w items Hw E Hne Hpos.
    pose proof (work_abstract_of_record raw w Hw) as H.
    rewrite E in H. destruct items as [|it items]; [congruence|].
    cbn [index_of map] in H. rewrite H.
    change ((fst it, VList (map VInt (snd it)))
            :: map (fun wp : string * list Z =>
                      (fst wp, VList (map VInt (snd wp)))) items)
      with (index_of (it :: items)).
    rewrite construct_abstract_slots by assumption. reflexivity.
Qed.

Lemma work_abstract_correct_witness :
  (x <- Works.Work.new
          [("id", VStr "W1");
           ("abstract_inverted_index",
            VDict (index_of [("the", [0%Z]); ("cat", [1%Z]);
                             ("sat", [2%Z])]))] ;;
   Works.Work.abstract x) = Ok (Some "the cat sat")
  /\ (x <- Works.Work.new
             [("id", VStr "W1"); ("abstract_inverted_index", VDict [])] ;;
      Works.Work.abstract x) = Ok None.
Proof.
  split.
  - destruct (Works.Work.new
                [("id", VStr "W1");
                 ("abstract_inverted_index",
                  VDict (index_of [("the", [0%Z]); ("cat", [1%Z]);
                                   ("sat", [2%Z])]))]) as [w|e] eqn:E;
      [|vm_compute in E; discriminate E].
    cbn [bind].
    exact (proj1 work_abstract_correct _ w E eq_refl).
  - destruct (Works.Work.new
                [("id", VStr "W1"); ("abstract_inverted_index", VDict [])])
      as [w|e] eqn:E; [|vm_compute in E; discriminate E].
    cbn [bind].
    exact (proj1 (proj2 work_abstract_correct) _ w E
             (or_intror (or_intror eq_refl))).
Defined.

(** ** The steps of the before-validators of a work *)

Section WorkSteps.
Import Works.

Lemma flatten_frames k :
  ~ In k ["authorships"] -> frames k Work._flatten_authorships.
Proof. intros H. frames_tac H. Qed.

Lemma ref_related_frames k :
  ~ In k ["related_works"; "referenced_works"] ->
  frames k Work._work_id_ref_related.
Proof. intros H. unfold Work._work_id_ref_related. frames_tac H. Qed.

Lemma replicate_3_frames k :
  ~ In k ["best_oa_location"; "primary_location"; "locations"] ->
  frames k Work._replicate_id_3.
Proof. intros H. unfold Work._replicate_id_3. frames_tac H. Qed.

Lemma replicate_2_frames k :
  ~ In k ["topics"; "concepts"; "mesh"; "open_access"] ->
  frames k Work._replicate_id_2.
Proof. intros H. unfold Work._replicate_id_2. frames_tac H. Qed.

Lemma replicate_1_frames k :
  ~ In k ["counts_by_year"; "ids"; "locations"; "authorships"; "biblio"] ->
  frames k Work._replicate_id_1.
Proof. intros H. unfold Work._replicate_id_1. frames_tac H. Qed.

Lemma not_in_id l : forallb (fun x => negb (String.eqb "id" x)) l = true ->
  ~ In "id" l.
Proof.
  induction l as [|x l IH]; cbn [forallb In]; [tauto|].
  intros H. apply andb_true_iff in H as [H1 H2].
  intros [->|Hin]; [now rewrite String.eqb_refl in H1 | now apply IH].
Qed.

Lemma work_before_steps raw v :
  run (rev (before Work.hooks)) (VDict raw) = Ok v ->
  exists r1 r2 r3 r4 d,
    Work._flatten_authorships (VDict raw) = Ok (VDict r1)
    /\ Work._work_id_ref_related (VDict r1) = Ok (VDict r2)
    /\ Work._replicate_id_3 (VDict r2) = Ok (VDict r3)
    /\ Work._replicate_id_2 (VDict r3) = Ok (VDict r4)
    /\ Work._replicate_id_1 (VDict r4) = Ok (VDict d)
    /\ v = VDict d.
Proof.
  cbn [rev before Work.hooks app run]. intros H.
  apply bind_ok in H as (v1 & H1 & H). apply wrap_ok in H1.
  destruct (flatten_frames "id" ltac:(apply not_in_id; reflexivity) _ _ H1) as (r1 & -> & _).
  apply bind_ok in H as (v2 & H2 & H). apply wrap_ok in H2.
  destruct (ref_related_frames "id" ltac:(apply not_in_id; reflexivity) _ _ H2)
    as (r2 & -> & _).
  apply bind_ok in H as (v3 & H3 & H). apply wrap_ok in H3.
  destruct (replicate_3_frames "id" ltac:(apply not_in_id; reflexivity) _ _ H3)
    as (r3 & -> & _).
  apply bind_ok in H as (v4 & H4 & H). apply wrap_ok in H4.
  destruct (replicate_2_frames "id" ltac:(apply not_in_id; reflexivity) _ _ H4)
    as (r4 & -> & _).
  apply bind_ok in H as (v5 & H5 & H). apply wrap_ok in H5.
  destruct (replicate_1_frames "id" ltac:(apply not_in_id; reflexivity) _ _ H5)
    as (d & -> & _).
  injection H as <-. do 5 eexists. repeat split; eassumption.
Qed.

(** Every attribute of a work is the validated value of its field, read
    from the mapping the before-validators leave. *)
Lemma work_attr raw w n fld :
  Work.new raw = Ok w ->
  find (fun f => String.eqb n (fname f)) Work.fields = Some fld ->
  exists d,
    run (rev (before Work.hooks)) (VDict raw) = Ok (VDict d)
    /\ field_value Work.hooks d fld = Ok (n, getattr w n).
Proof.
  intros Hw Hf. apply work_new_inv in Hw as (d & fs & Hb & Hfs & ->).
  destruct (fields_get _ _ _ _ _ _ Hfs Hf) as (z & Hz & Hg).
  exists d. split; [assumption|]. cbn [getattr]. now rewrite Hg.
Qed.

End WorkSteps.

(** ** Projection of plain values *)

Lemma sql_value_plain v : plain v = true -> SQLTable.sql_value v = Ok v.
Proof.
  destruct v; try reflexivity; [|discriminate].
  unfold plain, datelike, SQLTable.sql_value. intros H.
  apply negb_true_iff in H.
  destruct (negb (String.eqb s "") && (10 <=? String.length s)%nat) eqn:E;
    [|reflexivity].
  apply andb_true_iff in E as [_ E]. rewrite E in H. cbn [andb] in H.
  now rewrite H.
Qed.

Lemma to_sql_values_plain order self :
  Forall (fun key => plain (getattr self key) = true) order ->
  SQLTable.to_sql_values order self
  = Ok (map (getattr self) order).
Proof.
  unfold SQLTable.to_sql_values.
  induction 1 as [|key order H _ IH]; simpl; [reflexivity|].
  rewrite (sql_value_plain _ H), IH. reflexivity.
Qed.

(** ** Relation wrapping *)

Section WrapFacts.
Import Works.

Lemma wrap_ids_list name r l idv :
  dict_get name r = Some (VList l) ->
  dict_get "id" r = Some idv ->
  Work.wrap_ids name (VDict r)
  = Ok (VDict (dict_set name
                 (VList (map (_construct_dict_from_id idv) l)) r)).
Proof.
  intros Hn Hi. rewrite wrap_ids_dict, Hn. cbn [py_getitem]. rewrite Hi.
  cbn [bind].
  assert (E : mapM (fun x : value => Ok (_construct_dict_from_id idv x)) l
              = Ok (map (_construct_dict_from_id idv) l)).
  { clear. induction l as [|x l IH]; simpl; [reflexivity|]. now rewrite IH. }
  rewrite E. reflexivity.
Qed.

Lemma before_related raw d l idv :
  run (rev (before Work.hooks)) (VDict raw) = Ok (VDict d) ->
  dict_get "related_works" raw = Some (VList l) ->
  dict_get "id" raw = Some idv ->
  dict_get "related_works" d
  = Some (VList (map (_construct_dict_from_id idv) l)).
Proof.
  intros H Hl Hi.
  apply work_before_steps in H
    as (r1 & r2 & r3 & r4 & d' & H1 & H2 & H3 & H4 & H5 & [= <-]).
  destruct (flatten_frames "related_works" ltac:(simpl; intuition discriminate)
              _ _ H1) as (? & [= <-] & E1).
  destruct (flatten_frames "id" ltac:(simpl; intuition discriminate)
              _ _ H1) as (? & [= <-] & I1).
  rewrite Hl in E1. rewrite Hi in I1.
  unfold Work._work_id_ref_related in H2.
  rewrite (wrap_ids_list _ _ _ _ E1 I1) in H2. cbn [bind] in H2.
  apply bind_ok in H2 as (x & H2 & [= ->]).
  destruct (frames_wrap_ids "referenced_works" "related_works"
              ltac:(discriminate) _ _ H2) as (? & [= <-] & E2).
  rewrite dict_get_set_same in E2.
  destruct (replicate_3_frames "related_works"
              ltac:(simpl; intuition discriminate) _ _ H3)
    as (? & [= <-] & E3).
  destruct (replicate_2_frames "related_works"
              ltac:(simpl; intuition discriminate) _ _ H4)
    as (? & [= <-] & E4).
  destruct (replicate_1_frames "related_works"
              ltac:(simpl; intuition discriminate) _ _ H5)
    as (? & [= <-] & E5).
  congruence.
Qed.

Lemma before_referenced raw d l idv :
  run (rev (before Work.hooks)) (VDict raw) = Ok (VDict d) ->
  dict_get "referenced_works" raw = Some (VList l) ->
  dict_get "id" raw = Some idv ->
  dict_get "referenced_works" d
  = Some (VList (map (_construct_dict_from_id idv) l)).
Proof.
  intros H Hl Hi.
  apply work_before_steps in H
    as (r1 & r2 & r3 & r4 & d' & H1 & H2 & H3 & H4 & H5 & [= <-]).
  destruct (flatten_frames "referenced_works"
              ltac:(simpl; intuition discriminate) _ _ H1)
    as (? & [= <-] & E1).
  destruct (flatten_frames "id" ltac:(simpl; intuition discriminate)
              _ _ H1) as (? & [= <-] & I1).
  rewrite Hl in E1. rewrite Hi in I1.
  unfold Work._work_id_ref_related in H2.
  apply bind_ok in H2 as (x & H2 & H2').
  destruct (frames_wrap_ids "related_works" "referenced_works"
              ltac:(discriminate) _ _ H2) as (rx & -> & Ex).
  destruct (frames_wrap_ids "related_works" "id"
              ltac:(discriminate) _ _ H2) as (? & [= <-] & Ix).
  rewrite E1 in Ex. rewrite I1 in Ix.
  rewrite (wrap_ids_list _ _ _ _ Ex Ix) in H2'. cbn [bind] in H2'.
  injection H2' as <-.
  destruct (replicate_3_frames "referenced_works"
              ltac:(simpl; intuition discriminate) _ _ H3)
    as (? & [= <-] & E3).
  destruct (replicate_2_frames "referenced_works"
              ltac:(simpl; intuition discriminate) _ _ H4)
    as (? & [= <-] & E4).
  destruct (replicate_1_frames "referenced_works"
              ltac:(simpl; intuition discriminate) _ _ H5)
    as (? & [= <-] & E5).
  rewrite E5, E4, E3. apply dict_get_set_same.
Qed.

Lemma validate_related wid x :
  validate WorkRelatedWork.model (_construct_dict_from_id (VStr wid) (VStr x))
  = Ok (VObj "WorkRelatedWork"
          [("work_id", VStr wid); ("related_work_id", VStr x)]).
Proof. reflexivity. Qed.

(** The related-works rows of a work normalized from a record with the id
    [wid] and the bare identifiers [ids]. *)
Lemma related_rows raw w wid ids :
  Work.new raw = Ok w ->
  dict_get "id" raw = Some (VStr wid) ->
  dict_get "related_works" raw = Some (VList (map VStr ids)) ->
  plain (VStr wid) = true ->
  Forall (fun x => plain (VStr x) = true) ids ->
  subtable_rows w "related_works"
  = Ok (Some (VList (map (fun x => VList [VStr wid; VStr x]) ids))).
Proof.
  intros Hw Hi Hl Pw Pi.
  destruct (work_attr raw w "related_works" _ Hw eq_refl) as (d & Hb & Hf).
  pose proof (before_related _ _ _ _ Hb Hl Hi) as Hd.
  unfold field_value, opt in Hf.
  cbn [fname faliases frequired ftype lookup] in Hf. rewrite Hd in Hf.
  cbn [negb andb is_none] in Hf. rewrite validate_list_eq in Hf.
  assert (E : collect (map (validate WorkRelatedWork.model)
                         (map (_construct_dict_from_id (VStr wid))
                            (map VStr ids)))
              = Ok (map (fun x => VObj "WorkRelatedWork"
                                    [("work_id", VStr wid);
                                     ("related_work_id", VStr x)]) ids)).
  { clear. induction ids as [|x ids IH]; [reflexivity|].
    cbn [map collect]. rewrite validate_related, IH. reflexivity. }
  rewrite E in Hf. cbn in Hf. injection Hf as Hf.
  unfold subtable_rows. rewrite <- Hf.
  assert (R : mapM (SQLTable.to_sql_values (sql_order_of "related_works"))
                (map (fun x => VObj "WorkRelatedWork"
                                 [("work_id", VStr wid);
                                  ("related_work_id", VStr x)]) ids)
              = Ok (map (fun x => [VStr wid; VStr x]) ids)).
  { clear - Pw Pi. induction Pi as [|x ids Px _ IH]; [reflexivity|].
    cbn [map mapM]. rewrite IH.
    rewrite to_sql_values_plain;
      [reflexivity | repeat constructor; assumption]. }
  rewrite R. cbn [bind]. rewrite map_map. reflexivity.
Qed.

End WrapFacts.

(** C7.  Normalization wraps each bare identifier of [related_works] into
    the mapping of the two-column relation, and projection yields one row
    (work id, related id) per identifier, in the order given: for the work
    W1 with related works W2 and W3 the rows are (W1, W2) and (W1, W3). *)
Theorem related_works_rows :
  Works.Work._work_id_ref_related
    (VDict [("id", VStr "W1");
            ("related_works", VList [VStr "W2"; VStr "W3"])])
  = Ok (VDict
          [("id", VStr "W1");
           ("related_works",
            VList [VDict [("id", VStr "W2"); ("work_id", VStr "W1")];
                   VDict [("id", VStr "W3"); ("work_id", VStr "W1")]])])
  /\ (w <- Works.Work.new
             [("id", VStr "W1");
              ("related_works", VList [VStr "W2"; VStr "W3"])] ;;
      Works.project w)
     = Ok ([VStr "W1"; VNone; VNone; VNone; VNone; VNone; VNone; VNone;
            VNone; VNone; VNone; VNone; VNone],
           [("related_works",
             VList [VList [VStr "W1"; VStr "W2"];
                    VList [VStr "W1"; VStr "W3"]])])
  /\ (forall raw w wid ids,
        Works.Work.new raw = Ok w ->
        dict_get "id" raw = Some (VStr wid) ->
        dict_get "related_works" raw = Some (VList (map VStr ids)) ->
        plain (VStr wid) = true ->
        Forall (fun x => plain (VStr x) = true) ids ->
        Works.subtable_rows w "related_works"
        = Ok (Some (VList (map (fun x => VList [VStr wid; VStr x]) ids)))).
Proof.
  split; [vm_compute; reflexivity|].
  split; [vm_compute; reflexivity|].
  exact related_rows.
Qed.

Lemma related_works_rows_witness :
  (w <- Works.Work.new
          [("id", VStr "W1");
           ("related_works", VList [VStr "W2"; VStr "W3"])] ;;
   Works.subtable_rows w "related_works")
  = Ok (Some (VList [VList [VStr "W1"; VStr "W2"];
                     VList [VStr "W1"; VStr "W3"]])).
Proof.
  destruct (Works.Work.new
              [("id", VStr "W1");
               ("related_works", VList [VStr "W2"; VStr "W3"])])
    as [w|e] eqn:E; [|vm_compute in E; discriminate E].
  cbn [bind].
  apply (proj2 (proj2 related_works_rows) _ w "W1" ["W2"; "W3"] E);
    [reflexivity | reflexivity | reflexivity |].
  repeat constructor.
Defined.

(** ** Topics *)

Lemma topic_without_keywords raw :
  dict_get "keywords" raw = None ->
  Topics.Topic.new raw = Raise (KeyError "keywords").
Proof.
  intros H. unfold Topics.Topic.new, Topics.Topic.model.
  rewrite validate_model_eq.
  cbn [rev before Topics.Topic.hooks app run].
  unfold Topics.Topic._str_to_list at 1. cbn [py_getitem]. rewrite H.
  reflexivity.
Qed.

Lemma str_to_list_null raw :
  dict_get "keywords" raw = Some VNone ->
  Topics.Topic._str_to_list (VDict raw) = Ok (VDict raw).
Proof.
  intros H. unfold Topics.Topic._str_to_list. cbn [py_getitem]. rewrite H.
  reflexivity.
Qed.

(** C9.  A raw Topic mapping without the key [keywords] does not
    normalize: [_str_to_list] indexes the mapping unconditionally and the
    constructor ends with [KeyError], although [keywords] is declared
    optional; with [keywords] present and null the validator leaves the
    mapping as it is and, for instance, the mapping with only an id
    normalizes to a topic without keywords. *)
Theorem topic_keywords_key_required :
  (forall raw,
     dict_get "keywords" raw = None ->
     Topics.Topic.new raw = Raise (KeyError "keywords"))
  /\ (forall raw,
        dict_get "keywords" raw = Some VNone ->
        Topics.Topic._str_to_list (VDict raw) = Ok (VDict raw))
  /\ (exists t,
        Topics.Topic.new [("id", VStr "T1"); ("keywords", VNone)] = Ok t
        /\ getattr t "keywords" = VNone).
Proof.
  split; [exact topic_without_keywords|].
  split; [exact str_to_list_null|].
  eexists. split; [vm_compute; reflexivity | reflexivity].
Qed.

Lemma topic_keywords_key_required_witness :
  Topics.Topic.new [("id", VStr "T1")] = Raise (KeyError "keywords").
Proof.
  apply (proj1 topic_keywords_key_required). reflexivity.
Defined.

(** ** Identifier replication into counts_by_year *)

(** C3 (the code at the failing input).  [_replicate_id_1] writes the id of
    the work into each counts_by_year entry under the name [author_id], and
    the entry of the normalized work has the two fields [WorkCountByYear]
    declares, [year] and [cited_by_count]: it carries the id of the work
    under no name. *)
Theorem work_counts_by_year_carry_no_work_id :
  let raw :=
    [("id", VStr "W1");
     ("counts_by_year",
      VList [VDict [("year", VInt 2020); ("cited_by_count", VInt 3)]])] in
  Works.Work._replicate_id_1 (VDict raw)
  = Ok (VDict
          [("id", VStr "W1");
           ("counts_by_year",
            VList [VDict [("year", VInt 2020); ("cited_by_count", VInt 3);
                          ("author_id", VStr "W1")]])])
  /\ (w <- Works.Work.new raw ;; Ok (getattr w "counts_by_year"))
     = Ok (VList [VObj "WorkCountByYear"
                    [("year", VInt 2020); ("cited_by_count", VInt 3)]]).
Proof. split; vm_compute; reflexivity. Qed.

(** ** Models without before-validators *)

Lemma validate_model_dict name fields h d w :
  before h = [] ->
  validate (TModel name fields h) (VDict d) = Ok w ->
  exists fs,
    collect (map (field_value h d) fields) = Ok fs
    /\ run (after h) (VObj name fs) = Ok w.
Proof.
  intros Hb. rewrite validate_model_eq, Hb. cbn [rev run bind].
  intros H. apply bind_ok in H as (fs & Hfs & H). eauto.
Qed.

(** ** The best open-access location *)

Section BestOA.
Import Works.

Lemma populate_source_id_attr self w n :
  BaseWorkLocation._populate_source_id self = Ok w ->
  n <> "source_id" ->
  getattr w n = getattr self n.
Proof.
  unfold BaseWorkLocation._populate_source_id. intros H Hn.
  assert (S : getattr (setattr self "source_id"
                         (getattr (getattr self "source") "id")) n
              = getattr self n).
  { destruct self; try reflexivity. cbn [setattr getattr].
    now rewrite dict_get_set_other. }
  destruct (getattr self "source"); injection H as <-;
    first [reflexivity | exact S].
Qed.

Lemma location_is_oa name d y v :
  validate (TModel name BaseWorkLocation.fields BaseWorkLocation.hooks)
    (VDict d) = Ok y ->
  dict_get "is_oa" d = Some v ->
  v <> VNone ->
  validate TBool v = Ok (getattr y "is_oa").
Proof.
  intros H Hd Hv.
  apply validate_model_dict in H as (fs & Hfs & Ha); [|reflexivity].
  cbn [after BaseWorkLocation.hooks run] in Ha.
  apply bind_ok in Ha as (y' & Ha & [= <-]). apply wrap_ok in Ha.
  rewrite (populate_source_id_attr _ _ "is_oa" Ha) by discriminate.
  destruct (fields_get _ _ _ _ "is_oa" _ Hfs eq_refl) as (z & Hz & Hg).
  cbn [getattr]. rewrite Hg.
  unfold field_value, opt in Hz.
  cbn [fname faliases frequired ftype lookup] in Hz. rewrite Hd in Hz.
  apply bind_ok in Hz as (y0 & Hy0 & Hz). cbn in Hz. injection Hz as <-.
  destruct v; try congruence; exact Hy0.
Qed.

Lemma before_best_oa raw d loc :
  run (rev (before Work.hooks)) (VDict raw) = Ok (VDict d) ->
  dict_get "best_oa_location" raw = Some (VDict loc) ->
  exists idv,
    dict_get "best_oa_location" d
    = Some (VDict (dict_set "work_id" idv loc)).
Proof.
  intros H Hl.
  apply work_before_steps in H
    as (r1 & r2 & r3 & r4 & d' & H1 & H2 & H3 & H4 & H5 & [= <-]).
  destruct (flatten_frames "best_oa_location"
              ltac:(simpl; intuition discriminate) _ _ H1)
    as (? & [= <-] & E1).
  destruct (ref_related_frames "best_oa_location"
              ltac:(simpl; intuition discriminate) _ _ H2)
    as (? & [= <-] & E2).
  unfold Work._replicate_id_3 in H3.
  apply bind_ok in H3 as (x & H3 & H3').
  rewrite into_dict, E2, E1, Hl in H3.
  apply bind_ok in H3 as (idv & _ & H3). cbn in H3. injection H3 as <-.
  assert (F : frames "best_oa_location"
                (fun s => self <- Replicate.into "primary_location"
                            "work_id" s ;;
                          self <- Replicate.into_each "locations" "work_id"
                            self ;; Ok self)).
  { assert (N : ~ In "best_oa_location" ["primary_location"; "locations"])
      by (simpl; intuition discriminate).
    frames_tac N. }
  destruct (F _ _ H3') as (? & [= <-] & E3).
  rewrite dict_get_set_same in E3.
  destruct (replicate_2_frames "best_oa_location"
              ltac:(simpl; intuition discriminate) _ _ H4)
    as (? & [= <-] & E4).
  destruct (replicate_1_frames "best_oa_location"
              ltac:(simpl; intuition discriminate) _ _ H5)
    as (? & [= <-] & E5).
  exists idv. congruence.
Qed.

Lemma best_oa_not_marked raw loc :
  dict_get "best_oa_location" raw = Some (VDict loc) ->
  dict_get "is_oa" loc = Some (VBool false) ->
  forall w, Work.new raw <> Ok w.
Proof.
  intros Hl Ho w Hw.
  destruct (work_attr raw w "best_oa_location" _ Hw eq_refl)
    as (d & Hb & Hf).
  destruct (before_best_oa _ _ _ Hb Hl) as (idv & Hd).
  unfold field_value, opt in Hf.
  cbn [fname faliases frequired ftype lookup] in Hf. rewrite Hd in Hf.
  cbn [negb andb is_none] in Hf.
  apply bind_ok in Hf as (y & Hy & Hf).
  assert (Hoa : validate TBool (VBool false) = Ok (getattr y "is_oa")).
  { eapply location_is_oa; [exact Hy | | discriminate].
    rewrite dict_get_set_other by discriminate. exact Ho. }
  cbn in Hoa. injection Hoa as Hoa.
  apply bind_ok in Hf as (z & Hz & _).
  cbn [validators_of Work.hooks field_validators filter existsb fst snd map
         String.eqb Ascii.eqb Bool.eqb orb run] in Hz.
  unfold Work._validate_best_oa_location in Hz. rewrite <- Hoa in Hz.
  apply validate_model_dict in Hy as (fs & _ & Ha); [|reflexivity].
  cbn [after BaseWorkLocation.hooks run] in Ha.
  apply bind_ok in Ha as (y' & Ha & [= <-]). apply wrap_ok in Ha.
  unfold BaseWorkLocation._populate_source_id in Ha.
  destruct (getattr (VObj "WorkBestOALocation" fs) "source");
    injection Ha as <-; cbn in Hz; discriminate Hz.
Qed.

Lemma best_oa_marked raw w :
  Work.new raw = Ok w ->
  getattr w "best_oa_location" = VNone
  \/ py_truthy (getattr (getattr w "best_oa_location") "is_oa") = true.
Proof.
  intros Hw.
  destruct (work_attr raw w "best_oa_location" _ Hw eq_refl)
    as (d & Hb & Hf).
  unfold field_value, opt in Hf.
  cbn [fname faliases frequired ftype lookup] in Hf.
  destruct (dict_get "best_oa_location" d) as [x|];
    [|injection Hf as <-; now left].
  apply bind_ok in Hf as (y & _ & Hf).
  apply bind_ok in Hf as (z & Hz & [= <-]).
  cbn [validators_of Work.hooks field_validators filter existsb fst snd map
         String.eqb Ascii.eqb Bool.eqb orb run] in Hz.
  apply bind_ok in Hz as (z' & Hz & [= <-]). apply wrap_ok in Hz.
  unfold Work._validate_best_oa_location in Hz.
  destruct (is_none y) eqn:N.
  - injection Hz as <-. left. destruct y; try discriminate. reflexivity.
  - destruct (py_truthy (getattr y "is_oa")) eqn:T; [|discriminate].
    injection Hz as <-. now right.
Qed.

End BestOA.

(** C5.  A work record whose best_oa_location is a mapping with
    [is_oa = false] does not normalize (for the record with only an id
    beside it, the constructor ends with the validation error of
    [_validate_best_oa_location]); the same record with [is_oa = true]
    normalizes; and every work that normalization yields has either no
    best_oa_location or one that is marked open-access. *)
Theorem best_oa_location_must_be_oa :
  (forall raw loc,
     dict_get "best_oa_location" raw = Some (VDict loc) ->
     dict_get "is_oa" loc = Some (VBool false) ->
     forall w, Works.Work.new raw <> Ok w)
  /\ Works.Work.new
       [("id", VStr "W1");
        ("best_oa_location", VDict [("is_oa", VBool false)])]
     = Raise (ValidationError ["best_oa_location must be OA."])
  /\ is_ok (Works.Work.new
              [("id", VStr "W1");
               ("best_oa_location", VDict [("is_oa", VBool true)])])
     = true
  /\ (forall raw w,
        Works.Work.new raw = Ok w ->
        getattr w "best_oa_location" = VNone
        \/ py_truthy (getattr (getattr w "best_oa_location") "is_oa")
           = true).
Proof.
  split; [exact best_oa_not_marked|].
  split; [vm_compute; reflexivity|].
  split; [vm_compute; reflexivity|].
  exact best_oa_marked.
Qed.

Lemma best_oa_location_must_be_oa_witness :
  is_ok (Works.Work.new
           [("id", VStr "W1"); ("title", VStr "A study");
            ("best_oa_location",
             VDict [("is_oa", VBool false); ("pdf_url", VStr "u")])])
  = false.
Proof.
  destruct (Works.Work.new
              [("id", VStr "W1"); ("title", VStr "A study");
               ("best_oa_location",
                VDict [("is_oa", VBool false); ("pdf_url", VStr "u")])])
    as [w|e] eqn:E; [|reflexivity].
  exfalso.
  refine (proj1 best_oa_location_must_be_oa
            [("id", VStr "W1"); ("title", VStr "A study");
             ("best_oa_location",
              VDict [("is_oa", VBool false); ("pdf_url", VStr "u")])]
            [("is_oa", VBool false); ("pdf_url", VStr "u")]
            _ _ w E); reflexivity.
Defined.

Lemma Forall2_forall_l {A B} (R : A -> B -> Prop) l l' :
  Forall2 R l l' -> forall x, In x l -> exists y, In y l' /\ R x y.
Proof.
  induction 1 as [|a b l l' H _ IH]; intros x; simpl; [tauto|].
  intros [<-|Hin]; [eauto|].
  destruct (IH x Hin) as (y & Hy & Hr). eauto.
Qed.

(** ** Models whose before-validators frame a key *)

Lemma validate_model_framed name fields h d w k :
  frames k (run (rev (before h))) ->
  validate (TModel name fields h) (VDict d) = Ok w ->
  exists d' fs,
    dict_get k d' = dict_get k d
    /\ collect (map (field_value h d') fields) = Ok fs
    /\ run (after h) (VObj name fs) = Ok w.
Proof.
  intros F. rewrite validate_model_eq. intros H.
  apply bind_ok in H as (v1 & Hb & H).
  destruct (F _ _ Hb) as (d' & -> & E).
  apply bind_ok in H as (fs & Hfs & H). eauto.
Qed.

(** A required string field of a validated object is a string. *)
Lemma required_str_field h d n z :
  validators_of h n = [] ->
  field_value h d (req n TStr) = Ok (n, z) ->
  exists s, z = VStr s /\ dict_get n d = Some (VStr s).
Proof.
  intros Hv. unfold field_value, req.
  cbn [fname faliases frequired ftype lookup]. rewrite Hv.
  destruct (dict_get n d) as [x|]; [|discriminate].
  cbn [negb andb]. intros H. apply bind_ok in H as (y & Hy & H).
  cbn in H. injection H as <-.
  destruct x; try discriminate. injection Hy as <-. eauto.
Qed.

(** An optional field without field validators that the record leaves out,
    or gives as null, is [None]. *)
Lemma absent_field h d n ft z :
  validators_of h n = [] ->
  field_value h d (opt n ft) = Ok (n, z) ->
  dict_get n d = None \/ dict_get n d = Some VNone ->
  z = VNone.
Proof.
  intros Hv. unfold field_value, opt.
  cbn [fname faliases frequired ftype lookup]. rewrite Hv.
  intros H [E|E]; rewrite E in H; cbn in H; now injection H as <-.
Qed.

(** ** Repositories of an institution *)

Section Repositories.
Import Institutions.

Lemma source_before_frames k :
  ~ In k ["counts_by_year"; "ids"] ->
  frames k (run (rev (before (mkHooks [Sources.Source._replicate_id] [] [])))).
Proof.
  intros H. apply run_frames. cbn [rev before app]. repeat constructor.
  unfold Sources.Source._replicate_id. frames_tac H.
Qed.

Lemma institution_before_frames k :
  ~ In k ["geo"; "counts_by_year"; "ids"; "associated_institutions"] ->
  frames k (run (rev (before Institution.hooks))).
Proof.
  intros H. apply run_frames. cbn [rev before Institution.hooks app].
  repeat constructor. unfold Institution._replicate_id. frames_tac H.
Qed.

Lemma repository_host_none repo obj :
  validate (TUnion Sources.Source.model Sources.DehydratedSource)
    (VDict repo) = Ok obj ->
  dict_get "host_organization" repo = None
  \/ dict_get "host_organization" repo = Some VNone ->
  getattr obj "host_organization" = VNone.
Proof.
  intros H Hh. cbn [validate] in H.
  change (validate Sources.Source.model (VDict repo)) with
    (validate (TModel "Source" Sources.Source.fields
                 (mkHooks [Sources.Source._replicate_id] [] []))
       (VDict repo)) in H.
  destruct (validate (TModel "Source" Sources.Source.fields
                        (mkHooks [Sources.Source._replicate_id] [] []))
              (VDict repo)) as [o|e] eqn:E1.
  - injection H as <-.
    apply (validate_model_framed _ _ _ _ _ "host_organization") in E1
      as (d' & fs & Ed & Hfs & Ha);
      [|apply source_before_frames; simpl; intuition discriminate].
    cbn in Ha. injection Ha as <-.
    destruct (fields_get _ _ _ _ "host_organization" _ Hfs eq_refl)
      as (z & Hz & Hg).
    cbn [getattr]. rewrite Hg.
    eapply absent_field; [|exact Hz|rewrite Ed; exact Hh]. reflexivity.
  - destruct e; try discriminate.
    change (validate Sources.DehydratedSource (VDict repo)) with
      (validate (TModel "DehydratedSource"
                   (OpenAlexObject.fields ++
                    [ opt "issn_l" TStr; opt "display_name" TStr;
                      opt "is_oa" TBool; opt "is_in_doaj" TBool;
                      opt "issn" (TList TStr);
                      opt "host_organization" TStr;
                      opt "host_organization_lineage" (TList TStr);
                      opt "host_organization_name" TStr;
                      opt "is_core" TBool; opt "type" TStr ]) no_hooks)
         (VDict repo)) in H.
    match type of H with
    | match ?v with _ => _ end = _ => destruct v as [o|e] eqn:E2
    end; [|destruct e; discriminate].
    injection H as <-.
    apply validate_model_dict in E2 as (fs & Hfs & Ha); [|reflexivity].
    cbn in Ha. injection Ha as <-.
    destruct (fields_get _ _ _ _ "host_organization" _ Hfs eq_refl)
      as (z & Hz & Hg).
    cbn [getattr]. rewrite Hg.
    eapply absent_field; [|exact Hz|exact Hh]. reflexivity.
Qed.

Lemma repository_without_host raw repos repo :
  dict_get "repositories" raw = Some (VList repos) ->
  In (VDict repo) repos ->
  dict_get "host_organization" repo = None
  \/ dict_get "host_organization" repo = Some VNone ->
  forall w, Institution.new raw <> Ok w.
Proof.
  intros Hr Hin Hh w Hw. unfold Institution.new, Institution.model in Hw.
  apply (validate_model_framed _ _ _ _ _ "repositories") in Hw
    as (d' & fs & Ed & Hfs & Ha);
    [|apply institution_before_frames; simpl; intuition discriminate].
  destruct (fields_get _ _ _ _ "repositories" _ Hfs eq_refl)
    as (z & Hz & Hg).
  destruct (fields_get _ _ _ _ "id" _ Hfs eq_refl) as (zi & Hzi & Hgi).
  apply required_str_field in Hzi as (s & -> & _); [|reflexivity].
  unfold field_value, opt in Hz.
  cbn [fname faliases frequired ftype lookup] in Hz.
  rewrite Ed, Hr in Hz. cbn [negb andb is_none] in Hz.
  apply bind_ok in Hz as (y & Hy & Hz). cbn in Hz. injection Hz as <-.
  rewrite validate_list_eq in Hy.
  apply bind_ok in Hy as (objs & Hobjs & [= <-]).
  apply collect_map_ok in Hobjs.
  destruct (Forall2_forall_l _ _ _ Hobjs (VDict repo) Hin) as (obj & Hino & Hv).
  pose proof (repository_host_none _ _ Hv Hh) as Hnone.
  cbn [after Institution.hooks run] in Ha.
  apply bind_ok in Ha as (w' & Ha & _). apply wrap_ok in Ha.
  unfold Institution._check_repositories in Ha.
  cbn [getattr] in Ha. rewrite Hg, Hgi in Ha. cbn [py_iter bind] in Ha.
  assert (Fb : forallb
                 (fun repo0 : value =>
                    value_eqb (getattr repo0 "host_organization") (VStr s))
                 objs = false).
  { apply not_true_is_false. intros Ft. rewrite forallb_forall in Ft.
    specialize (Ft obj Hino). rewrite Hnone in Ft. discriminate. }
  rewrite Fb in Ha. discriminate.
Qed.

End Repositories.

(** C10.  An institution record whose repositories list holds a source
    without host_organization (absent or null) does not normalize:
    [_check_repositories] compares the host with the id of the institution
    by plain inequality, and [None] differs from every id.  The record with
    the one repository S1 ends with the validation error of the check, and
    normalizes once the repository names the institution as its host. *)
Theorem repository_without_host_fails :
  (forall raw repos repo,
     dict_get "repositories" raw = Some (VList repos) ->
     In (VDict repo) repos ->
     dict_get "host_organization" repo = None
     \/ dict_get "host_organization" repo = Some VNone ->
     forall w, Institutions.Institution.new raw <> Ok w)
  /\ Institutions.Institution.new
       [("id", VStr "I1");
        ("repositories", VList [VDict [("id", VStr "S1")]])]
     = Raise (ValidationError
                ["Repository host id doesn't match institution id"])
  /\ is_ok (Institutions.Institution.new
              [("id", VStr "I1");
               ("repositories",
                VList [VDict [("id", VStr "S1");
                              ("host_organization", VStr "I1")]])])
     = true.
Proof.
  split; [exact repository_without_host|].
  split; vm_compute; reflexivity.
Qed.

Lemma repository_without_host_fails_witness :
  is_ok (Institutions.Institution.new
           [("id", VStr "I1"); ("display_name", VStr "Univ");
            ("repositories",
             VList [VDict [("id", VStr "S1");
                           ("host_organization", VStr "I1")];
                    VDict [("id", VStr "S2");
                           ("host_organization", VNone)]])])
  = false.
Proof.
  destruct (Institutions.Institution.new
              [("id", VStr "I1"); ("display_name", VStr "Univ");
               ("repositories",
                VList [VDict [("id", VStr "S1");
                              ("host_organization", VStr "I1")];
                       VDict [("id", VStr "S2");
                              ("host_organization", VNone)]])])
    as [w|e] eqn:E; [|reflexivity].
  exfalso.
  refine (proj1 repository_without_host_fails
            [("id", VStr "I1"); ("display_name", VStr "Univ");
             ("repositories",
              VList [VDict [("id", VStr "S1");
                            ("host_organization", VStr "I1")];
                     VDict [("id", VStr "S2");
                            ("host_organization", VNone)]])]
            [VDict [("id", VStr "S1"); ("host_organization", VStr "I1")];
             VDict [("id", VStr "S2"); ("host_organization", VNone)]]
            [("id", VStr "S2"); ("host_organization", VNone)]
            _ _ _ w E);
    [reflexivity | right; left; reflexivity | right; reflexivity].
Defined.

(** ** Empty lists *)

Section DictRemove.
Context {A : Type}.
Implicit Types (d : list (string * A)).

Lemma dict_get_remove_other n f d :
  n <> f -> dict_get n (dict_remove f d) = dict_get n d.
Proof.
  intros Hne. induction d as [|[k v] d IH]; simpl; [reflexivity|].
  destruct (String.eqb f k) eqn:E; simpl.
  - apply String.eqb_eq in E. subst k.
    apply String.eqb_neq in Hne. now rewrite Hne.
  - now rewrite IH.
Qed.

Lemma dict_get_remove_same f d : dict_get f (dict_remove f d) = None.
Proof.
  induction d as [|[k v] d IH]; simpl; [reflexivity|].
  destruct (String.eqb f k) eqn:E; simpl; [exact IH|]. now rewrite E.
Qed.

Lemma dict_set_remove name f x d :
  name <> f ->
  dict_set name x (dict_remove f d) = dict_remove f (dict_set name x d).
Proof.
  intros Hne. assert (Hne' : String.eqb f name = false)
    by (apply String.eqb_neq; congruence).
  induction d as [|[k v] d IH]; simpl.
  - now rewrite Hne'.
  - destruct (String.eqb f k) eqn:E; simpl.
    + apply String.eqb_eq in E. subst k.
      assert (E2 : String.eqb name f = false) by now apply String.eqb_neq.
      rewrite E2. simpl. rewrite String.eqb_refl. exact IH.
    + destruct (String.eqb name k) eqn:E2; simpl.
      * now rewrite Hne'.
      * now rewrite E, IH.
Qed.
End DictRemove.

Lemma ignores_into name key f :
  name <> f -> f <> "id" -> ignores_empty f (Replicate.into name key).
Proof.
  intros Hn Hi r Hf. split.
  - rewrite !into_dict. cbn [py_getitem].
    rewrite !dict_get_remove_other by congruence.
    destruct (dict_get name r) as [sub|]; [|reflexivity].
    destruct sub; try reflexivity;
      destruct (dict_get "id" r); try reflexivity; cbn [bind py_setitem without];
      now rewrite dict_set_remove.
  - intros v Hv.
    destruct (frames_into name key f ltac:(congruence) _ _ Hv)
      as (r' & -> & E).
    exists r'. split; [reflexivity | congruence].
Qed.

Lemma ignores_into_each name key f :
  f <> "id" -> ignores_empty f (Replicate.into_each name key).
Proof.
  intros Hi r Hf.
  destruct (String.eqb name f) eqn:E.
  - apply String.eqb_eq in E. subst name.
    rewrite !into_each_dict. cbv zeta.
    rewrite dict_get_remove_same, Hf. cbn [mapM bind without].
    rewrite (dict_set_id _ _ _ Hf). split; [reflexivity|].
    intros v [= <-]. eauto.
  - apply String.eqb_neq in E. split.
    + rewrite !into_each_dict. cbv zeta. cbn [py_getitem].
      rewrite !dict_get_remove_other by congruence.
      destruct (dict_get name r) as [sub|]; [|reflexivity].
      destruct sub; try reflexivity; cbn [py_iter bind];
        match goal with
        | |- context [mapM ?g ?l] => destruct (mapM g l)
        end; cbn [bind without]; try reflexivity.
      now rewrite dict_set_remove.
    + intros v Hv.
      destruct (frames_into_each name key f ltac:(congruence) _ _ Hv)
        as (r' & -> & E').
      exists r'. split; [reflexivity | congruence].
Qed.

Lemma ignores_bind f (V1 V2 : validator) :
  ignores_empty f V1 -> ignores_empty f V2 ->
  ignores_empty f (fun s => x <- V1 s ;; V2 x).
Proof.
  intros H1 H2 r Hf. destruct (H1 r Hf) as [E1 K1]. split.
  - rewrite E1. destruct (V1 (VDict r)) as [v|e] eqn:Ev; [|reflexivity].
    destruct (K1 v eq_refl) as (r' & -> & Hf').
    cbn [without bind]. apply (H2 r' Hf').
  - intros v Hv. apply bind_ok in Hv as (x & Hx & Hv).
    destruct (K1 x Hx) as (r' & -> & Hf').
    apply (H2 r' Hf'). exact Hv.
Qed.

Lemma ignores_ret f : ignores_empty f (fun s => Ok s).
Proof.
  intros r Hf. split; [reflexivity|]. intros v [= <-]. eauto.
Qed.

Lemma field_value_remove h d f fld :
  dict_get f d = Some (VList []) ->
  collapses h f fld ->
  field_value h (dict_remove f d) fld = field_value h d fld.
Proof.
  intros Hf [Ha [Hn|(Hn & Hr & (t & Ht) & Hv)]]; unfold field_value;
    rewrite Ha; cbn [lookup].
  - now rewrite dict_get_remove_other.
  - rewrite Hn, dict_get_remove_same, Hf, Hr, Ht. cbn. rewrite Hv.
    reflexivity.
Qed.

Lemma model_ignores_empty name fields h V f raw :
  before h = [V] ->
  ignores_empty f V ->
  Forall (collapses h f) fields ->
  dict_get f raw = Some (VList []) ->
  validate (TModel name fields h) (VDict (dict_remove f raw))
  = validate (TModel name fields h) (VDict raw).
Proof.
  intros Hb HV Hfs Hf. rewrite !validate_model_eq, Hb.
  cbn [rev app run]. destruct (HV raw Hf) as [E K]. rewrite E.
  destruct (V (VDict raw)) as [v|e] eqn:Ev; [|reflexivity].
  destruct (K v eq_refl) as (d & -> & Hd). cbn [without wrap bind].
  replace (map (field_value h (dict_remove f d)) fields)
    with (map (field_value h d) fields); [reflexivity|].
  apply map_ext_in. intros fld Hin. symmetry.
  apply field_value_remove; [exact Hd|].
  rewrite Forall_forall in Hfs. now apply Hfs.
Qed.

Ltac collapses_one :=
  split; [reflexivity|];
  first [ left; discriminate
        | right; split; [reflexivity|]; split; [reflexivity|];
          split; [eexists; reflexivity | reflexivity] ].

Ltac collapses_tac :=
  repeat (apply Forall_cons; [collapses_one|]); apply Forall_nil.

Ltac ignores_tac :=
  repeat first
    [ apply ignores_ret
    | apply ignores_into; discriminate
    | apply ignores_into_each; discriminate
    | apply ignores_bind ].

Lemma institution_empty_list raw f :
  In f ["display_name_acronyms"; "display_name_alternatives";
        "associated_institutions"; "counts_by_year"] ->
  dict_get f raw = Some (VList []) ->
  Institutions.Institution.new (dict_remove f raw)
  = Institutions.Institution.new raw.
Proof.
  intros Hin Hf. unfold Institutions.Institution.new.
  apply model_ignores_empty
    with (V := Institutions.Institution._replicate_id);
    [reflexivity | | | exact Hf].
  - unfold Institutions.Institution._replicate_id.
    cbn [In] in Hin. destruct Hin as [<-|[<-|[<-|[<-|[]]]]]; ignores_tac.
  - unfold Institutions.Institution.fields, OpenAlexObject.fields.
    cbn [app In] in *.
    destruct Hin as [<-|[<-|[<-|[<-|[]]]]]; collapses_tac.
Qed.

Lemma author_empty_list raw f :
  In f ["counts_by_year"; "display_name_alternatives"] ->
  dict_get f raw = Some (VList []) ->
  Authors.Author.new (dict_remove f raw) = Authors.Author.new raw.
Proof.
  intros Hin Hf. unfold Authors.Author.new.
  apply model_ignores_empty with (V := Authors.Author._replicate_id);
    [reflexivity | | | exact Hf].
  - unfold Authors.Author._replicate_id.
    cbn [In] in Hin. destruct Hin as [<-|[<-|[]]]; ignores_tac.
  - unfold Authors.Author.fields, OpenAlexObject.fields.
    cbn [app In] in *.
    destruct Hin as [<-|[<-|[]]]; collapses_tac.
Qed.

(** ** Idempotence of identifier replication *)
















(** ** Fan-out of the authorships *)

Section Flatten.
Import Works.

Lemma check_true name a :
  check name a = Ok true ->
  exists d v, a = VDict d /\ dict_get name d = Some v /\ is_none v = false.
Proof.
  destruct a.
  1-4: unfold check; cbn; discriminate.
  - unfold check. cbn [py_in bind].
    destruct (str_contains name s); cbn; discriminate.
  - unfold check; cbn; discriminate.
  - unfold check. cbn [py_in bind].
    destruct (existsb _ l); cbn; discriminate.
  - rewrite check_dict.
    destruct (dict_get name d) as [v|] eqn:E; [|discriminate].
    destruct v; try discriminate; intros _;
      eexists; eexists; (split; [reflexivity|]);
      (split; [exact E | reflexivity]).
  - unfold check; cbn; discriminate.
Qed.


Lemma concat_singletons {A} (l : list A) :
  List.concat (map (fun x => [x]) l) = l.
Proof. induction l; simpl; congruence. Qed.



(** ** Rows of a relation, read back *)


End Flatten.




(** * Fan-out of authorships *)

Section Fanout.
Import Works.

Lemma sql_value_scalar v :
  is_dict v = false -> exists x, SQLTable.sql_value v = Ok x.
Proof.
  destruct v; try discriminate; intros _; try (eexists; reflexivity).
  unfold SQLTable.sql_value.
  repeat match goal with
         | |- context [if ?b then _ else _] => destruct b
         | |- context [match ?o with Some _ => _ | None => _ end] =>
             destruct o
         end; eexists; reflexivity.
Qed.

Lemma validate_scalar t x z :
  scalar_ty t = true -> validate t x = Ok z -> is_dict z = false.
Proof.
  destruct t; try discriminate; intros _; cbn [validate];
    destruct x; try discriminate;
    repeat match goal with
           | |- context [if ?b then _ else _] => destruct b
           end; try discriminate; intros [= <-]; reflexivity.
Qed.

Lemma field_scalar h d n t z :
  scalar_ty t = true ->
  validators_of h n = [] ->
  field_value h d (opt n t) = Ok (n, z) ->
  is_dict z = false.
Proof.
  intros Ht Hv. unfold field_value, opt.
  cbn [fname faliases frequired ftype lookup]. rewrite Hv.
  destruct (dict_get n d) as [x|]; [|now intros [= <-]].
  cbn [negb andb]. intros H. apply bind_ok in H as (y & Hy & H).
  cbn in H. injection H as <-.
  destruct (is_none x); [now injection Hy as <-|].
  exact (validate_scalar _ _ _ Ht Hy).
Qed.

(** The value of an optional string field. *)
Lemma opt_str_field h d n z :
  validators_of h n = [] ->
  field_value h d (opt n TStr) = Ok (n, z) ->
  match dict_get n d with
  | None | Some VNone => z = VNone
  | Some x => z = x
  end.
Proof.
  intros Hv. unfold field_value, opt.
  cbn [fname faliases frequired ftype lookup]. rewrite Hv.
  destruct (dict_get n d) as [x|]; [|now intros [= <-]].
  destruct x; cbn; try discriminate; now intros [= <-].
Qed.

Lemma check_author_id_same self w :
  WorkAuthorship._check_author_id self = Ok w -> w = self.
Proof.
  unfold WorkAuthorship._check_author_id.
  destruct (getattr self "author");
    repeat match goal with
           | |- context [if ?b then _ else _] => destruct b
           end; congruence.
Qed.

Lemma authorship_replicate_dict dd :
  WorkAuthorship._replicate_id (VDict dd) =
  match dict_get "author" dd with
  | None | Some VNone => Ok (VDict dd)
  | Some author =>
      id_ <- py_getitem author "id" ;;
      Ok (VDict (dict_set "author_id" id_ dd))
  end.
Proof.
  unfold WorkAuthorship._replicate_id. rewrite check_dict. cbn [bind].
  destruct (dict_get "author" dd) as [a|] eqn:E; [|reflexivity].
  destruct a; cbn [bind py_getitem]; rewrite ?E; cbn [bind];
    reflexivity.
Qed.

Lemma authorship_inv dd o :
  validate WorkAuthorship.model (VDict dd) = Ok o ->
  exists dd' fs,
    WorkAuthorship._replicate_id (VDict dd) = Ok (VDict dd')
    /\ collect (map (field_value
                       (mkHooks [WorkAuthorship._replicate_id] []
                          [WorkAuthorship._check_author_id]) dd')
                  WorkAuthorship.fields) = Ok fs
    /\ o = VObj "WorkAuthorship" fs.
Proof.
  unfold WorkAuthorship.model. rewrite validate_model_eq.
  cbn [rev before app run]. intros H.
  apply bind_ok in H as (v1 & Hb & H).
  apply bind_ok in Hb as (v0 & Hb & [= <-]). apply wrap_ok in Hb.
  assert (exists dd', v0 = VDict dd') as (dd' & ->).
  { revert Hb. rewrite authorship_replicate_dict.
    destruct (dict_get "author" dd) as [a|]; [|intros [= <-]; eauto].
    destruct a; try (intros [= <-]; eauto; fail);
      intros Hb; apply bind_ok in Hb as (i & _ & [= <-]); eauto. }
  apply bind_ok in H as (fs & Hfs & H2).
  cbn [after run] in H2. apply bind_ok in H2 as (w & Hw & [= <-]).
  apply wrap_ok in Hw. apply check_author_id_same in Hw. subst w.
  eauto.
Qed.

Lemma field_value_agree h d1 d2 fld :
  lookup d1 (fname fld) (faliases fld) = lookup d2 (fname fld) (faliases fld) ->
  field_value h d1 fld = field_value h d2 fld.
Proof. intros E. unfold field_value. now rewrite E. Qed.

Lemma to_sql_values_5 k0 k1 k2 k3 k4 o row :
  SQLTable.to_sql_values [k0; k1; k2; k3; k4] o = Ok row ->
  exists c0 c1 c2 c3 c4,
    row = [c0; c1; c2; c3; c4]
    /\ SQLTable.sql_value (getattr o k0) = Ok c0
    /\ SQLTable.sql_value (getattr o k1) = Ok c1
    /\ SQLTable.sql_value (getattr o k2) = Ok c2
    /\ SQLTable.sql_value (getattr o k3) = Ok c3
    /\ SQLTable.sql_value (getattr o k4) = Ok c4.
Proof.
  intros H. apply mapM_ok in H.
  inversion H as [|? c0 ? ? H0 T0]; subst.
  inversion T0 as [|? c1 ? ? H1 T1]; subst.
  inversion T1 as [|? c2 ? ? H2 T2]; subst.
  inversion T2 as [|? c3 ? ? H3 T3]; subst.
  inversion T3 as [|? c4 ? ? H4 T4]; subst.
  inversion T4; subst.
  exists c0, c1, c2, c3, c4. repeat split; assumption.
Qed.

(** The attributes of a validated authorship that come from plain string
    fields other than author_id. *)
Lemma authorship_str_attr dd o n :
  validate WorkAuthorship.model (VDict dd) = Ok o ->
  find (fun f => String.eqb n (fname f)) WorkAuthorship.fields
    = Some (opt n TStr) ->
  n <> "author_id" ->
  match dict_get n dd with
  | None | Some VNone => getattr o n = VNone
  | Some x => getattr o n = x
  end.
Proof.
  intros H Hf Hn. apply authorship_inv in H as (dd' & fs & Hb & Hfs & ->).
  destruct (fields_get _ _ _ _ n _ Hfs Hf) as (z & Hz & Hg).
  cbn [getattr]. rewrite Hg.
  apply opt_str_field in Hz; [|reflexivity].
  assert (E : dict_get n dd' = dict_get n dd).
  { revert Hb. rewrite authorship_replicate_dict.
    destruct (dict_get "author" dd) as [a|]; [|now intros [= <-]].
    destruct a; try (now intros [= <-]);
      intros Hb; apply bind_ok in Hb as (i & _ & [= <-]);
      now apply dict_get_set_other. }
  now rewrite <- E.
Qed.

(** Two entries that differ in institution_id and institutions only have
    rows that differ in the column institution_id only. *)
Lemma authorship_rows_agree idv d1 d2 row1 row2 :
  (forall k, k <> "institution_id" -> k <> "institutions" ->
             dict_get k d1 = dict_get k d2) ->
  authorship_row idv (VDict d1) row1 ->
  authorship_row idv (VDict d2) row2 ->
  forall c, c <> 3%nat -> nth c row1 VNone = nth c row2 VNone.
Proof.
  intros Hk (dx1 & o1 & [= <-] & V1 & R1) (dx2 & o2 & [= <-] & V2 & R2).
  apply authorship_inv in V1 as (e1 & fs1 & B1 & F1 & ->).
  apply authorship_inv in V2 as (e2 & fs2 & B2 & F2 & ->).
  assert (Hk' : forall k, k <> "institution_id" -> k <> "institutions" ->
                  dict_get k e1 = dict_get k e2).
  { intros k K1 K2.
    assert (Hw : forall j, j <> "institution_id" -> j <> "institutions" ->
              dict_get j (dict_set "work_id" idv d1)
              = dict_get j (dict_set "work_id" idv d2)).
    { intros j J1 J2. destruct (String.eqb j "work_id") eqn:E.
      - apply String.eqb_eq in E. subst j. now rewrite !dict_get_set_same.
      - apply String.eqb_neq in E.
        rewrite !dict_get_set_other by exact E. now apply Hk. }
    revert B1 B2. rewrite !authorship_replicate_dict.
    rewrite <- (Hw "author") by discriminate.
    destruct (dict_get "author" (dict_set "work_id" idv d1)) as [a|];
      [|intros [= <-] [= <-]; now apply Hw].
    destruct a; try (intros [= <-] [= <-]; now apply Hw);
      intros B1 B2;
      apply bind_ok in B1 as (i1 & I1 & [= <-]);
      apply bind_ok in B2 as (i2 & I2 & [= <-]);
      assert (i1 = i2) as -> by congruence;
      (destruct (String.eqb k "author_id") eqn:E;
       [ apply String.eqb_eq in E; subst k; now rewrite !dict_get_set_same
       | apply String.eqb_neq in E;
         (etransitivity; [apply dict_get_set_other; exact E|]);
         symmetry;
         (etransitivity; [apply dict_get_set_other; exact E|]);
         symmetry; now apply Hw ]). }
  assert (A : forall n fld,
            find (fun f => String.eqb n (fname f)) WorkAuthorship.fields
              = Some fld ->
            faliases fld = [] -> fname fld = n ->
            n <> "institution_id" -> n <> "institutions" ->
            getattr (VObj "WorkAuthorship" fs1) n
            = getattr (VObj "WorkAuthorship" fs2) n).
  { intros n fld Hf Ha Hn N1 N2.
    destruct (fields_get _ _ _ _ n _ F1 Hf) as (z1 & Z1 & G1).
    destruct (fields_get _ _ _ _ n _ F2 Hf) as (z2 & Z2 & G2).
    cbn [getattr]. rewrite G1, G2.
    rewrite (field_value_agree _ e1 e2) in Z1; [congruence|].
    rewrite Ha, Hn. cbn [lookup]. now apply Hk'. }
  apply to_sql_values_5 in R1
    as (a0 & a1 & a2 & a3 & a4 & -> & P0 & P1 & P2 & P3 & P4).
  apply to_sql_values_5 in R2
    as (b0 & b1 & b2 & b3 & b4 & -> & Q0 & Q1 & Q2 & Q3 & Q4).
  rewrite (A "work_id" _ eq_refl eq_refl eq_refl) in P0 by discriminate.
  rewrite (A "author_position" _ eq_refl eq_refl eq_refl) in P1
    by discriminate.
  rewrite (A "author_id" _ eq_refl eq_refl eq_refl) in P2 by discriminate.
  rewrite (A "raw_affiliation_string" _ eq_refl eq_refl eq_refl) in P4
    by discriminate.
  assert (a0 = b0) as -> by congruence.
  assert (a1 = b1) as -> by congruence.
  assert (a2 = b2) as -> by congruence.
  assert (a4 = b4) as -> by congruence.
  intros c Hc.
  destruct c as [|[|[|[|[|c]]]]]; try reflexivity; try congruence;
    destruct c; reflexivity.
Qed.

(** The column institution_id of a row. *)
Lemma authorship_row_institution idv dx row :
  authorship_row idv (VDict dx) row ->
  exists z,
    SQLTable.sql_value z = Ok (nth 3 row VNone)
    /\ match dict_get "institution_id" dx with
       | None | Some VNone => z = VNone
       | Some x => z = x
       end.
Proof.
  intros (dx' & o & [= <-] & V & R).
  pose proof (authorship_str_attr _ _ "institution_id" V eq_refl
                ltac:(discriminate)) as H.
  rewrite dict_get_set_other in H by discriminate.
  apply to_sql_values_5 in R
    as (a0 & a1 & a2 & a3 & a4 & -> & P0 & P1 & P2 & P3 & P4).
  exists (getattr o "institution_id"). split; [exact P3 | exact H].
Qed.

(** Every validated authorship has a row. *)
Lemma authorship_row_total dd o :
  validate WorkAuthorship.model (VDict dd) = Ok o ->
  exists row, SQLTable.to_sql_values WorkAuthorship._sql_order o = Ok row.
Proof.
  intros V. apply authorship_inv in V as (dd' & fs & _ & F & ->).
  assert (A : forall n t,
            find (fun f => String.eqb n (fname f)) WorkAuthorship.fields
              = Some (opt n t) ->
            scalar_ty t = true ->
            exists x,
              SQLTable.sql_value (getattr (VObj "WorkAuthorship" fs) n)
              = Ok x).
  { intros n t Hf Ht.
    destruct (fields_get _ _ _ _ n _ F Hf) as (z & Z & G).
    cbn [getattr]. rewrite G. apply sql_value_scalar.
    refine (field_scalar _ _ _ _ _ Ht _ Z). reflexivity. }
  destruct (A "work_id" _ eq_refl eq_refl) as (c0 & E0).
  destruct (A "author_position" _ eq_refl eq_refl) as (c1 & E1).
  destruct (A "author_id" _ eq_refl eq_refl) as (c2 & E2).
  destruct (A "institution_id" _ eq_refl eq_refl) as (c3 & E3).
  destruct (A "raw_affiliation_string" _ eq_refl eq_refl) as (c4 & E4).
  exists [c0; c1; c2; c3; c4].
  unfold SQLTable.to_sql_values, WorkAuthorship._sql_order.
  cbn [mapM]. rewrite E0, E1, E2, E3, E4. reflexivity.
Qed.

Lemma Forall2_concat_split {A B} (R : A -> B -> Prop) gs :
  forall ys, Forall2 R (List.concat gs) ys ->
  exists yss, ys = List.concat yss /\ Forall2 (Forall2 R) gs yss.
Proof.
  induction gs as [|g gs IH]; cbn [List.concat]; intros ys H.
  - inversion H; subst. exists []. split; [reflexivity | constructor].
  - apply Forall2_app_inv_l in H as (y1 & y2 & H1 & H2 & ->).
    destruct (IH _ H2) as (yss & -> & Hs).
    exists (y1 :: yss). split; [reflexivity | now constructor].
Qed.

Lemma Forall2_trans_ex {A B C} (R : A -> B -> Prop) (S : B -> C -> Prop)
      l1 l2 :
  Forall2 R l1 l2 -> forall l3, Forall2 S l2 l3 ->
  Forall2 (fun a c => exists b, R a b /\ S b c) l1 l3.
Proof.
  induction 1 as [|a b l1 l2 H _ IH]; intros l3 H3; inversion H3; subst;
    constructor; eauto.
Qed.

Lemma Forall2_In_r {A B} (R : A -> B -> Prop) l1 l2 y :
  Forall2 R l1 l2 -> In y l2 -> exists x, In x l1 /\ R x y.
Proof.
  induction 1 as [|a b l1 l2 H _ IH]; cbn [In]; [tauto|].
  intros [<-|Hin]; [eauto|]. destruct (IH Hin) as (x & ? & ?). eauto.
Qed.

(** The rows one authorship accounts for. *)
Lemma fanout_one idv a g_raw g :
  Work.flatten_authorship a = Ok g_raw ->
  Forall2 (authorship_row idv) g_raw g ->
  fanout_rows a g.
Proof.
  destruct a as [| | | | | | |d|]; try exact (fun _ _ => I).
  unfold Work.flatten_authorship, fanout_rows. rewrite check_dict.
  cbn [bind].
  assert (One : forall g_raw,
            g_raw = [VDict d] ->
            Forall2 (authorship_row idv) g_raw g ->
            exists row, g = [row]
              /\ (dict_get "institution_id" d = None
                  \/ dict_get "institution_id" d = Some VNone ->
                  nth 3 row VNone = VNone)).
  { intros ? -> H. inversion H as [|? row ? ? Hr T]; subst.
    inversion T; subst. exists row. split; [reflexivity|].
    apply authorship_row_institution in Hr as (z & Hz & Hd).
    intros [E|E]; rewrite E in Hd; subst z; cbn in Hz; congruence. }
  destruct (dict_get "institutions" d) as [insts|] eqn:E;
    [|intros [= <-]; now apply One].
  destruct insts as [| | | | | |l| |]; cbn [negb];
    try (intros [= <-]; now apply One); try exact (fun _ _ => I).
  cbn [py_getitem]. rewrite E. cbn [bind is_none py_len].
  destruct l as [|i rest];
    [cbn; intros [= <-]; now apply One|].
  cbn [List.length Nat.eqb bind py_iter]. intros Hm Hr.
  apply mapM_ok in Hm.
  assert (Hshape : Forall2
            (fun inst x => exists idv',
               py_getitem inst "id" = Ok idv'
               /\ x = VDict (dict_set "institutions" (VList [inst])
                               (dict_set "institution_id" idv' d)))
            (i :: rest) g_raw).
  { eapply Forall2_impl; [|exact Hm]. cbn beta. intros inst x H.
    apply bind_ok in H as (idv' & Hi & H). cbn in H.
    injection H as <-. eauto. }
  clear Hm. split.
  - pose proof (Forall2_trans_ex _ _ _ _ Hshape _ Hr) as H.
    eapply Forall2_impl; [|exact H]. cbn beta.
    intros inst row (x & (idv' & Hi & ->) & Hrow).
    exists idv'. split; [exact Hi|].
    apply authorship_row_institution in Hrow as (z & Hz & Hd).
    rewrite dict_get_set_other, dict_get_set_same in Hd by discriminate.
    assert (z = idv') as -> by (destruct idv'; assumption).
    exact Hz.
  - intros row row' c Hin Hin' Hc.
    destruct (Forall2_In_r _ _ _ _ Hr Hin) as (x & Hx & Rx).
    destruct (Forall2_In_r _ _ _ _ Hr Hin') as (x' & Hx' & Rx').
    destruct (Forall2_In_r _ _ _ _ Hshape Hx)
      as (inst & _ & idv1 & _ & ->).
    destruct (Forall2_In_r _ _ _ _ Hshape Hx')
      as (inst' & _ & idv2 & _ & ->).
    refine (authorship_rows_agree idv _ _ _ _ _ Rx Rx' c Hc).
    intros k K1 K2.
    rewrite !(dict_get_set_other k "institutions") by exact K2.
    rewrite !(dict_get_set_other k "institution_id") by exact K1.
    reflexivity.
Qed.

(** The entry of the authorships of a record once the before-validators of
    the work have run: the flattened entries, each with the id of the work
    under work_id. *)
Lemma before_authorships raw d auths :
  run (rev (before Work.hooks)) (VDict raw) = Ok (VDict d) ->
  dict_get "authorships" raw = Some (VList auths) ->
  exists groups idv flat,
    mapM Work.flatten_authorship auths = Ok groups
    /\ dict_get "authorships" d = Some (VList flat)
    /\ Forall2 (fun x y => exists dx,
                  x = VDict dx /\ y = VDict (dict_set "work_id" idv dx))
         (List.concat groups) flat.
Proof.
  intros H Hl.
  apply work_before_steps in H
    as (r1 & r2 & r3 & r4 & d' & H1 & H2 & H3 & H4 & H5 & [= <-]).
  rewrite flatten_dict, Hl in H1. cbn [py_iter bind] in H1.
  apply bind_ok in H1 as (groups & Hg & [= <-]).
  exists groups.
  destruct (ref_related_frames "authorships"
              ltac:(simpl; intuition discriminate) _ _ H2)
    as (? & [= <-] & E2).
  rewrite dict_get_set_same in E2.
  destruct (replicate_3_frames "authorships"
              ltac:(simpl; intuition discriminate) _ _ H3)
    as (? & [= <-] & E3).
  destruct (replicate_2_frames "authorships"
              ltac:(simpl; intuition discriminate) _ _ H4)
    as (? & [= <-] & E4).
  assert (E : dict_get "authorships" r4
              = Some (VList (List.concat groups))) by congruence.
  clear - H5 E Hg.
  unfold Work._replicate_id_1 in H5.
  apply bind_ok in H5 as (x1 & K1 & H5).
  destruct (frames_into_each "counts_by_year" "author_id" "authorships"
              ltac:(discriminate) _ _ K1) as (a1 & -> & F1).
  apply bind_ok in H5 as (x2 & K2 & H5).
  destruct (frames_into "ids" "work_id" "authorships"
              ltac:(discriminate) _ _ K2) as (a2 & -> & F2).
  apply bind_ok in H5 as (x3 & K3 & H5).
  destruct (frames_into_each "locations" "work_id" "authorships"
              ltac:(discriminate) _ _ K3) as (a3 & -> & F3).
  apply bind_ok in H5 as (x4 & K4 & H5).
  apply bind_ok in H5 as (x5 & K5 & [= ->]).
  assert (E3 : dict_get "authorships" a3
               = Some (VList (List.concat groups))) by congruence.
  rewrite into_each_dict, E3 in K4. cbv zeta in K4.
  apply bind_ok in K4 as (flat & Hm & [= <-]).
  destruct (frames_into "biblio" "work_id" "authorships"
              ltac:(discriminate) _ _ K5) as (a5 & [= <-] & F5).
  rewrite dict_get_set_same in F5.
  apply mapM_ok in Hm.
  destruct (py_getitem (VDict a3) "id") as [idv|e] eqn:Ei.
  - exists idv, flat. split; [exact Hg|]. split; [exact F5|].
    eapply Forall2_impl; [|exact Hm]. cbn beta. intros x y H.
    cbn [bind] in H. destruct x; try discriminate.
    injection H as <-. eauto.
  - exists VNone, flat. split; [exact Hg|]. split; [exact F5|].
    inversion Hm; subst; [constructor|]. discriminate.
Qed.

End Fanout.

(** C2.  The rows of the authorships table of a normalized work are those
    of its authorships, one after the other; an authorship with N >= 1
    institutions accounts for exactly N rows, the k-th carrying the id of
    the k-th institution in the column institution_id, and all N equal in
    every other column; an authorship whose institutions are absent, null
    or the empty list accounts for exactly one row, whose institution_id is
    null when the authorship itself supplies no institution_id. *)
Theorem authorship_fanout raw w auths :
  Works.Work.new raw = Ok w ->
  dict_get "authorships" raw = Some (VList auths) ->
  exists groups,
    Forall2 fanout_rows auths groups
    /\ Works.subtable_rows w "authorships"
       = Ok (Some (VList (map VList (List.concat groups)))).
Proof.
  intros Hw Hl.
  destruct (work_attr raw w "authorships" _ Hw eq_refl) as (d & Hb & Hf).
  destruct (before_authorships _ _ _ Hb Hl)
    as (groups & idv & flat & Hg & Hd & Hflat).
  unfold field_value, Common.opt in Hf.
  cbn [fname faliases frequired ftype lookup] in Hf. rewrite Hd in Hf.
  cbn [negb andb is_none] in Hf. rewrite validate_list_eq in Hf.
  apply bind_ok in Hf as (z & Hz & Hf).
  apply bind_ok in Hz as (objs & Hc & [= <-]).
  cbn in Hf. injection Hf as Hf.
  apply collect_map_ok in Hc.
  assert (Hrows : exists rows,
            Forall2 (fun o row =>
                       SQLTable.to_sql_values
                         Works.WorkAuthorship._sql_order o = Ok row)
              objs rows).
  { clear - Hc Hflat. revert flat Hflat Hc.
    generalize (List.concat groups) as xs.
    intros xs flat H. revert objs.
    induction H as [|x y xs flat (dx & -> & ->) _ IH]; intros objs Hc;
      inversion Hc as [|? o ? os Ho Hos]; subst.
    - exists []. constructor.
    - destruct (IH _ Hos) as (rows & Hr).
      destruct (authorship_row_total _ _ Ho) as (row & Hrow).
      exists (row :: rows). now constructor. }
  destruct Hrows as (rows & Hrows).
  assert (Hall : Forall2 (authorship_row idv) (List.concat groups) rows).
  { clear - Hc Hflat Hrows. revert flat Hflat objs Hc rows Hrows.
    generalize (List.concat groups) as xs.
    intros xs flat H.
    induction H as [|x y xs flat (dx & -> & ->) _ IH]; intros objs Hc rows Hr;
      inversion Hc as [|? o ? os Ho Hos]; subst;
      inversion Hr as [|? row ? rs Hrow Hrs]; subst; constructor.
    - exists dx, o. auto.
    - eapply IH; eassumption. }
  destruct (Forall2_concat_split _ _ _ Hall) as (gs & -> & Hgs).
  exists gs. split.
  - apply mapM_ok in Hg. clear - Hg Hgs. revert gs Hgs.
    induction Hg as [|a g_raw auths groups Ha _ IH]; intros gs Hgs;
      inversion Hgs; subst; constructor.
    + eapply fanout_one; eassumption.
    + now apply IH.
  - unfold Works.subtable_rows. rewrite <- Hf.
    change (Works.sql_order_of "authorships")
      with Works.WorkAuthorship._sql_order.
    rewrite (mapM_of_Forall2 _ _ _ Hrows). reflexivity.
Qed.

Lemma authorship_fanout_witness :
  exists w groups,
    Works.Work.new
      [("id", VStr "W1");
       ("authorships",
        VList [VDict [("institutions",
                       VList [VDict [("id", VStr "I1")];
                              VDict [("id", VStr "I2")]])]])]
    = Ok w
    /\ Forall2 fanout_rows
         [VDict [("institutions",
                  VList [VDict [("id", VStr "I1")];
                         VDict [("id", VStr "I2")]])]] groups
    /\ Works.subtable_rows w "authorships"
       = Ok (Some (VList (map VList (List.concat groups)))).
Proof.
  assert (H : exists w,
            Works.Work.new
              [("id", VStr "W1");
               ("authorships",
                VList [VDict [("institutions",
                               VList [VDict [("id", VStr "I1")];
                                      VDict [("id", VStr "I2")]])]])]
            = Ok w) by (eexists; reflexivity).
  destruct H as (w & H).
  destruct (authorship_fanout _ w
              [VDict [("institutions",
                       VList [VDict [("id", VStr "I1")];
                              VDict [("id", VStr "I2")]])]] H eq_refl)
    as (groups & H1 & H2).
  exists w, groups. repeat split; assumption.
Defined.

(** An authorship without institutions that carries an institution_id of
    its own, as the entries [from_sql] builds do, keeps it in its row. *)
Lemma authorship_with_institution_id_keeps_it :
  (w <- Works.Work.new
          [("id", VStr "W1");
           ("authorships", VList [VDict [("institution_id", VStr "I1")]])] ;;
   Works.subtable_rows w "authorships")
  = Ok (Some (VList [VList [VStr "W1"; VNone; VNone; VStr "I1"; VNone]])).
Proof. reflexivity. Qed.

(** * Round trip through the tables *)

(** ** Dates in a row *)

Section DateColumn.
Import Datetime.

Lemma str_contains_cons sub c s :
  str_contains sub s = true -> str_contains sub (String c s) = true.
Proof.
  unfold str_contains. cbn [String.index].
  destruct (String.prefix sub (String c s)); [reflexivity|].
  destruct (String.index 0 sub s); [reflexivity | discriminate].
Qed.

Lemma replace_char_app c by_ x y :
  SQLTable.replace_char c by_ (x ++ y)
  = (SQLTable.replace_char c by_ x ++ SQLTable.replace_char c by_ y)%string.
Proof.
  induction x as [|a x IH]; cbn [String.append SQLTable.replace_char];
    [reflexivity|].
  destruct (Ascii.eqb c a); rewrite IH; [|reflexivity].
  generalize (SQLTable.replace_char c by_ x) as u.
  generalize (SQLTable.replace_char c by_ y) as w. clear.
  intros w u. induction by_ as [|b by_ IH]; cbn [String.append];
    [reflexivity | now rewrite IH].
Qed.

Lemma digit_not_Z n : Ascii.eqb "Z" (digit n) = false.
Proof.
  destruct (Ascii.eqb "Z" (digit n)) eqn:E; [|reflexivity].
  apply Ascii.eqb_eq in E. pose proof (digit_val_digit n) as H.
  rewrite <- E in H. discriminate.
Qed.

Lemma replace_Z_pad2 n :
  SQLTable.replace_char "Z" "+00:00" (pad2 n) = pad2 n.
Proof.
  unfold pad2. cbn [SQLTable.replace_char]. now rewrite !digit_not_Z.
Qed.

Lemma replace_Z_pad4 n :
  SQLTable.replace_char "Z" "+00:00" (pad4 n) = pad4 n.
Proof.
  unfold pad4. cbn [SQLTable.replace_char].
  now rewrite !digit_not_Z, replace_Z_pad2.
Qed.

Lemma replace_Z_pad6 n :
  SQLTable.replace_char "Z" "+00:00" (pad6 n) = pad6 n.
Proof.
  unfold pad6. cbn [SQLTable.replace_char].
  now rewrite !digit_not_Z, replace_Z_pad4.
Qed.

Lemma replace_Z_offset o :
  SQLTable.replace_char "Z" "+00:00" (format_offset o) = format_offset o.
Proof.
  unfold format_offset. cbv zeta.
  rewrite !replace_char_app, !replace_Z_pad2.
  destruct (o <? 0)%Z; destruct (Z.abs o mod 60 =? 0)%Z;
    rewrite ?replace_char_app, ?replace_Z_pad2; reflexivity.
Qed.

Lemma replace_Z_isoformat d :
  SQLTable.replace_char "Z" "+00:00" (isoformat d) = isoformat d.
Proof.
  unfold isoformat.
  rewrite !replace_char_app, replace_Z_pad4, !replace_Z_pad2.
  destruct (dt_microsecond d =? 0)%Z; destruct (dt_utcoffset d);
    rewrite ?replace_char_app, ?replace_Z_pad6, ?replace_Z_offset;
    reflexivity.
Qed.

(** What [to_sql_values] hands over for a date that [check_8601] printed:
    the date. *)
Lemma sql_value_isoformat d :
  datetime_okb d = true ->
  SQLTable.sql_value (VStr (isoformat d)) = Ok (VDatetime d).
Proof.
  intros Hok. unfold SQLTable.sql_value.
  rewrite replace_Z_isoformat, (fromisoformat_isoformat d Hok).
  assert (E : exists c0 c1 c2 c3 m0 m1 d0 d1 rest,
            isoformat d
            = String c0 (String c1 (String c2 (String c3 (String "-"
                (String m0 (String m1 (String "-" (String d0 (String d1
                   (String "T" rest))))))))))).
  { unfold isoformat, pad4, pad2. cbn [String.append].
    do 9 eexists. reflexivity. }
  destruct E as (c0 & c1 & c2 & c3 & m0 & m1 & d0 & d1 & rest & ->).
  assert (T : str_contains "T"
                (String c0 (String c1 (String c2 (String c3 (String "-"
                   (String m0 (String m1 (String "-" (String d0 (String d1
                      (String "T" rest))))))))))) = true).
  { do 10 apply str_contains_cons. unfold str_contains. cbn.
    destruct rest; reflexivity. }
  rewrite T. cbn [orb].
  cbn [String.eqb negb String.length Nat.leb andb SQLTable.char_is
       String.get Ascii.eqb Bool.eqb].
  reflexivity.
Qed.

Lemma fromisoformat_okb s d :
  fromisoformat s = Some d -> datetime_okb d = true.
Proof.
  unfold fromisoformat. destruct (parse_fields s) as [d'|]; [|discriminate].
  destruct (datetime_okb d') eqn:E; [|discriminate]. now intros [= <-].
Qed.

(** A validated date: [None], or the text [check_8601] printed for a
    date. *)
Lemma date8601_value x z :
  (if is_none x then Ok VNone else validate Date8601 x) = Ok z ->
  z = VNone
  \/ exists d, datetime_okb d = true /\ z = VStr (isoformat d).
Proof.
  destruct (is_none x); [intros [= <-]; now left|].
  unfold Date8601. cbn [validate]. intros H.
  apply bind_ok in H as (y & Hy & H). apply wrap_ok in H. right.
  destruct x; try discriminate.
  - destruct (fromisoformat s) as [d|] eqn:E; [|discriminate].
    injection Hy as <-. unfold check_8601 in H. injection H as <-.
    exists d. split; [exact (fromisoformat_okb _ _ E) | reflexivity].
  - destruct (datetime_okb d) eqn:E; [|discriminate].
    injection Hy as <-. unfold check_8601 in H. injection H as <-. eauto.
Qed.

(** The date read back from the row is the date of the object. *)
Lemma date8601_reread z :
  z = VNone \/ (exists d, datetime_okb d = true /\ z = VStr (isoformat d)) ->
  exists c,
    SQLTable.sql_value z = Ok c
    /\ (if is_none c then Ok VNone else validate Date8601 c) = Ok z.
Proof.
  intros [->|(d & Hok & ->)].
  - exists VNone. split; reflexivity.
  - exists (VDatetime d). split; [exact (sql_value_isoformat d Hok)|].
    unfold Date8601. cbn [is_none validate]. rewrite Hok.
    cbn [bind]. unfold check_8601. reflexivity.
Qed.

End DateColumn.

(** ** Rows read back *)

Section Reread.
Import Works.

Lemma scalar_revalidate t x z :
  scalar_ty t = true -> validate t x = Ok z ->
  validate t z = Ok z /\ is_none z = false.
Proof.
  destruct t; try discriminate; intros _; cbn [validate];
    destruct x; try discriminate;
    repeat match goal with
           | |- context [if ?b then _ else _] => destruct b eqn:?
           end; try discriminate; intros [= <-]; cbn [validate is_none];
    rewrite ?Heqb; split; reflexivity.
Qed.

Lemma field_stable h d fld n z :
  field_value h d fld = Ok (n, z) ->
  validators_of h (fname fld) = [] ->
  scalar_ty (ftype fld) = true ->
  stable fld z.
Proof.
  unfold field_value, stable. intros H Hv Ht. rewrite Hv in H.
  destruct (lookup d (fname fld) (faliases fld)) as [x|].
  - apply bind_ok in H as (y & Hy & H). cbn in H. injection H as _ <-.
    destruct (negb (frequired fld) && is_none x) eqn:E.
    + injection Hy as <-. apply andb_true_iff in E as [-> _]. reflexivity.
    + destruct (scalar_revalidate _ _ _ Ht Hy) as [-> ->].
      now rewrite andb_false_r.
  - destruct (frequired fld); [discriminate|]. now injection H as _ <-.
Qed.

Lemma field_value_stable h d fld z :
  lookup d (fname fld) (faliases fld) = Some z ->
  validators_of h (fname fld) = [] ->
  stable fld z ->
  field_value h d fld = Ok (fname fld, z).
Proof.
  unfold field_value, stable. intros -> -> ->. reflexivity.
Qed.

Lemma field_value_absent h d fld :
  lookup d (fname fld) (faliases fld) = None ->
  frequired fld = false ->
  field_value h d fld = Ok (fname fld, VNone).
Proof. unfold field_value. now intros -> ->. Qed.

Lemma collect_fields h d fields (vals : string -> value) :
  Forall (fun fld => field_value h d fld = Ok (fname fld, vals (fname fld)))
    fields ->
  collect (map (field_value h d) fields)
  = Ok (map (fun fld => (fname fld, vals (fname fld))) fields).
Proof.
  induction 1 as [|fld fields H _ IH]; cbn [map collect]; [reflexivity|].
  now rewrite H, IH.
Qed.

Ltac column_of H :=
  match goal with
  | |- stable ?fld _ =>
      let k := eval cbv in (fname fld) in
      exact (proj1 (proj1 (Forall_forall _ _) H k
                      ltac:(cbv [In]; repeat (first [left; reflexivity | right]))))
  end.

Ltac reread_field H :=
  first
    [ apply field_value_stable; [reflexivity | reflexivity | column_of H]
    | apply field_value_absent; reflexivity ].

Ltac reread_fields H :=
  repeat (apply Forall_cons; [reread_field H|]); apply Forall_nil.

Lemma location_reread cls o :
  row_ok (TModel cls BaseWorkLocation.fields BaseWorkLocation.hooks)
    BaseWorkLocation._sql_order o ->
  validate (TModel cls BaseWorkLocation.fields BaseWorkLocation.hooks)
    (reread BaseWorkLocation._sql_order o)
  = Ok (restored (TModel cls BaseWorkLocation.fields BaseWorkLocation.hooks)
          BaseWorkLocation._sql_order o).
Proof.
  intros H. unfold row_ok in H. cbn [fields_of] in H.
  unfold reread, restored. rewrite validate_model_eq.
  cbn [before BaseWorkLocation.hooks rev run bind].
  rewrite (collect_fields _ _ _
             (fun k => if str_in k BaseWorkLocation._sql_order
                       then getattr o k else VNone));
    [reflexivity|].
  unfold BaseWorkLocation.fields. reread_fields H.
Qed.

Lemma authorship_reread o :
  row_ok WorkAuthorship.model WorkAuthorship._sql_order o ->
  validate WorkAuthorship.model (reread WorkAuthorship._sql_order o)
  = Ok (restored WorkAuthorship.model WorkAuthorship._sql_order o).
Proof.
  intros H. unfold row_ok in H. cbn [fields_of WorkAuthorship.model] in H.
  unfold reread, restored, WorkAuthorship.model.
  rewrite validate_model_eq. cbn [before rev app run].
  rewrite authorship_replicate_dict.
  replace (dict_get "author"
             (dict_zip WorkAuthorship._sql_order
                (map (getattr o) WorkAuthorship._sql_order)))
    with (@None value) by reflexivity.
  cbn [wrap bind].
  rewrite (collect_fields _ _ _
             (fun k => if str_in k WorkAuthorship._sql_order
                       then getattr o k else VNone));
    [reflexivity|].
  unfold WorkAuthorship.fields. reread_fields H.
Qed.

Lemma biblio_reread o :
  row_ok WorkBiblio.model WorkBiblio._sql_order o ->
  validate WorkBiblio.model (reread WorkBiblio._sql_order o)
  = Ok (restored WorkBiblio.model WorkBiblio._sql_order o).
Proof.
  intros H. unfold row_ok in H. cbn [fields_of WorkBiblio.model] in H.
  unfold reread, restored, WorkBiblio.model.
  rewrite validate_model_eq. cbn [before no_hooks rev run bind].
  rewrite (collect_fields _ _ _
             (fun k => if str_in k WorkBiblio._sql_order
                       then getattr o k else VNone));
    [reflexivity|].
  reread_fields H.
Qed.

Lemma topic_reread o :
  row_ok WorkTopic.model WorkTopic._sql_order o ->
  validate WorkTopic.model (reread WorkTopic._sql_order o)
  = Ok (restored WorkTopic.model WorkTopic._sql_order o).
Proof.
  intros H. unfold row_ok in H. cbn [fields_of WorkTopic.model] in H.
  unfold reread, restored, WorkTopic.model.
  rewrite validate_model_eq. cbn [before no_hooks rev run bind].
  rewrite (collect_fields _ _ _
             (fun k => if str_in k WorkTopic._sql_order
                       then getattr o k else VNone));
    [reflexivity|].
  reread_fields H.
Qed.

Lemma concept_reread o :
  row_ok WorkConcept.model WorkConcept._sql_order o ->
  validate WorkConcept.model (reread WorkConcept._sql_order o)
  = Ok (restored WorkConcept.model WorkConcept._sql_order o).
Proof.
  intros H. unfold row_ok in H. cbn [fields_of WorkConcept.model] in H.
  unfold reread, restored, WorkConcept.model.
  rewrite validate_model_eq. cbn [before no_hooks rev run bind].
  rewrite (collect_fields _ _ _
             (fun k => if str_in k WorkConcept._sql_order
                       then getattr o k else VNone));
    [reflexivity|].
  reread_fields H.
Qed.

Lemma ids_reread o :
  row_ok WorkIDs.model WorkIDs._sql_order o ->
  validate WorkIDs.model (reread WorkIDs._sql_order o)
  = Ok (restored WorkIDs.model WorkIDs._sql_order o).
Proof.
  intros H. unfold row_ok in H. cbn [fields_of WorkIDs.model] in H.
  unfold reread, restored, WorkIDs.model.
  rewrite validate_model_eq. cbn [before no_hooks rev run bind].
  rewrite (collect_fields _ _ _
             (fun k => if str_in k WorkIDs._sql_order
                       then getattr o k else VNone));
    [reflexivity|].
  reread_fields H.
Qed.

Lemma mesh_reread o :
  row_ok WorkMesh.model WorkMesh._sql_order o ->
  validate WorkMesh.model (reread WorkMesh._sql_order o)
  = Ok (restored WorkMesh.model WorkMesh._sql_order o).
Proof.
  intros H. unfold row_ok in H. cbn [fields_of WorkMesh.model] in H.
  unfold reread, restored, WorkMesh.model.
  rewrite validate_model_eq. cbn [before no_hooks rev run bind].
  rewrite (collect_fields _ _ _
             (fun k => if str_in k WorkMesh._sql_order
                       then getattr o k else VNone));
    [reflexivity|].
  reread_fields H.
Qed.

Lemma open_access_reread o :
  row_ok WorkOpenAccess.model WorkOpenAccess._sql_order o ->
  validate WorkOpenAccess.model (reread WorkOpenAccess._sql_order o)
  = Ok (restored WorkOpenAccess.model WorkOpenAccess._sql_order o).
Proof.
  intros H. unfold row_ok in H. cbn [fields_of WorkOpenAccess.model] in H.
  unfold reread, restored, WorkOpenAccess.model.
  rewrite validate_model_eq. cbn [before no_hooks rev run bind].
  rewrite (collect_fields _ _ _
             (fun k => if str_in k WorkOpenAccess._sql_order
                       then getattr o k else VNone));
    [reflexivity|].
  reread_fields H.
Qed.

(** An entry of a relation, wrapped again from the identifier in its
    row. *)
Lemma relation_reread cls n idv x :
  stable (opt "work_id" TStr) idv ->
  stable (opt n TStr) x ->
  validate
    (TModel cls [opt "work_id" TStr; opt_alias n ["id"; n] TStr] no_hooks)
    (_construct_dict_from_id idv x)
  = Ok (VObj cls [("work_id", idv); (n, x)]).
Proof.
  intros Hi Hx. unfold _construct_dict_from_id.
  rewrite validate_model_eq. cbn [before no_hooks rev run bind].
  cbn [map collect].
  rewrite (field_value_stable no_hooks [("id", x); ("work_id", idv)]
             (opt "work_id" TStr) idv);
    [|reflexivity|reflexivity|exact Hi].
  rewrite (field_value_stable no_hooks [("id", x); ("work_id", idv)]
             (opt_alias n ["id"; n] TStr) x);
    [|reflexivity|reflexivity|exact Hx].
  reflexivity.
Qed.

End Reread.

(** ** The rows handed to [from_sql] *)

Section Rows.
Import Works.

Lemma to_sql_values_sql_of order o t :
  SQLTable.to_sql_values order o = Ok t ->
  t = map (fun k => sql_of (getattr o k)) order.
Proof.
  unfold SQLTable.to_sql_values. intros H. apply mapM_ok in H.
  induction H as [|k c order t Hk _ IH]; cbn [map]; [reflexivity|].
  unfold sql_of at 1. rewrite Hk. now f_equal.
Qed.

Lemma str_in_cons s x l :
  str_in s (x :: l) = (String.eqb s x || str_in s l)%bool.
Proof. reflexivity. Qed.

Lemma str_in_In s l : str_in s l = true <-> In s l.
Proof.
  unfold str_in. rewrite existsb_exists. split.
  - intros (x & Hx & E). apply String.eqb_eq in E. now subst.
  - intros H. exists s. split; [exact H | apply String.eqb_refl].
Qed.

Lemma str_in_not s l : ~ In s l -> str_in s l = false.
Proof.
  intros H. destruct (str_in s l) eqn:E; [|reflexivity].
  apply str_in_In in E. contradiction.
Qed.

(** The rows of the subtables, by name. *)
Lemma project_subtables_get O names :
  NoDup names ->
  forall subs, project_subtables O names = Ok subs ->
  forall n,
    dict_get n subs
    = if str_in n names
      then match subtable_rows O n with
           | Ok (Some r) => Some r
           | _ => None
           end
      else None.
Proof.
  induction 1 as [|x names Hx _ IH]; cbn [project_subtables];
    intros subs H n.
  - injection H as <-. reflexivity.
  - apply bind_ok in H as (rows & Hr & H).
    apply bind_ok in H as (rest & Hrest & H).
    rewrite str_in_cons. specialize (IH _ Hrest).
    destruct rows as [r|]; injection H as <-.
    + cbn [dict_get]. destruct (String.eqb n x) eqn:E.
      * apply String.eqb_eq in E. subst n. now rewrite Hr.
      * cbn [orb]. apply IH.
    + destruct (String.eqb n x) eqn:E.
      * apply String.eqb_eq in E. subst n. rewrite Hr. cbn [orb].
        rewrite IH. now rewrite (str_in_not _ _ Hx).
      * cbn [orb]. apply IH.
Qed.

(** The keyword arguments [from_sql] adds, by name. *)
Lemma add_subtables_get names subs :
  NoDup names ->
  forall args args', Work.add_subtables names subs args = Ok args' ->
  forall k,
    dict_get k args'
    = if str_in k names
      then match dict_get k subs with
           | Some rows =>
               match Work.subtable_arg k rows with
               | Ok a => Some a
               | Raise _ => None
               end
           | None => dict_get k args
           end
      else dict_get k args.
Proof.
  induction 1 as [|x names Hx _ IH]; cbn [Work.add_subtables];
    intros args args' H k.
  - injection H as <-. reflexivity.
  - rewrite str_in_cons.
    destruct (dict_get x subs) as [rows|] eqn:Ex.
    + apply bind_ok in H as (a & Ha & H). rewrite (IH _ _ H k).
      destruct (String.eqb k x) eqn:E.
      * apply String.eqb_eq in E. subst k. cbn [orb].
        rewrite (str_in_not _ _ Hx), Ex, Ha. apply dict_get_set_same.
      * cbn [orb]. apply String.eqb_neq in E.
        rewrite (dict_get_set_other _ _ _ _ E). reflexivity.
    + rewrite (IH _ _ H k).
      destruct (String.eqb k x) eqn:E; [|reflexivity].
      apply String.eqb_eq in E. subst k. cbn [orb].
      now rewrite (str_in_not _ _ Hx), Ex.
Qed.

Lemma add_subtables_total names subs :
  (forall n rows, In n names -> dict_get n subs = Some rows ->
                  exists a, Work.subtable_arg n rows = Ok a) ->
  forall args, exists args', Work.add_subtables names subs args = Ok args'.
Proof.
  induction names as [|x names IH]; cbn [Work.add_subtables]; intros H args.
  - eauto.
  - assert (H' : forall n rows, In n names -> dict_get n subs = Some rows ->
                   exists a, Work.subtable_arg n rows = Ok a)
      by (intros; eapply H; [right|]; eassumption).
    destruct (dict_get x subs) as [rows|] eqn:Ex; [|now apply IH].
    destruct (H x rows (or_introl eq_refl) Ex) as (a & ->). cbn [bind].
    now apply IH.
Qed.

Lemma row_ok_plain model order o :
  row_ok model order o ->
  SQLTable.to_sql_values order o = Ok (map (getattr o) order).
Proof.
  intros H. apply to_sql_values_plain.
  eapply Forall_impl; [|exact H]. cbn beta. unfold column_ok.
  intros k Hk.
  destruct (find (fun f => String.eqb k (fname f)) (fields_of model));
    [exact (proj2 Hk) | contradiction].
Qed.

Lemma mapM_map_ok {A B} (f : A -> result B) (g : A -> B) l :
  Forall (fun x => f x = Ok (g x)) l -> mapM f l = Ok (map g l).
Proof.
  induction 1 as [|x l H _ IH]; cbn [mapM map]; [reflexivity|].
  now rewrite H, IH.
Qed.

(** The rows of a subtable and the keyword argument built from them. *)
Lemma arg_of_rows O name :
  In name Work._sql_subtables ->
  sub_ok O name ->
  exists r,
    subtable_rows O name = Ok r
    /\ match r with
       | None => arg_of O name = None
       | Some rows =>
           exists a, Work.subtable_arg name rows = Ok a
                     /\ arg_of O name = Some a
       end.
Proof.
  intros Hin H. unfold sub_ok in H. unfold subtable_rows, arg_of.
  assert (Single : forall o,
            str_in name MULTIVALUE = false ->
            entry_ok O name o ->
            exists r,
              (row <- SQLTable.to_sql_values (sql_order_of name) o ;;
               Ok (Some (VList row))) = Ok r
              /\ match r with
                 | None => False
                 | Some rows =>
                     exists a, Work.subtable_arg name rows = Ok a
                       /\ Some (reread (sql_order_of name) o) = Some a
                 end).
  { intros o Hm [Hrow _]. rewrite (row_ok_plain _ _ _ Hrow). cbn [bind].
    eexists. split; [reflexivity|].
    unfold Work.subtable_arg.
    assert (R : str_in name ["referenced_works"; "related_works"] = false).
    { destruct (str_in name ["referenced_works"; "related_works"]) eqn:E;
        [|reflexivity].
      apply str_in_In in E. cbn [In] in E.
      destruct E as [<-|[<-|[]]]; discriminate. }
    rewrite R, Hm. cbn [py_iter bind]. eexists. split; reflexivity. }
  destruct (getattr O name) as [| | | | | |l| |] eqn:E;
    [exists None; split; reflexivity|..];
    try (destruct (Single _ (proj1 H) (proj2 H)) as ([r|] & Hr & Ha);
         [|contradiction];
         exists (Some r); split; [exact Hr | exact Ha]).
  destruct H as [Hm Hl].
  assert (Rows : mapM (SQLTable.to_sql_values (sql_order_of name)) l
                 = Ok (map (fun o => map (getattr o) (sql_order_of name))
                         l)).
  { apply mapM_map_ok. eapply Forall_impl; [|exact Hl]. cbn beta.
    intros o [Hrow _]. exact (row_ok_plain _ _ _ Hrow). }
  rewrite Rows. cbn [bind]. eexists. split; [reflexivity|].
  unfold Work.subtable_arg, is_relation.
  destruct (str_in name ["referenced_works"; "related_works"]) eqn:R.
  + cbn [py_iter bind]. rewrite !map_map.
    assert (Ids : mapM (fun t => py_index t 1)
                    (map (fun o => VList (map (getattr o)
                                            (sql_order_of name))) l)
                  = Ok (map (fun o => getattr o
                                        (nth 1 (sql_order_of name) ""))
                          l)).
    { apply str_in_In in R. cbn [In] in R.
      destruct R as [<-|[<-|[]]];
        (clear; induction l as [|o l IH]; [reflexivity|];
         cbn [map mapM]; rewrite IH; reflexivity). }
    rewrite Ids. cbn [bind]. eexists. split; reflexivity.
  + rewrite Hm. cbn [py_iter bind]. rewrite !map_map.
    assert (Ds : mapM (fun t => cols <- py_iter t ;;
                                Ok (VDict (dict_zip (sql_order_of name)
                                             cols)))
                   (map (fun o => VList (map (getattr o)
                                           (sql_order_of name))) l)
                 = Ok (map (reread (sql_order_of name)) l)).
    { clear. induction l as [|o l IH]; [reflexivity|].
      cbn [map mapM py_iter bind]. rewrite IH. reflexivity. }
    rewrite Ds. cbn [bind]. eexists. split; reflexivity.
Qed.

End Rows.

(** ** The before-validators on the keyword arguments of [from_sql] *)

Section Args.
Import Works.

Lemma dict_get_fold_zip {A} (f : string -> A) k l :
  forall acc,
    dict_get k
      (fold_left (fun d kv => dict_set (fst kv) (snd kv) d)
         (combine l (map f l)) acc)
    = if str_in k l then Some (f k) else dict_get k acc.
Proof.
  induction l as [|x l IH]; intros acc; [reflexivity|].
  cbn [map combine fold_left fst snd]. rewrite IH, str_in_cons.
  destruct (String.eqb k x) eqn:E; cbn [orb].
  - apply String.eqb_eq in E. subst x.
    destruct (str_in k l); [reflexivity | apply dict_get_set_same].
  - apply String.eqb_neq in E.
    destruct (str_in k l); [reflexivity | now apply dict_get_set_other].
Qed.

Lemma dict_get_zip_map {A} (f : string -> A) k l :
  dict_get k (dict_zip l (map f l))
  = if str_in k l then Some (f k) else None.
Proof. unfold dict_zip. now rewrite dict_get_fold_zip. Qed.

Lemma into_fixed name key r idv :
  dict_get "id" r = Some idv ->
  keyed_entry key idv (dict_get name r) ->
  Replicate.into name key (VDict r) = Ok (VDict r).
Proof.
  intros Hi H. rewrite into_dict. unfold keyed_entry in H.
  destruct (dict_get name r) as [v|] eqn:E; [|reflexivity].
  destruct v; try reflexivity; destruct H as (dx & [= <-] & Hk);
    try discriminate.
  cbn [py_getitem]. rewrite Hi. cbn [bind py_setitem].
  rewrite (dict_set_id _ _ _ Hk), (dict_set_id _ _ _ E). reflexivity.
Qed.

Lemma into_each_fixed name key r idv :
  dict_get "id" r = Some idv ->
  keyed_entries key idv (dict_get name r) ->
  Replicate.into_each name key (VDict r) = Ok (VDict r).
Proof.
  intros Hi H. rewrite into_each_dict. cbv zeta. unfold keyed_entries in H.
  destruct (dict_get name r) as [v|] eqn:E; [|reflexivity].
  destruct v; try reflexivity; try contradiction.
  rewrite mapM_fixed.
  - cbn [bind]. now rewrite (dict_set_id _ _ _ E).
  - eapply Forall_impl; [|exact H]. cbn beta.
    intros x (dx & -> & Hk). cbn [py_getitem]. rewrite Hi.
    cbn [bind py_setitem]. now rewrite (dict_set_id _ _ _ Hk).
Qed.

Lemma subtables_not_columns k :
  str_in k Work._sql_subtables = true -> str_in k Work._sql_order = false.
Proof.
  intros H. apply str_in_In in H. cbn [In Work._sql_subtables] in H.
  repeat (destruct H as [<-|H]; [reflexivity|]). contradiction.
Qed.

(** The keyword arguments of [from_sql] on the rows of a work. *)
Lemma args_get O t subs :
  ready O ->
  project O = Ok (t, subs) ->
  exists args,
    Work.add_subtables Work._sql_subtables subs
      (dict_zip Work._sql_order t) = Ok args
    /\ forall k, dict_get k args = args_of O k.
Proof.
  intros (_ & _ & Hsub & _) H. unfold project in H.
  apply bind_ok in H as (t' & Ht & H).
  apply bind_ok in H as (subs' & Hs & [= -> ->]).
  apply to_sql_values_sql_of in Ht. subst t.
  assert (ND : NoDup Work._sql_subtables).
  { unfold Work._sql_subtables.
    repeat (constructor; [cbn [In]; intuition discriminate|]).
    constructor. }
  pose proof (project_subtables_get O _ ND _ Hs) as G.
  assert (A : forall n, In n Work._sql_subtables ->
            match dict_get n subs with
            | Some rows =>
                exists a, Work.subtable_arg n rows = Ok a
                          /\ arg_of O n = Some a
            | None => arg_of O n = None
            end).
  { intros n Hn. rewrite G. rewrite (proj2 (str_in_In _ _) Hn).
    destruct (arg_of_rows O n Hn
                (proj1 (Forall_forall _ _) Hsub n Hn)) as (r & -> & Hr).
    destruct r; exact Hr. }
  destruct (add_subtables_total Work._sql_subtables subs) with
    (args := dict_zip Work._sql_order
               (map (fun k => sql_of (getattr O k)) Work._sql_order))
    as (args & Hargs).
  { intros n rows Hn E. specialize (A n Hn). rewrite E in A.
    destruct A as (a & Ha & _). eauto. }
  exists args. split; [exact Hargs|].
  intros k. rewrite (add_subtables_get _ _ ND _ _ Hargs k).
  rewrite dict_get_zip_map. unfold args_of.
  destruct (str_in k Work._sql_subtables) eqn:E.
  - rewrite (subtables_not_columns _ E).
    specialize (A k (proj1 (str_in_In _ _) E)).
    destruct (dict_get k subs) as [rows|].
    + destruct A as (a & -> & ->). reflexivity.
    + now rewrite A.
  - reflexivity.
Qed.

Lemma reread_keyed O name o :
  str_in "work_id" (sql_order_of name) = true ->
  entry_ok O name o ->
  keyed "work_id" (getattr O "id") (reread (sql_order_of name) o).
Proof.
  intros Hw [_ Hk]. unfold reread. eexists. split; [reflexivity|].
  rewrite dict_get_zip_map, Hw. now f_equal.
Qed.

Lemma arg_keyed_entry O name :
  sub_ok O name ->
  str_in name MULTIVALUE = false ->
  str_in "work_id" (sql_order_of name) = true ->
  keyed_entry "work_id" (getattr O "id") (arg_of O name).
Proof.
  unfold sub_ok, arg_of. intros H Hm Hw.
  destruct (getattr O name); try exact I;
    try (destruct H as [_ H]; exact (reread_keyed _ _ _ Hw H)).
  destruct H as [H _]. congruence.
Qed.

Lemma arg_keyed_entries O name :
  sub_ok O name ->
  str_in name MULTIVALUE = true ->
  is_relation name = false ->
  str_in "work_id" (sql_order_of name) = true ->
  keyed_entries "work_id" (getattr O "id") (arg_of O name).
Proof.
  unfold sub_ok, arg_of. intros H Hm Hr Hw. rewrite Hr.
  destruct (getattr O name); try exact I;
    try (destruct H as [H _]; congruence).
  destruct H as [_ H]. cbn [keyed_entries]. apply Forall_map.
  eapply Forall_impl; [|exact H]. cbn beta.
  intros o Ho. exact (reread_keyed _ _ _ Hw Ho).
Qed.

Lemma arg_relation O name :
  sub_ok O name ->
  str_in name MULTIVALUE = true ->
  arg_of O name = None \/ exists l, arg_of O name = Some (VList l).
Proof.
  unfold sub_ok, arg_of. intros H Hm.
  destruct (getattr O name); try (now left);
    try (destruct H as [H _]; congruence).
  right. eauto.
Qed.

Lemma wrap_ids_spec name r idv :
  dict_get "id" r = Some idv ->
  (dict_get name r = None \/ exists l, dict_get name r = Some (VList l)) ->
  exists r',
    Work.wrap_ids name (VDict r) = Ok (VDict r')
    /\ forall k,
         dict_get k r'
         = if String.eqb k name
           then match dict_get name r with
                | Some (VList l) =>
                    Some (VList (map (_construct_dict_from_id idv) l))
                | x => x
                end
           else dict_get k r.
Proof.
  intros Hi [E|(l & E)].
  - exists r. rewrite wrap_ids_dict, E. split; [reflexivity|].
    intros k. destruct (String.eqb k name) eqn:Ek; [|reflexivity].
    apply String.eqb_eq in Ek. now subst k.
  - eexists. rewrite (wrap_ids_list _ _ _ _ E Hi). split; [reflexivity|].
    intros k. rewrite E. destruct (String.eqb k name) eqn:Ek.
    + apply String.eqb_eq in Ek. subst k. apply dict_get_set_same.
    + apply String.eqb_neq in Ek. now apply dict_get_set_other.
Qed.

Lemma flatten_reread order o :
  str_in "institutions" order = false ->
  Work.flatten_authorship (reread order o) = Ok [reread order o].
Proof.
  intros H. unfold Work.flatten_authorship, reread. rewrite check_dict.
  rewrite dict_get_zip_map, H. reflexivity.
Qed.

Lemma flatten_args O args :
  sub_ok O "authorships" ->
  dict_get "authorships" args = arg_of O "authorships" ->
  Work._flatten_authorships (VDict args) = Ok (VDict args).
Proof.
  intros H E. rewrite flatten_dict.
  destruct (dict_get "authorships" args) as [v|] eqn:Ev; [|reflexivity].
  revert E. unfold arg_of, sub_ok in *.
  destruct (getattr O "authorships");
    try discriminate; try (destruct H as [H _]; discriminate).
  intros [= ->]. cbn [py_iter bind is_relation str_in existsb].
  change (is_relation "authorships") with false. cbv iota.
  rewrite (mapM_map_ok _ (fun x => [x])).
  - cbn [bind]. rewrite concat_singletons.
    now rewrite (dict_set_id _ _ _ Ev).
  - apply Forall_map, Forall_forall. intros o _.
    now apply flatten_reread.
Qed.

Lemma id_reads_back O :
  ready O ->
  exists s, getattr O "id" = VStr s /\ sql_of (getattr O "id") = VStr s.
Proof.
  intros (H & _). apply Forall_inv in H. cbn in H.
  destruct H as (c & Hc & Hv). unfold sql_of. rewrite Hc.
  destruct c; try discriminate. injection Hv as Hv.
  exists s. split; [now symmetry|]. reflexivity.
Qed.

Lemma wrapped_sub O name :
  In name Work._sql_subtables ->
  is_relation name = false ->
  wrapped_of O name = arg_of O name.
Proof.
  intros H R. unfold wrapped_of, args_of. rewrite R.
  rewrite (subtables_not_columns _ (proj2 (str_in_In _ _) H)).
  now rewrite (proj2 (str_in_In _ _) H).
Qed.

(** The before-validators of the work leave the keyword arguments of
    [from_sql] as they are, but for the relations, whose identifiers they
    wrap. *)
Lemma before_args O args :
  ready O ->
  (forall k, dict_get k args = args_of O k) ->
  exists r2,
    run (rev (before Work.hooks)) (VDict args) = Ok (VDict r2)
    /\ forall k, dict_get k r2 = wrapped_of O k.
Proof.
  intros R Hargs. pose proof R as (_ & _ & Hsub & _).
  destruct (id_reads_back O R) as (s & Hid & Hsql).
  assert (S : forall n, In n Work._sql_subtables -> sub_ok O n)
    by (intros n; apply (proj1 (Forall_forall _ _) Hsub)).
  assert (Aid : dict_get "id" args = Some (getattr O "id")).
  { rewrite Hargs. unfold args_of. cbn [str_in existsb String.eqb].
    change (str_in "id" Work._sql_order) with true. cbv iota.
    now rewrite Hsql, Hid. }
  cbn [rev before Work.hooks app run].
  (* the authorships are flattened already *)
  rewrite (flatten_args O args);
    [|apply S; cbn; tauto|rewrite Hargs; reflexivity].
  cbn [wrap bind].
  (* the relations are wrapped *)
  unfold Work._work_id_ref_related.
  destruct (wrap_ids_spec "related_works" args _ Aid) as (r1 & -> & G1).
  { rewrite Hargs. change (args_of O "related_works")
      with (arg_of O "related_works").
    apply arg_relation; [apply S; cbn; tauto | reflexivity]. }
  cbn [bind].
  assert (Rid : dict_get "id" r1 = Some (getattr O "id"))
    by (rewrite G1; exact Aid).
  destruct (wrap_ids_spec "referenced_works" r1 _ Rid) as (r2 & -> & G2).
  { rewrite G1.
    change (String.eqb "referenced_works" "related_works") with false.
    cbv iota. rewrite Hargs.
    change (args_of O "referenced_works")
      with (arg_of O "referenced_works").
    apply arg_relation; [apply S; cbn; tauto | reflexivity]. }
  cbn [wrap bind].
  assert (G : forall k, dict_get k r2 = wrapped_of O k).
  { intros k. rewrite G2.
    destruct (String.eqb k "referenced_works") eqn:E2.
    - apply String.eqb_eq in E2. subst k. rewrite G1.
      change (String.eqb "referenced_works" "related_works") with false.
      cbv iota. rewrite Hargs. reflexivity.
    - rewrite G1. destruct (String.eqb k "related_works") eqn:E1.
      + apply String.eqb_eq in E1. subst k. rewrite Hargs. reflexivity.
      + rewrite Hargs. unfold wrapped_of, is_relation.
        rewrite !str_in_cons, E1, E2. reflexivity. }
  assert (Gid : dict_get "id" r2 = Some (getattr O "id")).
  { rewrite G2. exact Rid. }
  assert (K1 : forall n,
            In n ["ids"; "biblio"; "open_access"; "best_oa_location";
                  "primary_location"] ->
            keyed_entry "work_id" (getattr O "id") (dict_get n r2)).
  { intros n Hn. rewrite G. cbn [In] in Hn.
    repeat (destruct Hn as [<-|Hn];
            [rewrite wrapped_sub; [|cbn; tauto|reflexivity];
             apply arg_keyed_entry;
             [apply S; cbn; tauto|reflexivity|reflexivity]|]).
    contradiction. }
  assert (K2 : forall n,
            In n ["locations"; "authorships"; "topics"; "concepts";
                  "mesh"] ->
            keyed_entries "work_id" (getattr O "id") (dict_get n r2)).
  { intros n Hn. rewrite G. cbn [In] in Hn.
    repeat (destruct Hn as [<-|Hn];
            [rewrite wrapped_sub; [|cbn; tauto|reflexivity];
             apply arg_keyed_entries;
             [apply S; cbn; tauto|reflexivity|reflexivity|reflexivity]|]).
    contradiction. }
  assert (K0 : keyed_entries "author_id" (getattr O "id")
                 (dict_get "counts_by_year" r2)).
  { rewrite G. exact I. }
  exists r2. split; [|exact G].
  unfold Work._replicate_id_3, Work._replicate_id_2, Work._replicate_id_1.
  rewrite (into_fixed "best_oa_location" _ _ _ Gid
             (K1 "best_oa_location" ltac:(cbn; tauto))). cbn [bind].
  rewrite (into_fixed "primary_location" _ _ _ Gid
             (K1 "primary_location" ltac:(cbn; tauto))). cbn [bind].
  rewrite (into_each_fixed "locations" _ _ _ Gid
             (K2 "locations" ltac:(cbn; tauto))). cbn [bind wrap].
  rewrite (into_each_fixed "topics" _ _ _ Gid
             (K2 "topics" ltac:(cbn; tauto))). cbn [bind].
  rewrite (into_each_fixed "concepts" _ _ _ Gid
             (K2 "concepts" ltac:(cbn; tauto))). cbn [bind].
  rewrite (into_each_fixed "mesh" _ _ _ Gid
             (K2 "mesh" ltac:(cbn; tauto))). cbn [bind].
  rewrite (into_fixed "open_access" _ _ _ Gid
             (K1 "open_access" ltac:(cbn; tauto))). cbn [bind wrap].
  rewrite (into_each_fixed "counts_by_year" _ _ _ Gid K0). cbn [bind].
  rewrite (into_fixed "ids" _ _ _ Gid
             (K1 "ids" ltac:(cbn; tauto))).
  cbn [bind].
  rewrite (into_each_fixed "locations" _ _ _ Gid
             (K2 "locations" ltac:(cbn; tauto))). cbn [bind].
  rewrite (into_each_fixed "authorships" _ _ _ Gid
             (K2 "authorships" ltac:(cbn; tauto))). cbn [bind].
  rewrite (into_fixed "biblio" _ _ _ Gid
             (K1 "biblio" ltac:(cbn; tauto))).
  reflexivity.
Qed.

End Args.

(** ** The fields of the work read back *)

Section Fields.
Import Works.

Lemma root_field O r2 fld :
  faliases fld = [] ->
  dict_get (fname fld) r2 = Some (sql_of (getattr O (fname fld))) ->
  reads_back fld (getattr O (fname fld)) ->
  run (validators_of Work.hooks (fname fld)) (getattr O (fname fld))
  = Ok (getattr O (fname fld)) ->
  field_value Work.hooks r2 fld
  = Ok (fname fld, getattr O (fname fld)).
Proof.
  intros Ha Hd (c & Hc & Hv) Hr. unfold field_value, lookup.
  rewrite Ha, Hd. unfold sql_of. rewrite Hc, Hv. cbn [bind].
  rewrite Hr. reflexivity.
Qed.

Lemma single_field O r2 name :
  dict_get name r2 = arg_of O name ->
  sub_ok O name ->
  str_in name MULTIVALUE = false ->
  (forall o, row_ok (model_of name) (sql_order_of name) o ->
             validate (model_of name) (reread (sql_order_of name) o)
             = Ok (restored (model_of name) (sql_order_of name) o)) ->
  run (validators_of Work.hooks name) (restored_attr O name)
  = Ok (restored_attr O name) ->
  field_value Work.hooks r2 (opt name (model_of name))
  = Ok (name, restored_attr O name).
Proof.
  intros Hd Hs Hm Hre Hrun. unfold field_value, opt.
  cbn [fname faliases frequired ftype lookup]. rewrite Hd.
  revert Hs Hrun. unfold arg_of, restored_attr, sub_ok, entry_ok.
  destruct (getattr O name); try (intros _ _; reflexivity);
    try (intros [H _]; congruence);
    intros [_ [Hrow _]] Hrun; cbn [negb andb is_none reread];
    fold (reread (sql_order_of name)); rewrite (Hre _ Hrow);
    cbn [bind]; rewrite Hrun; reflexivity.
Qed.

Lemma multi_field O r2 name :
  dict_get name r2 = arg_of O name ->
  sub_ok O name ->
  str_in name MULTIVALUE = true ->
  is_relation name = false ->
  (forall o, row_ok (model_of name) (sql_order_of name) o ->
             validate (model_of name) (reread (sql_order_of name) o)
             = Ok (restored (model_of name) (sql_order_of name) o)) ->
  validators_of Work.hooks name = [] ->
  field_value Work.hooks r2 (opt name (TList (model_of name)))
  = Ok (name, restored_attr O name).
Proof.
  intros Hd Hs Hm Hr Hre Hv. unfold field_value, opt.
  cbn [fname faliases frequired ftype lookup]. rewrite Hd, Hv.
  revert Hs. unfold arg_of, restored_attr, sub_ok, entry_ok. rewrite Hr.
  destruct (getattr O name); try (intros _; reflexivity);
    try (intros [H _]; congruence).
  intros [_ Hl]. cbn [negb andb is_none]. rewrite validate_list_eq.
  rewrite map_map.
  rewrite (proj2 (collect_ok _
                    (map (restored (model_of name) (sql_order_of name)) l))).
  - reflexivity.
  - rewrite map_map. apply map_ext_in. intros o Ho.
    apply Hre. exact (proj1 (proj1 (Forall_forall _ _) Hl o Ho)).
Qed.

Lemma relation_field O r2 name cls n :
  model_of name
  = TModel cls [opt "work_id" TStr; opt_alias n ["id"; n] TStr] no_hooks ->
  sql_order_of name = ["work_id"; n] ->
  n <> "work_id" ->
  dict_get name r2
  = match arg_of O name with
    | Some (VList l) =>
        Some (VList (map (_construct_dict_from_id (getattr O "id")) l))
    | x => x
    end ->
  sub_ok O name ->
  str_in name MULTIVALUE = true ->
  is_relation name = true ->
  validators_of Work.hooks name = [] ->
  field_value Work.hooks r2 (opt name (TList (model_of name)))
  = Ok (name, restored_attr O name).
Proof.
  intros Hmod Hord Hn Hd Hs Hm Hr Hv. unfold field_value, opt.
  cbn [fname faliases frequired ftype lookup]. rewrite Hd, Hv.
  revert Hs. unfold arg_of, restored_attr, sub_ok, entry_ok. rewrite Hr.
  destruct (getattr O name); try (intros _; reflexivity);
    try (intros [H _]; congruence).
  intros [_ Hl]. cbn [negb andb is_none]. rewrite validate_list_eq.
  rewrite !map_map.
  rewrite (proj2 (collect_ok _
                    (map (restored (model_of name) (sql_order_of name)) l))).
  - reflexivity.
  - rewrite map_map. apply map_ext_in. intros o Ho.
    destruct (proj1 (Forall_forall _ _) Hl o Ho) as [Hrow Hk].
    rewrite Hmod, Hord in *. unfold row_ok in Hrow.
    cbn [fields_of] in Hrow.
    apply Forall_cons_iff in Hrow as [C0 Hrow].
    apply Forall_cons_iff in Hrow as [C1 _].
    unfold column_ok in C0, C1. cbn [find fname opt opt_alias] in C0, C1.
    rewrite String.eqb_refl in C0.
    apply String.eqb_neq in Hn. rewrite Hn, String.eqb_refl in C1.
    cbn [nth]. rewrite <- Hk.
    rewrite (relation_reread cls n _ _ (proj1 C0) (proj1 C1)).
    unfold restored. cbn [map fname opt opt_alias str_in existsb].
    rewrite String.eqb_refl, Hn, String.eqb_refl.
    rewrite (proj2 (String.eqb_neq "work_id" n)).
    + reflexivity.
    + intros E. apply String.eqb_neq in Hn. now symmetry in E.
Qed.

Lemma ready_sub O n :
  ready O -> In n Work._sql_subtables -> sub_ok O n.
Proof.
  intros (_ & _ & H & _). apply (proj1 (Forall_forall _ _) H).
Qed.

Lemma ready_root O k :
  ready O -> In k Work._sql_order ->
  match find (fun f => String.eqb k (fname f)) Work.fields with
  | Some fld => reads_back fld (getattr O k)
  | None => False
  end.
Proof.
  intros (H & _). apply (proj1 (Forall_forall _ _) H).
Qed.

Lemma best_oa_restored O :
  ready O ->
  run (validators_of Work.hooks "best_oa_location")
    (restored_attr O "best_oa_location")
  = Ok (restored_attr O "best_oa_location").
Proof.
  intros R. pose proof (ready_sub O "best_oa_location" R
                          ltac:(cbn; tauto)) as S.
  destruct R as (_ & _ & _ & [B|B]).
  - unfold restored_attr. rewrite B. reflexivity.
  - revert S B. unfold restored_attr, sub_ok.
    destruct (getattr O "best_oa_location") eqn:E;
      try (intros [H _]; discriminate); try discriminate;
      intros _ B;
      change (validators_of Work.hooks "best_oa_location")
        with [Work._validate_best_oa_location];
      cbn [run]; unfold Work._validate_best_oa_location;
      change (is_none (restored (model_of "best_oa_location")
                         (sql_order_of "best_oa_location") _))
        with false; cbv iota;
      match goal with
      | |- context [getattr (restored _ _ ?o) "is_oa"] =>
          change (getattr (restored (model_of "best_oa_location")
                             (sql_order_of "best_oa_location") o) "is_oa")
            with (getattr o "is_oa")
      end; rewrite B; reflexivity.
Qed.

Ltac work_field O r2 R G :=
  match goal with
  | |- field_value _ _ (opt ?n _) = _ =>
      first
        [ (* a subtable with one object *)
          refine (single_field O r2 n (G n) (ready_sub O n R _) eq_refl
                    _ _);
          [ cbn; tauto
          | first [ exact (location_reread _) | exact biblio_reread
                  | exact ids_reread | exact open_access_reread ]
          | first [ reflexivity | exact (best_oa_restored O R) ] ]
        | (* a subtable with a list of objects *)
          refine (multi_field O r2 n (G n) (ready_sub O n R _) eq_refl
                    eq_refl _ eq_refl);
          [ cbn; tauto
          | first [ exact (location_reread _) | exact authorship_reread
                  | exact topic_reread | exact concept_reread
                  | exact mesh_reread ] ]
        | (* a relation *)
          refine (relation_field O r2 n _ _ eq_refl eq_refl _ (G n)
                    (ready_sub O n R _) eq_refl eq_refl eq_refl);
          [ discriminate | cbn; tauto ]
        | (* a field no table holds *)
          apply field_value_absent;
          [ cbn [lookup fname faliases opt]; rewrite G; reflexivity
          | reflexivity ] ]
  end.

(** The fields of the work built from the keyword arguments of
    [from_sql]. *)
Lemma fields_restored O r2 :
  ready O ->
  (forall k, dict_get k r2 = wrapped_of O k) ->
  collect (map (field_value Work.hooks r2) Work.fields)
  = Ok (map (fun fld =>
               (fname fld,
                if str_in (fname fld) Work._sql_order
                then getattr O (fname fld)
                else if str_in (fname fld) Work._sql_subtables
                     then restored_attr O (fname fld)
                     else VNone))
          Work.fields).
Proof.
  intros R G.
  apply (collect_fields Work.hooks r2 Work.fields
           (fun k => if str_in k Work._sql_order then getattr O k
                     else if str_in k Work._sql_subtables
                          then restored_attr O k else VNone)).
  assert (Root : forall fld,
            In (fname fld) Work._sql_order ->
            find (fun f => String.eqb (fname fld) (fname f)) Work.fields
            = Some fld ->
            faliases fld = [] ->
            run (validators_of Work.hooks (fname fld))
              (getattr O (fname fld)) = Ok (getattr O (fname fld)) ->
            field_value Work.hooks r2 fld
            = Ok (fname fld, getattr O (fname fld))).
  { intros fld Hin Hf Ha Hrun. apply root_field; [exact Ha| |  |exact Hrun].
    - rewrite G. unfold wrapped_of, args_of, is_relation.
      rewrite (proj2 (str_in_In _ _) Hin).
      destruct (str_in (fname fld) ["referenced_works"; "related_works"])
        eqn:E; [|reflexivity].
      apply str_in_In in E. cbn [In] in E.
      pose proof (proj2 (str_in_In _ _) Hin) as Hin'.
      destruct E as [E|[E|[]]]; rewrite <- E in Hin';
        vm_compute in Hin'; discriminate.
    - pose proof (ready_root O _ R Hin) as Hk. now rewrite Hf in Hk. }
  assert (Abs : getattr O "abstract_inverted_index" = VNone)
    by apply R.
  unfold Work.fields, OpenAlexObject.fields. cbn [app].
  repeat (apply Forall_cons;
          [ cbv beta;
            match goal with
            | |- field_value _ _ ?fld = _ =>
                first
                  [ refine (Root fld _ eq_refl eq_refl eq_refl);
                    cbn; tauto
                  | refine (Root fld _ eq_refl eq_refl _);
                    [cbn; tauto
                    |cbn [fname opt]; rewrite Abs; reflexivity]
                  | work_field O r2 R G ]
            end |]).
  apply Forall_nil.
Qed.

(** [from_sql] on the rows of a work yields the columns of the work. *)
Lemma from_sql_restored O t subs :
  ready O ->
  project O = Ok (t, subs) ->
  Work.from_sql t (Some subs) = Ok (restored_work O).
Proof.
  intros R P. destruct (args_get O t subs R P) as (args & Ha & Hk).
  unfold Work.from_sql. rewrite Ha. cbn [bind].
  unfold Work.new, Work.model. rewrite validate_model_eq.
  destruct (before_args O args R Hk) as (r2 & -> & G). cbn [bind].
  rewrite (fields_restored O r2 R G). reflexivity.
Qed.

Lemma dict_get_map_fields (F : string -> value) k fields :
  dict_get k (map (fun fld : field_of ty => (fname fld, F (fname fld)))
                fields)
  = match find (fun f => String.eqb k (fname f)) fields with
    | Some _ => Some (F k)
    | None => None
    end.
Proof.
  induction fields as [|f fields IH]; cbn [map dict_get find];
    [reflexivity|].
  destruct (String.eqb k (fname f)) eqn:E; [|exact IH].
  apply String.eqb_eq in E. now subst k.
Qed.

Lemma to_sql_values_restored model order o :
  row_ok model order o ->
  SQLTable.to_sql_values order (restored model order o)
  = SQLTable.to_sql_values order o.
Proof.
  intros H. unfold SQLTable.to_sql_values. apply mapM_ext.
  intros k Hk. f_equal.
  pose proof (proj1 (Forall_forall _ _) H k Hk) as C.
  unfold column_ok in C.
  destruct model; cbn [fields_of find] in C; try contradiction.
  unfold restored. cbn [getattr].
  rewrite (dict_get_map_fields
             (fun n => if str_in n order then getattr o n else VNone)).
  destruct (find (fun f => String.eqb k (fname f)) fields);
    [|contradiction].
  now rewrite (proj2 (str_in_In _ _) Hk).
Qed.

Lemma restored_work_attr O n :
  In n Work._sql_subtables ->
  getattr (restored_work O) n = restored_attr O n.
Proof.
  intros H. cbn [In Work._sql_subtables] in H.
  repeat (destruct H as [<-|H]; [reflexivity|]). contradiction.
Qed.

Lemma subtable_rows_restored O n :
  In n Work._sql_subtables ->
  sub_ok O n ->
  subtable_rows (restored_work O) n = subtable_rows O n.
Proof.
  intros Hn H. unfold subtable_rows. rewrite (restored_work_attr O n Hn).
  assert (M : exists cls fields h, model_of n = TModel cls fields h).
  { cbn [In Work._sql_subtables] in Hn.
    repeat (destruct Hn as [<-|Hn]; [do 3 eexists; reflexivity|]).
    contradiction. }
  destruct M as (cls & fields & h & M).
  revert H. unfold sub_ok, restored_attr, entry_ok.
  destruct (getattr O n); try reflexivity;
    try (intros [_ [Hrow _]];
         rewrite <- (to_sql_values_restored _ _ _ Hrow);
         rewrite M; reflexivity).
  intros [_ Hl].
  assert (E : mapM (SQLTable.to_sql_values (sql_order_of n))
                (map (restored (model_of n) (sql_order_of n)) l)
              = mapM (SQLTable.to_sql_values (sql_order_of n)) l).
  { clear - Hl. induction Hl as [|o l [Ho _] _ IH]; [reflexivity|].
    cbn [map mapM]. now rewrite (to_sql_values_restored _ _ _ Ho), IH. }
  now rewrite E.
Qed.

Lemma project_subtables_ext O O' names :
  (forall n, In n names -> subtable_rows O' n = subtable_rows O n) ->
  project_subtables O' names = project_subtables O names.
Proof.
  induction names as [|x names IH]; intros H; [reflexivity|].
  cbn [project_subtables]. rewrite (H x (or_introl eq_refl)).
  rewrite IH; [reflexivity|]. intros n Hn. apply H. now right.
Qed.

(** The columns of a work have the rows of the work. *)
Lemma project_restored O :
  ready O -> project (restored_work O) = project O.
Proof.
  intros R. unfold project.
  rewrite (project_subtables_ext O (restored_work O)).
  - reflexivity.
  - intros n Hn. apply subtable_rows_restored; [exact Hn|].
    exact (ready_sub O n R Hn).
Qed.

End Fields.

(** ** What the before-validators leave in the record *)

Section Ensures.
Import Works.

Lemma ensures_into name key :
  ensures (keyed_entry key) name (Replicate.into name key).
Proof.
  intros r r' idv H Hi. rewrite into_dict in H. unfold keyed_entry.
  destruct (dict_get name r) as [sub|] eqn:E.
  - cbn [py_getitem] in H. rewrite Hi in H. cbn [bind] in H.
    destruct sub; try (injection H as <-; rewrite E; exact I);
      try discriminate.
    cbn [py_setitem bind] in H. injection H as <-.
    rewrite dict_get_set_same. eexists. split; [reflexivity|].
    apply dict_get_set_same.
  - injection H as <-. now rewrite E.
Qed.

Lemma ensures_into_each name key :
  ensures (keyed_list key) name (Replicate.into_each name key).
Proof.
  intros r r' idv H Hi. rewrite into_each_dict in H. cbv zeta in H.
  unfold keyed_list.
  destruct (dict_get name r) as [sub|] eqn:E.
  - destruct sub; try (injection H as <-; rewrite E; exact I);
      try (apply bind_ok in H as (? & _ & H);
           first [ apply bind_ok in H as (? & _ & [= <-])
                 | injection H as <- ];
           rewrite E; exact I).
    apply bind_ok in H as (l' & Hm & [= <-]).
    rewrite dict_get_set_same. apply mapM_ok in Hm.
    clear E. induction Hm as [|x y l l' Hxy _ IH]; constructor; [|exact IH].
    cbn [py_getitem] in Hxy. rewrite Hi in Hxy. cbn [bind] in Hxy.
    destruct x; try discriminate. injection Hxy as <-.
    eexists. split; [reflexivity | apply dict_get_set_same].
  - injection H as <-. now rewrite E.
Qed.

Lemma ensures_wrap_ids name :
  ensures wrapped_list name (Work.wrap_ids name).
Proof.
  intros r r' idv H Hi. rewrite wrap_ids_dict in H. unfold wrapped_list.
  destruct (dict_get name r) as [sub|] eqn:E.
  - destruct sub; try (injection H as <-; rewrite E; exact I);
      try discriminate.
    + destruct (String.eqb s ""); [injection H as <-; rewrite E; exact I|].
      destruct (py_getitem (VDict r) "id"); discriminate.
    + apply bind_ok in H as (l' & Hm & [= <-]).
      rewrite dict_get_set_same. exists l. apply mapM_ok in Hm.
      clear E. induction Hm as [|x y l l' Hxy _ IH]; [reflexivity|].
      cbn [py_getitem] in Hxy. rewrite Hi in Hxy. cbn [bind] in Hxy.
      injection Hxy as <-. cbn [map]. now f_equal.
    + destruct d; [injection H as <-; rewrite E; exact I|].
      destruct (py_getitem (VDict r) "id"); discriminate.
  - injection H as <-. now rewrite E.
Qed.

Lemma ensures_bind_l P name (V1 V2 : validator) :
  frames "id" V1 -> ensures P name V1 -> frames name V2 ->
  ensures P name (fun s => x <- V1 s ;; V2 x).
Proof.
  intros F1 E1 F2 r r' idv H Hi. apply bind_ok in H as (x & Hx & H).
  destruct (F1 _ _ Hx) as (r1 & -> & _).
  destruct (F2 _ _ H) as (r2 & [= <-] & ->).
  exact (E1 _ _ _ Hx Hi).
Qed.

Lemma ensures_bind_r P name (V1 V2 : validator) :
  frames "id" V1 -> ensures P name V2 ->
  ensures P name (fun s => x <- V1 s ;; V2 x).
Proof.
  intros F1 E2 r r' idv H Hi. apply bind_ok in H as (x & Hx & H).
  destruct (F1 _ _ Hx) as (r1 & -> & Ei).
  apply (E2 _ _ _ H). now rewrite Ei.
Qed.

Ltac frames_now :=
  repeat first
    [ apply frames_ret
    | apply frames_into; discriminate
    | apply frames_into_each; discriminate
    | apply frames_wrap_ids; discriminate
    | apply frames_bind ].

Ltac ensures_tac :=
  first
    [ apply ensures_bind_l;
      [ frames_now
      | first [ apply ensures_into | apply ensures_into_each
              | apply ensures_wrap_ids ]
      | frames_now ]
    | apply ensures_bind_r; [frames_now | ensures_tac] ].

Lemma replicate_1_single name :
  In name ["ids"; "biblio"] ->
  ensures (keyed_entry "work_id") name Work._replicate_id_1.
Proof.
  intros H. cbn [In] in H. unfold Work._replicate_id_1.
  destruct H as [<-|[<-|[]]]; ensures_tac.
Qed.

Lemma replicate_1_multi name :
  In name ["locations"; "authorships"] ->
  ensures (keyed_list "work_id") name Work._replicate_id_1.
Proof.
  intros H. cbn [In] in H. unfold Work._replicate_id_1.
  destruct H as [<-|[<-|[]]]; ensures_tac.
Qed.

Lemma replicate_2_single :
  ensures (keyed_entry "work_id") "open_access" Work._replicate_id_2.
Proof. unfold Work._replicate_id_2. ensures_tac. Qed.

Lemma replicate_2_multi name :
  In name ["topics"; "concepts"; "mesh"] ->
  ensures (keyed_list "work_id") name Work._replicate_id_2.
Proof.
  intros H. cbn [In] in H. unfold Work._replicate_id_2.
  destruct H as [<-|[<-|[<-|[]]]]; ensures_tac.
Qed.

Lemma replicate_3_single name :
  In name ["best_oa_location"; "primary_location"] ->
  ensures (keyed_entry "work_id") name Work._replicate_id_3.
Proof.
  intros H. cbn [In] in H. unfold Work._replicate_id_3.
  destruct H as [<-|[<-|[]]]; ensures_tac.
Qed.

Lemma ref_related_wrapped name :
  In name ["related_works"; "referenced_works"] ->
  ensures wrapped_list name Work._work_id_ref_related.
Proof.
  intros H. cbn [In] in H. unfold Work._work_id_ref_related.
  destruct H as [<-|[<-|[]]]; ensures_tac.
Qed.

(** The entries of the subtables once the before-validators of the work
    have run. *)
Lemma before_keyed raw d idv :
  run (rev (before Work.hooks)) (VDict raw) = Ok (VDict d) ->
  dict_get "id" d = Some idv ->
  (forall n, In n ["ids"; "biblio"; "open_access"; "best_oa_location";
                   "primary_location"] ->
             keyed_entry "work_id" idv (dict_get n d))
  /\ (forall n, In n ["locations"; "authorships"; "topics"; "concepts";
                      "mesh"] ->
                keyed_list "work_id" idv (dict_get n d))
  /\ (forall n, In n ["related_works"; "referenced_works"] ->
                wrapped_list idv (dict_get n d)).
Proof.
  intros H Hi.
  apply work_before_steps in H
    as (r1 & r2 & r3 & r4 & d' & H1 & H2 & H3 & H4 & H5 & [= <-]).
  destruct (replicate_1_frames "id" ltac:(cbn; intuition discriminate)
              _ _ H5) as (? & [= <-] & I5).
  destruct (replicate_2_frames "id" ltac:(cbn; intuition discriminate)
              _ _ H4) as (? & [= <-] & I4).
  destruct (replicate_3_frames "id" ltac:(cbn; intuition discriminate)
              _ _ H3) as (? & [= <-] & I3).
  destruct (ref_related_frames "id" ltac:(cbn; intuition discriminate)
              _ _ H2) as (? & [= <-] & I2).
  assert (J4 : dict_get "id" r4 = Some idv) by congruence.
  assert (J3 : dict_get "id" r3 = Some idv) by congruence.
  assert (J2 : dict_get "id" r2 = Some idv) by congruence.
  assert (J1 : dict_get "id" r1 = Some idv) by congruence.
  assert (F1 : forall n,
            ~ In n ["counts_by_year"; "ids"; "locations"; "authorships";
                    "biblio"] ->
            dict_get n d = dict_get n r4).
  { intros n Hn.
    now destruct (replicate_1_frames n Hn _ _ H5) as (? & [= <-] & ->). }
  assert (F2 : forall n,
            ~ In n ["topics"; "concepts"; "mesh"; "open_access"] ->
            dict_get n r4 = dict_get n r3).
  { intros n Hn.
    now destruct (replicate_2_frames n Hn _ _ H4) as (? & [= <-] & ->). }
  assert (F3 : forall n,
            ~ In n ["best_oa_location"; "primary_location"; "locations"] ->
            dict_get n r3 = dict_get n r2).
  { intros n Hn.
    now destruct (replicate_3_frames n Hn _ _ H3) as (? & [= <-] & ->). }
  split; [|split]; intros n Hn; cbn [In] in Hn.
  - destruct Hn as [<-|[<-|[<-|[<-|[<-|[]]]]]].
    + exact (replicate_1_single "ids" ltac:(cbn; tauto) _ _ _ H5 J4).
    + exact (replicate_1_single "biblio" ltac:(cbn; tauto) _ _ _ H5 J4).
    + rewrite F1 by (cbn; intuition discriminate).
      exact (replicate_2_single _ _ _ H4 J3).
    + rewrite F1, F2 by (cbn; intuition discriminate).
      exact (replicate_3_single "best_oa_location" ltac:(cbn; tauto)
               _ _ _ H3 J2).
    + rewrite F1, F2 by (cbn; intuition discriminate).
      exact (replicate_3_single "primary_location" ltac:(cbn; tauto)
               _ _ _ H3 J2).
  - destruct Hn as [<-|[<-|[<-|[<-|[<-|[]]]]]].
    + exact (replicate_1_multi "locations" ltac:(cbn; tauto) _ _ _ H5 J4).
    + exact (replicate_1_multi "authorships" ltac:(cbn; tauto)
               _ _ _ H5 J4).
    + rewrite F1 by (cbn; intuition discriminate).
      exact (replicate_2_multi "topics" ltac:(cbn; tauto) _ _ _ H4 J3).
    + rewrite F1 by (cbn; intuition discriminate).
      exact (replicate_2_multi "concepts" ltac:(cbn; tauto) _ _ _ H4 J3).
    + rewrite F1 by (cbn; intuition discriminate).
      exact (replicate_2_multi "mesh" ltac:(cbn; tauto) _ _ _ H4 J3).
  - destruct Hn as [<-|[<-|[]]].
    + rewrite F1, F2, F3 by (cbn; intuition discriminate).
      exact (ref_related_wrapped "related_works" ltac:(cbn; tauto)
               _ _ _ H2 J1).
    + rewrite F1, F2, F3 by (cbn; intuition discriminate).
      exact (ref_related_wrapped "referenced_works" ltac:(cbn; tauto)
               _ _ _ H2 J1).
Qed.

End Ensures.

(** ** The columns of a validated object read back *)

Section Derived.
Import Works.

Lemma plain_text_plain v : plain_text v = true -> plain v = true.
Proof. destruct v; try discriminate; intros H; [reflexivity | exact H]. Qed.

Lemma column_derived h d fld k v :
  field_value h d fld = Ok (k, v) ->
  validators_of h (fname fld) = [] ->
  scalar_ty (ftype fld) = true ->
  (text_ty (ftype fld) = true -> plain_text v = true) ->
  stable fld v /\ plain v = true.
Proof.
  intros Hf Hv Hs Ht. pose proof (field_stable _ _ _ _ _ Hf Hv Hs) as St.
  split; [exact St|].
  destruct (text_ty (ftype fld)) eqn:T;
    [exact (plain_text_plain _ (Ht eq_refl))|].
  unfold stable in St. clear - St Hs T.
  destruct (ftype fld); try discriminate;
    destruct v; try reflexivity;
    destruct (frequired fld); cbn in St; discriminate.
Qed.

Lemma find_name (k : string) (fields : list (field_of ty)) fld :
  find (fun f => String.eqb k (fname f)) fields = Some fld ->
  fname fld = k.
Proof.
  intros H. apply find_some in H as [_ H].
  apply String.eqb_eq in H. now symmetry.
Qed.

(** The columns of an instance built from validated fields. *)
Lemma row_derived cls fields h order d fs y :
  collect (map (field_value h d) fields) = Ok fs ->
  forallb (scalar_column h fields) order = true ->
  (forall k, In k order ->
     getattr y k = getattr (VObj cls fs) k
     \/ find (fun f => String.eqb k (fname f)) fields
        = Some (opt k TStr)) ->
  texts_plain (TModel cls fields h) order y = true ->
  row_ok (TModel cls fields h) order y.
Proof.
  intros Hc Hs Hy Ht. unfold row_ok. cbn [fields_of].
  apply Forall_forall. intros k Hk.
  pose proof (proj1 (forallb_forall _ _) Hs k Hk) as Sk.
  pose proof (proj1 (forallb_forall _ _) Ht k Hk) as Tk. cbv beta in Tk.
  unfold scalar_column in Sk. unfold text_column in Tk.
  cbn [fields_of] in Tk. unfold column_ok.
  destruct (find (fun f => String.eqb k (fname f)) fields) as [fld|] eqn:F;
    [|discriminate].
  apply andb_true_iff in Sk as [Sc Sv].
  destruct (validators_of h (fname fld)) eqn:V; [|discriminate].
  destruct (Hy k Hk) as [E|E].
  - destruct (fields_get _ _ _ _ k _ Hc F) as (z & Hz & Hg).
    cbn [getattr] in E. rewrite Hg in E. rewrite E.
    apply (column_derived h d fld k z Hz V Sc).
    intros T. rewrite T, E in Tk. exact Tk.
  - rewrite F in E. injection E as ->. cbn [ftype opt text_ty] in Tk.
    split; [|exact (plain_text_plain _ Tk)].
    unfold stable. cbn [frequired ftype opt negb andb].
    destruct (getattr y k); try discriminate; reflexivity.
Qed.

Lemma work_id_attr h dx fields fs fld s :
  collect (map (field_value h dx) fields) = Ok fs ->
  find (fun f => String.eqb "work_id" (fname f)) fields = Some fld ->
  faliases fld = [] ->
  ftype fld = TStr ->
  validators_of h "work_id" = [] ->
  dict_get "work_id" dx = Some (VStr s) ->
  dict_get "work_id" fs = Some (VStr s).
Proof.
  intros Hc Hf Ha Ht Hv Hd.
  destruct (fields_get _ _ _ _ _ _ Hc Hf) as (z & Hz & ->).
  pose proof (find_name _ _ _ Hf) as Hn.
  unfold field_value, lookup in Hz. rewrite Ha, Hn, Hd, Ht, Hv in Hz.
  cbn [is_none andb validate bind run] in Hz.
  rewrite andb_false_r in Hz. cbn [bind] in Hz. congruence.
Qed.

(** An instance of a class without hooks. *)
Lemma plain_entry cls fields order fld dx y s :
  forallb (scalar_column no_hooks fields) order = true ->
  find (fun f => String.eqb "work_id" (fname f)) fields = Some fld ->
  faliases fld = [] ->
  ftype fld = TStr ->
  validate (TModel cls fields no_hooks) (VDict dx) = Ok y ->
  dict_get "work_id" dx = Some (VStr s) ->
  (exists c fs, y = VObj c fs)
  /\ getattr y "work_id" = VStr s
  /\ (texts_plain (TModel cls fields no_hooks) order y = true ->
      row_ok (TModel cls fields no_hooks) order y).
Proof.
  intros Hs Hf Ha Hty H Hd.
  apply validate_model_dict in H as (fs & Hc & Hr); [|reflexivity].
  cbn [after no_hooks run] in Hr. injection Hr as <-.
  split; [eauto|split].
  - cbn [getattr].
    now rewrite (work_id_attr _ _ _ _ _ s Hc Hf Ha Hty eq_refl Hd).
  - intros Ht.
    apply (row_derived cls fields no_hooks order dx fs _ Hc Hs);
      [intros; now left | exact Ht].
Qed.

(** A topic, whose work_id reads the id of the topic first. *)
Lemma topic_entry dx y :
  validate WorkTopic.model (VDict dx) = Ok y ->
  (exists c fs, y = VObj c fs)
  /\ (texts_plain WorkTopic.model WorkTopic._sql_order y = true ->
      row_ok WorkTopic.model WorkTopic._sql_order y).
Proof.
  intros H.
  apply validate_model_dict in H as (fs & Hc & Hr); [|reflexivity].
  cbn [after no_hooks run] in Hr. injection Hr as <-.
  split; [eauto|]. intros Ht.
  apply (row_derived _ _ no_hooks _ dx fs _ Hc);
    [reflexivity | intros; now left | exact Ht].
Qed.

(** A location. *)
Lemma location_entry cls dx y s :
  validate (TModel cls BaseWorkLocation.fields BaseWorkLocation.hooks)
    (VDict dx) = Ok y ->
  dict_get "work_id" dx = Some (VStr s) ->
  (exists c fs, y = VObj c fs)
  /\ getattr y "work_id" = VStr s
  /\ (texts_plain
        (TModel cls BaseWorkLocation.fields BaseWorkLocation.hooks)
        BaseWorkLocation._sql_order y = true ->
      row_ok (TModel cls BaseWorkLocation.fields BaseWorkLocation.hooks)
        BaseWorkLocation._sql_order y).
Proof.
  intros H Hd.
  apply validate_model_dict in H as (fs & Hc & Hr); [|reflexivity].
  cbn [after BaseWorkLocation.hooks run] in Hr.
  apply bind_ok in Hr as (w & Hw & [= <-]). apply wrap_ok in Hw.
  assert (A : forall n, n <> "source_id" ->
            getattr w n = getattr (VObj cls fs) n)
    by (intros n Hn; exact (populate_source_id_attr _ _ n Hw Hn)).
  split; [|split].
  - revert Hw. unfold BaseWorkLocation._populate_source_id.
    destruct (getattr (VObj cls fs) "source"); intros [= <-];
      cbn [setattr]; eauto.
  - rewrite A by discriminate. cbn [getattr].
    now rewrite (work_id_attr _ _ _ _ _ s Hc eq_refl eq_refl eq_refl
                   eq_refl Hd).
  - intros Ht.
    apply (row_derived cls _ _ _ dx fs _ Hc); [reflexivity| |exact Ht].
    intros k Hk. destruct (String.eqb k "source_id") eqn:E.
    + apply String.eqb_eq in E. subst k. right. reflexivity.
    + apply String.eqb_neq in E. left. now apply A.
Qed.

(** An authorship. *)
Lemma authorship_entry dx y s :
  validate WorkAuthorship.model (VDict dx) = Ok y ->
  dict_get "work_id" dx = Some (VStr s) ->
  (exists c fs, y = VObj c fs)
  /\ getattr y "work_id" = VStr s
  /\ (texts_plain WorkAuthorship.model WorkAuthorship._sql_order y = true ->
      row_ok WorkAuthorship.model WorkAuthorship._sql_order y).
Proof.
  intros H Hd.
  apply authorship_inv in H as (dd' & fs & Hb & Hc & ->).
  assert (Hd' : dict_get "work_id" dd' = Some (VStr s)).
  { revert Hb. rewrite authorship_replicate_dict.
    destruct (dict_get "author" dx) as [a|]; [|now intros [= <-]].
    destruct a; try (now intros [= <-]);
      intros Hb; apply bind_ok in Hb as (i & _ & [= <-]);
      now rewrite dict_get_set_other by discriminate. }
  split; [eauto|split].
  - cbn [getattr].
    now rewrite (work_id_attr _ _ _ _ _ s Hc eq_refl eq_refl eq_refl
                   eq_refl Hd').
  - intros Ht.
    apply (row_derived _ _ _ _ dd' fs _ Hc); [reflexivity| |exact Ht].
    intros; now left.
Qed.

End Derived.

(** ** A normalized work is ready to be read back *)

Section Ready.
Import Works.

Lemma stable_reads_back fld v :
  stable fld v -> plain v = true -> reads_back fld v.
Proof.
  intros Hs Hp. exists v. split; [exact (sql_value_plain _ Hp) | exact Hs].
Qed.

Lemma value_eqb_str x s : value_eqb x (VStr s) = true -> x = VStr s.
Proof.
  destruct x; try discriminate. cbn. intros H.
  apply String.eqb_eq in H. now subst.
Qed.

(** The object of a subtable with one row. *)
Lemma single_sub O d name s :
  field_value Work.hooks d (opt name (model_of name))
  = Ok (name, getattr O name) ->
  keyed_entry "work_id" (VStr s) (dict_get name d) ->
  getattr O "id" = VStr s ->
  str_in name MULTIVALUE = false ->
  (forall y z, run (validators_of Work.hooks name) y = Ok z -> z = y) ->
  (forall dx y,
     validate (model_of name) (VDict dx) = Ok y ->
     dict_get "work_id" dx = Some (VStr s) ->
     (exists c fs, y = VObj c fs)
     /\ getattr y "work_id" = VStr s
     /\ (texts_plain (model_of name) (sql_order_of name) y = true ->
         row_ok (model_of name) (sql_order_of name) y)) ->
  match getattr O name with
  | VNone => true
  | VList l => forallb (texts_plain (model_of name) (sql_order_of name)) l
  | o => texts_plain (model_of name) (sql_order_of name) o
  end = true ->
  sub_ok O name.
Proof.
  intros Hf Hk Hi Hm Hv Hinv Ht. unfold field_value, opt in Hf.
  cbn [fname faliases frequired ftype lookup] in Hf.
  unfold keyed_entry in Hk. unfold sub_ok.
  destruct (dict_get name d) as [x|].
  2:{ injection Hf as <-. exact I. }
  apply bind_ok in Hf as (y & Hy & Hf).
  apply bind_ok in Hf as (z & Hz & [= Hz']). apply Hv in Hz. subst z.
  cbn [negb andb] in Hy.
  destruct x; cbn [is_none] in Hy;
    try (injection Hy as <-; rewrite <- Hz'; exact I);
    destruct Hk as (dx & [= <-] & Hk).
  destruct (Hinv _ _ Hy Hk) as ((c & fs & ->) & Hw & Hrow).
  rewrite <- Hz' in *. split; [exact Hm|]. split; [|congruence].
  exact (Hrow Ht).
Qed.

(** The objects of a subtable with several rows. *)
Lemma multi_sub O d name s (Q : value -> Prop) :
  field_value Work.hooks d (opt name (TList (model_of name)))
  = Ok (name, getattr O name) ->
  keyed_list "work_id" (VStr s) (dict_get name d) ->
  getattr O "id" = VStr s ->
  str_in name MULTIVALUE = true ->
  validators_of Work.hooks name = [] ->
  (forall l, getattr O name = VList l -> Forall Q l) ->
  (forall dx y,
     validate (model_of name) (VDict dx) = Ok y ->
     dict_get "work_id" dx = Some (VStr s) ->
     Q y ->
     getattr y "work_id" = VStr s
     /\ (texts_plain (model_of name) (sql_order_of name) y = true ->
         row_ok (model_of name) (sql_order_of name) y)) ->
  match getattr O name with
  | VNone => true
  | VList l => forallb (texts_plain (model_of name) (sql_order_of name)) l
  | o => texts_plain (model_of name) (sql_order_of name) o
  end = true ->
  sub_ok O name.
Proof.
  intros Hf Hk Hi Hm Hv HQ Hinv Ht. unfold field_value, opt in Hf.
  cbn [fname faliases frequired ftype lookup] in Hf. rewrite Hv in Hf.
  unfold keyed_list in Hk. unfold sub_ok.
  destruct (dict_get name d) as [x|].
  2:{ injection Hf as <-. exact I. }
  apply bind_ok in Hf as (y & Hy & [= Hz']). cbn [negb andb] in Hy.
  destruct x; cbn [is_none] in Hy;
    try (injection Hy as <-; rewrite <- Hz'; exact I);
    try discriminate.
  rewrite validate_list_eq in Hy.
  apply bind_ok in Hy as (ys & Hc & [= <-]).
  apply collect_map_ok in Hc. rewrite <- Hz' in *.
  specialize (HQ ys eq_refl).
  split; [exact Hm|].
  rewrite forallb_forall in Ht.
  clear Hz'. induction Hc as [|x y l ys Hxy _ IH]; constructor.
  - apply Forall_inv in Hk. destruct Hk as (dx & -> & Hk).
    destruct (Hinv _ _ Hxy Hk (Forall_inv HQ)) as (Hw & Hrow).
    split; [|congruence]. apply Hrow, Ht. now left.
  - apply IH.
    + exact (Forall_inv_tail Hk).
    + exact (Forall_inv_tail HQ).
    + intros o Ho. apply Ht. now right.
Qed.

Lemma wrapped_keyed idv x :
  wrapped_list idv x -> keyed_list "work_id" idv x.
Proof.
  unfold wrapped_list, keyed_list.
  destruct x as [[]|]; try exact (fun _ => I).
  intros (l0 & ->). apply Forall_map, Forall_forall. intros x _.
  eexists. split; reflexivity.
Qed.

Lemma best_oa_same y z :
  run (validators_of Work.hooks "best_oa_location") y = Ok z -> z = y.
Proof.
  change (validators_of Work.hooks "best_oa_location")
    with [Work._validate_best_oa_location].
  cbn [run]. intros H. apply bind_ok in H as (x & Hx & [= <-]).
  apply wrap_ok in Hx. revert Hx. unfold Work._validate_best_oa_location.
  destruct (is_none y); [congruence|].
  destruct (negb (py_truthy (getattr y "is_oa"))); congruence.
Qed.

Lemma run_nil_same y z : run [] y = Ok z -> z = y.
Proof. cbn. congruence. Qed.

(** What normalization yields reads back from its rows, when it holds no
    abstract index, its text columns hold plain text and its topics carry
    its id. *)
Lemma work_ready raw O :
  Work.new raw = Ok O ->
  getattr O "abstract_inverted_index" = VNone ->
  work_texts_plain O = true ->
  topics_keyed O = true ->
  ready O.
Proof.
  intros Hw Ha Ht Hk.
  pose proof (best_oa_marked raw O Hw) as Hb.
  apply work_new_inv in Hw as (d & fs & Hbef & Hfs & HO).
  assert (A : forall n fld,
            find (fun f => String.eqb n (fname f)) Work.fields = Some fld ->
            field_value Work.hooks d fld = Ok (n, getattr O n)).
  { intros n fld Hf.
    destruct (fields_get _ _ _ _ n _ Hfs Hf) as (z & Hz & Hg).
    subst O. cbn [getattr]. now rewrite Hg. }
  assert (Hid : exists s, getattr O "id" = VStr s
                          /\ dict_get "id" d = Some (VStr s)).
  { pose proof (A "id" _ eq_refl) as Hz.
    apply required_str_field in Hz as (s & Hs & Hd); [eauto|reflexivity]. }
  destruct Hid as (s & Hid & Hd).
  destruct (before_keyed raw d (VStr s) Hbef Hd) as (K1 & K2 & K3).
  unfold work_texts_plain in Ht.
  apply andb_true_iff in Ht as [Troot Tsub].
  rewrite forallb_forall in Tsub.
  unfold texts_plain in Troot. rewrite forallb_forall in Troot.
  split; [|split; [exact Ha|split; [|exact Hb]]].
  - (* the columns of the work *)
    assert (Scalar : forall k fld,
              find (fun f => String.eqb k (fname f)) Work.fields
              = Some fld ->
              scalar_ty (ftype fld) = true ->
              validators_of Work.hooks (fname fld) = [] ->
              In k Work._sql_order ->
              match find (fun f => String.eqb k (fname f)) Work.fields with
              | Some fld => reads_back fld (getattr O k)
              | None => False
              end).
    { intros k fld Hf Hs Hv Hin. rewrite Hf.
      destruct (column_derived _ _ _ _ _ (A k fld Hf) Hv Hs)
        as [St Pl].
      - intros T. specialize (Troot k Hin). cbv beta in Troot.
        unfold text_column in Troot. cbn [fields_of Work.model] in Troot.
        now rewrite Hf, T in Troot.
      - now apply stable_reads_back. }
    unfold Work._sql_order.
    repeat (apply Forall_cons;
            [ cbv beta;
              match goal with
              | |- match find (fun f => String.eqb ?k _) _ with
                   | Some _ => _
                   | None => _
                   end =>
                  first
                    [ refine (Scalar k _ eq_refl eq_refl eq_refl _);
                      cbn; tauto
                    | idtac ]
              end |]); [| |apply Forall_nil].
    + (* publication_date *)
      change (reads_back (opt "publication_date" Date8601)
                (getattr O "publication_date")).
      pose proof (A "publication_date" _ eq_refl) as Hz.
      unfold field_value, opt in Hz.
      cbn [fname faliases frequired ftype lookup] in Hz.
      destruct (dict_get "publication_date" d) as [x|].
      * apply bind_ok in Hz as (y & Hy & Hz). cbn in Hz.
        injection Hz as <-. cbn [negb andb] in Hy.
        apply date8601_value in Hy.
        destruct (date8601_reread _ Hy) as (c & Hc & Hv).
        exists c. split; [exact Hc | exact Hv].
      * injection Hz as <-. exists VNone. split; reflexivity.
    + (* abstract_inverted_index *)
      change (reads_back (opt "abstract_inverted_index" TDict)
                (getattr O "abstract_inverted_index")).
      rewrite Ha. exists VNone. split; reflexivity.
  - (* the subtables *)
    assert (Topics : forall l, getattr O "topics" = VList l ->
              Forall (fun y => getattr y "work_id" = VStr s) l).
    { intros l Hl. unfold topics_keyed in Hk. rewrite Hl, Hid in Hk.
      rewrite forallb_forall in Hk. apply Forall_forall.
      intros y Hy. exact (value_eqb_str _ _ (Hk y Hy)). }
    assert (Any : forall n l, getattr O n = VList l ->
              Forall (fun _ : value => True) l).
    { intros n l _. apply Forall_forall. intros; exact I. }
    unfold Work._sql_subtables.
    apply Forall_cons.
    { refine (single_sub O d "primary_location" s (A "primary_location" _ eq_refl)
                (K1 "primary_location" _) Hid eq_refl run_nil_same _ (Tsub "primary_location" _));
        [cbn; tauto| |cbn; tauto].
      intros dx y. exact (location_entry _ dx y s). }
    apply Forall_cons.
    { refine (multi_sub O d "locations" s _ (A "locations" _ eq_refl)
                (K2 "locations" _) Hid eq_refl eq_refl (Any "locations") _ (Tsub "locations" _));
        [cbn; tauto| |cbn; tauto].
      intros dx y Hv Hx _. exact (proj2 (location_entry _ dx y s Hv Hx)). }
    apply Forall_cons.
    { refine (single_sub O d "best_oa_location" s (A "best_oa_location" _ eq_refl)
                (K1 "best_oa_location" _) Hid eq_refl best_oa_same _ (Tsub "best_oa_location" _));
        [cbn; tauto| |cbn; tauto].
      intros dx y. exact (location_entry _ dx y s). }
    apply Forall_cons.
    { refine (multi_sub O d "authorships" s _ (A "authorships" _ eq_refl)
                (K2 "authorships" _) Hid eq_refl eq_refl (Any "authorships") _ (Tsub "authorships" _));
        [cbn; tauto| |cbn; tauto].
      intros dx y Hv Hx _. exact (proj2 (authorship_entry dx y s Hv Hx)). }
    apply Forall_cons.
    { refine (single_sub O d "biblio" s (A "biblio" _ eq_refl)
                (K1 "biblio" _) Hid eq_refl run_nil_same _ (Tsub "biblio" _));
        [cbn; tauto| |cbn; tauto].
      intros dx y.
      refine (plain_entry _ _ _ _ dx y s _ _ _ _); reflexivity. }
    apply Forall_cons.
    { refine (multi_sub O d "topics" s _ (A "topics" _ eq_refl)
                (K2 "topics" _) Hid eq_refl eq_refl Topics _ (Tsub "topics" _));
        [cbn; tauto| |cbn; tauto].
      intros dx y Hv _ HQ.
      split; [exact HQ | exact (proj2 (topic_entry dx y Hv))]. }
    apply Forall_cons.
    { refine (multi_sub O d "concepts" s _ (A "concepts" _ eq_refl)
                (K2 "concepts" _) Hid eq_refl eq_refl (Any "concepts") _ (Tsub "concepts" _));
        [cbn; tauto| |cbn; tauto].
      intros dx y Hv Hx _.
      refine (proj2 (plain_entry _ _ _ _ dx y s _ _ _ _ Hv Hx));
        reflexivity. }
    apply Forall_cons.
    { refine (single_sub O d "ids" s (A "ids" _ eq_refl)
                (K1 "ids" _) Hid eq_refl run_nil_same _ (Tsub "ids" _));
        [cbn; tauto| |cbn; tauto].
      intros dx y.
      refine (plain_entry _ _ _ _ dx y s _ _ _ _); reflexivity. }
    apply Forall_cons.
    { refine (multi_sub O d "mesh" s _ (A "mesh" _ eq_refl)
                (K2 "mesh" _) Hid eq_refl eq_refl (Any "mesh") _ (Tsub "mesh" _));
        [cbn; tauto| |cbn; tauto].
      intros dx y Hv Hx _.
      refine (proj2 (plain_entry _ _ _ _ dx y s _ _ _ _ Hv Hx));
        reflexivity. }
    apply Forall_cons.
    { refine (single_sub O d "open_access" s (A "open_access" _ eq_refl)
                (K1 "open_access" _) Hid eq_refl run_nil_same _ (Tsub "open_access" _));
        [cbn; tauto| |cbn; tauto].
      intros dx y.
      refine (plain_entry _ _ _ _ dx y s _ _ _ _); reflexivity. }
    apply Forall_cons.
    { refine (multi_sub O d "referenced_works" s _ (A "referenced_works" _ eq_refl)
                (wrapped_keyed _ _ (K3 "referenced_works" _)) Hid eq_refl eq_refl (Any "referenced_works") _
                (Tsub "referenced_works" _));
        [cbn; tauto| |cbn; tauto].
      intros dx y Hv Hx _.
      refine (proj2 (plain_entry _ _ _ _ dx y s _ _ _ _ Hv Hx));
        reflexivity. }
    apply Forall_cons; [|apply Forall_nil].
    refine (multi_sub O d "related_works" s _ (A "related_works" _ eq_refl)
              (wrapped_keyed _ _ (K3 "related_works" _)) Hid eq_refl eq_refl (Any "related_works") _
              (Tsub "related_works" _));
      [cbn; tauto| |cbn; tauto].
    intros dx y Hv Hx _.
    refine (proj2 (plain_entry _ _ _ _ dx y s _ _ _ _ Hv Hx));
      reflexivity.
Qed.

End Ready.

(** ** Hydration of the rows of a work *)

Section RoundTrip.
Import Works.

Lemma mapM_total {A B} (f : A -> result B) l :
  Forall (fun x => exists y, f x = Ok y) l -> exists ys, mapM f l = Ok ys.
Proof.
  induction 1 as [|x l (y & Hy) _ (ys & IH)]; cbn [mapM]; [eauto|].
  rewrite Hy, IH. cbn [bind]. eauto.
Qed.

Lemma project_subtables_total O names :
  Forall (fun n => exists r, subtable_rows O n = Ok r) names ->
  exists subs, project_subtables O names = Ok subs.
Proof.
  induction 1 as [|n names (r & Hr) _ (subs & IH)];
    cbn [project_subtables]; [eauto|].
  rewrite Hr, IH. cbn [bind]. destruct r; eauto.
Qed.

(** A work that is ready has rows. *)
Lemma project_total O :
  ready O -> exists t subs, project O = Ok (t, subs).
Proof.
  intros (Hroot & _ & Hsub & _). unfold project.
  destruct (mapM_total (fun key => SQLTable.sql_value (getattr O key))
              Work._sql_order) as (t & Ht).
  { eapply Forall_impl; [|exact Hroot]. cbv beta. intros k Hk.
    destruct (find (fun f => String.eqb k (fname f)) Work.fields);
      [|contradiction].
    destruct Hk as (c & Hc & _). eauto. }
  destruct (project_subtables_total O Work._sql_subtables) as (subs & Hs).
  { apply Forall_forall. intros n Hn.
    destruct (arg_of_rows O n Hn (proj1 (Forall_forall _ _) Hsub n Hn))
      as (r & Hr & _). eauto. }
  unfold SQLTable.to_sql_values. rewrite Ht, Hs. cbn [bind]. eauto.
Qed.

Lemma restored_work_column O k :
  In k Work._sql_order -> getattr (restored_work O) k = getattr O k.
Proof.
  intros H. cbn [In Work._sql_order] in H.
  repeat (destruct H as [<-|H]; [reflexivity|]). contradiction.
Qed.

End RoundTrip.

(** C1.  For every work [O] that normalization yields, with no abstract
    index, with plain text in the text columns of its tables and with its
    id under the work_id of its topics, [Work.from_sql] applied to the rows
    of [O] yields the work [restored_work O]: it agrees with [O] on every
    column of the work, its rows are the rows of [O] in every table, and
    every field that no table holds is [None]. *)
Theorem hydrate_project_restores_columns raw O :
  Works.Work.new raw = Ok O ->
  getattr O "abstract_inverted_index" = VNone ->
  work_texts_plain O = true ->
  topics_keyed O = true ->
  hydrated O = Ok (restored_work O)
  /\ (forall k, In k Works.Work._sql_order ->
                getattr (restored_work O) k = getattr O k)
  /\ Works.project (restored_work O) = Works.project O.
Proof.
  intros Hw Ha Ht Hk.
  pose proof (work_ready raw O Hw Ha Ht Hk) as R.
  destruct (project_total O R) as (t & subs & P).
  split; [|split].
  - unfold hydrated. rewrite P. cbn [bind fst snd].
    exact (from_sql_restored O t subs R P).
  - exact (restored_work_column O).
  - exact (project_restored O R).
Qed.

Lemma hydrate_project_restores_columns_witness :
  exists O,
    Works.Work.new
      [("id", VStr "W1"); ("title", VStr "A title");
       ("publication_date", VStr "2020-01-02");
       ("authorships",
        VList [VDict [("author", VDict [("id", VStr "A1")]);
                      ("institutions",
                       VList [VDict [("id", VStr "I1")];
                              VDict [("id", VStr "I2")]])]]);
       ("biblio", VDict [("volume", VStr "1")]);
       ("related_works", VList [VStr "W2"; VStr "W3"])] = Ok O
    /\ hydrated O = Ok (restored_work O)
    /\ Works.project (restored_work O) = Works.project O.
Proof.
  eexists. split; [vm_compute; reflexivity|].
  refine ((fun H => conj (proj1 H) (proj2 (proj2 H)))
            (hydrate_project_restores_columns
               [("id", VStr "W1"); ("title", VStr "A title");
                ("publication_date", VStr "2020-01-02");
                ("authorships",
                 VList [VDict [("author", VDict [("id", VStr "A1")]);
                               ("institutions",
                                VList [VDict [("id", VStr "I1")];
                                       VDict [("id", VStr "I2")]])]]);
                ("biblio", VDict [("volume", VStr "1")]);
                ("related_works", VList [VStr "W2"; VStr "W3"])]
               _ _ _ _ _));
    vm_compute; reflexivity.
Defined.

(** What hydration does not restore: a field that no table holds is lost;
    an abstract index comes back as JSON text, which the constructor
    rejects; text that reads as a date comes back as a date, which a text
    field rejects; and a topic given with its own id carries that id as its
    work_id before, and the id of the work after. *)
Lemma hydrate_project_is_not_identity :
  (O <- Works.Work.new [("id", VStr "W1"); ("license", VStr "cc-by")] ;;
   O' <- hydrated O ;;
   Ok (getattr O "license", getattr O' "license"))
  = Ok (VStr "cc-by", VNone)
  /\ (O <- Works.Work.new
             [("id", VStr "W1");
              ("abstract_inverted_index",
               VDict [("a", VList [VInt 0])])] ;;
      hydrated O)
     = Raise (ValidationError ["Input should be a valid dictionary"])
  /\ (O <- Works.Work.new
             [("id", VStr "W1"); ("title", VStr "2020-01-01")] ;;
      hydrated O)
     = Raise (ValidationError ["Input should be a valid string"])
  /\ (O <- Works.Work.new
             [("id", VStr "W1");
              ("topics", VList [VDict [("id", VStr "T1")]])] ;;
      O' <- hydrated O ;;
      Ok (map (fun o => getattr o "work_id")
            match getattr O "topics" with VList l => l | _ => [] end,
          map (fun o => getattr o "work_id")
            match getattr O' "topics" with VList l => l | _ => [] end))
     = Ok ([VStr "T1"], [VStr "W1"]).
Proof. repeat split; vm_compute; reflexivity. Qed.

(** * Further properties of the models *)

Section Columns.
Import Works.

(** X1.  Whatever [Date8601] validates a value to, [to_sql_values] hands
    over for it a value that [Date8601] validates to the same text: the date
    that [check_8601] printed is read back from the column as the same
    date. *)
Theorem date_column_reads_back x z :
  validate Date8601 x = Ok z ->
  exists c, SQLTable.sql_value z = Ok c /\ validate Date8601 c = Ok z.
Proof.
  intros H.
  unfold Date8601 in H. cbn [validate] in H.
  apply bind_ok in H as (y & Hy & Hc). apply wrap_ok in Hc.
  assert (D : exists d, Datetime.datetime_okb d = true /\ y = VDatetime d).
  { destruct x; try discriminate.
    - destruct (Datetime.fromisoformat s) as [d|] eqn:E; [|discriminate].
      injection Hy as <-. exists d.
      split; [exact (fromisoformat_okb _ _ E) | reflexivity].
    - destruct (Datetime.datetime_okb d) eqn:E; [|discriminate].
      injection Hy as <-. eauto. }
  destruct D as (d & Hok & ->). unfold check_8601 in Hc.
  injection Hc as <-.
  exists (VDatetime d). split; [exact (sql_value_isoformat d Hok)|].
  unfold Date8601. cbn [validate]. rewrite Hok. cbn [bind].
  unfold check_8601. reflexivity.
Qed.

Lemma date_column_reads_back_witness :
  exists c,
    SQLTable.sql_value (VStr "2020-01-02T00:00:00") = Ok c
    /\ validate Date8601 c = Ok (VStr "2020-01-02T00:00:00").
Proof.
  apply (date_column_reads_back (VStr "2020-01-02")). vm_compute.
  reflexivity.
Defined.

(** X2.  A topic of a work reads its work_id from the key id when the
    record of the topic has one: the id of the work that
    [_replicate_id_2] writes under work_id is then not used. *)
Theorem topic_work_id_reads_id_first wid dx y s :
  validate WorkTopic.model (VDict (dict_set "work_id" wid dx)) = Ok y ->
  dict_get "id" dx = Some (VStr s) ->
  getattr y "work_id" = VStr s.
Proof.
  intros H Hd.
  apply validate_model_dict in H as (fs & Hc & Hr); [|reflexivity].
  cbn [after no_hooks run] in Hr. injection Hr as <-.
  destruct (fields_get _ _ _ _ "work_id" _ Hc eq_refl) as (z & Hz & Hg).
  cbn [getattr]. rewrite Hg.
  unfold field_value, opt_alias in Hz.
  cbn [fname faliases frequired ftype lookup first_present] in Hz.
  rewrite dict_get_set_other, Hd in Hz by discriminate.
  cbn in Hz. congruence.
Qed.

Lemma topic_work_id_reads_id_first_witness :
  getattr (VObj "WorkTopic"
             [("work_id", VStr "T1"); ("topic_id", VNone);
              ("score", VNone); ("subfield", VNone)]) "work_id"
  = VStr "T1".
Proof.
  apply (topic_work_id_reads_id_first (VStr "W1") [("id", VStr "T1")]
           _ "T1"); reflexivity.
Defined.

(** X3.  A location given with its source as a mapping takes the id of the
    source as its source_id, whatever source_id the record gives. *)
Theorem location_takes_source_id cls dx src y :
  validate (TModel cls BaseWorkLocation.fields BaseWorkLocation.hooks)
    (VDict dx) = Ok y ->
  dict_get "source" dx = Some (VDict src) ->
  exists s, dict_get "id" src = Some (VStr s)
            /\ getattr y "source_id" = VStr s.
Proof.
  intros H Hd.
  apply validate_model_dict in H as (fs & Hc & Hr); [|reflexivity].
  cbn [after BaseWorkLocation.hooks run] in Hr.
  apply bind_ok in Hr as (w & Hw & [= <-]). apply wrap_ok in Hw.
  destruct (fields_get _ _ _ _ "source" _ Hc eq_refl) as (z & Hz & Hg).
  unfold field_value, opt in Hz.
  cbn [fname faliases frequired ftype lookup] in Hz. rewrite Hd in Hz.
  cbn [negb andb is_none] in Hz.
  apply bind_ok in Hz as (v & Hv & Hz). cbn in Hz. injection Hz as <-.
  unfold Sources.Source.model in Hv.
  apply validate_model_framed with (k := "id") in Hv
    as (d' & sfs & Hid & Hsc & Hsr);
    [|apply source_before_frames; cbn; intuition discriminate].
  cbn [after run] in Hsr. injection Hsr as <-.
  destruct (fields_get _ _ _ _ "id" _ Hsc eq_refl) as (i & Hi & Hgi).
  apply required_str_field in Hi as (s & -> & Hs); [|reflexivity].
  exists s. split; [congruence|].
  revert Hw. unfold BaseWorkLocation._populate_source_id.
  cbn [getattr]. rewrite Hg. intros [= <-].
  cbn [setattr getattr]. rewrite dict_get_set_same. now rewrite Hgi.
Qed.

Lemma location_takes_source_id_witness :
  exists s,
    dict_get "id" [("id", VStr "S1")] = Some (VStr s)
    /\ getattr
         match validate WorkLocation.model
                 (VDict [("source_id", VStr "S0");
                         ("source", VDict [("id", VStr "S1")])])
         with Ok y => y | Raise _ => VNone end "source_id"
       = VStr s.
Proof.
  apply (location_takes_source_id "WorkLocation"
           [("source_id", VStr "S0"); ("source", VDict [("id", VStr "S1")])]
           [("id", VStr "S1")]); reflexivity.
Defined.

(** X4.  An authorship given with its author as a mapping takes the id of
    the author as its author_id, whatever author_id the record gives. *)
Theorem authorship_takes_author_id dx a y :
  validate WorkAuthorship.model (VDict dx) = Ok y ->
  dict_get "author" dx = Some (VDict a) ->
  exists s, dict_get "id" a = Some (VStr s)
            /\ getattr y "author_id" = VStr s.
Proof.
  intros H Hd.
  apply authorship_inv in H as (dd' & fs & Hb & Hc & ->).
  rewrite authorship_replicate_dict, Hd in Hb.
  apply bind_ok in Hb as (i & Hi & [= <-]).
  destruct (fields_get _ _ _ _ "author" _ Hc eq_refl) as (z & Hz & Hg).
  unfold field_value, opt in Hz.
  cbn [fname faliases frequired ftype lookup] in Hz.
  rewrite dict_get_set_other, Hd in Hz by discriminate.
  cbn [negb andb is_none] in Hz.
  apply bind_ok in Hz as (v & Hv & _).
  apply validate_model_dict in Hv as (afs & Hac & _); [|reflexivity].
  destruct (fields_get _ _ _ _ "id" _ Hac eq_refl) as (j & Hj & _).
  apply required_str_field in Hj as (s & _ & Hs); [|reflexivity].
  cbn [py_getitem] in Hi. rewrite Hs in Hi. injection Hi as <-.
  exists s. split; [exact Hs|].
  destruct (fields_get _ _ _ _ "author_id" _ Hc eq_refl) as (k & Hk & Hgk).
  cbn [getattr]. rewrite Hgk.
  unfold field_value, opt in Hk.
  cbn [fname faliases frequired ftype lookup] in Hk.
  rewrite dict_get_set_same in Hk. cbn in Hk. congruence.
Qed.

Lemma authorship_takes_author_id_witness :
  exists s,
    dict_get "id" [("id", VStr "A1")] = Some (VStr s)
    /\ getattr
         match validate WorkAuthorship.model
                 (VDict [("author_id", VStr "A0");
                         ("author", VDict [("id", VStr "A1")])])
         with Ok y => y | Raise _ => VNone end "author_id"
       = VStr s.
Proof.
  apply (authorship_takes_author_id
           [("author_id", VStr "A0"); ("author", VDict [("id", VStr "A1")])]
           [("id", VStr "A1")]); reflexivity.
Defined.

End Columns.

(** ** The id of an entity in the objects of its subtables *)

Section ForeignKeys.
Import Works.

Lemma str_attr h dx fields fs fld key s :
  collect (map (field_value h dx) fields) = Ok fs ->
  find (fun f => String.eqb key (fname f)) fields = Some fld ->
  faliases fld = [] ->
  ftype fld = TStr ->
  validators_of h key = [] ->
  dict_get key dx = Some (VStr s) ->
  dict_get key fs = Some (VStr s).
Proof.
  intros Hc Hf Ha Ht Hv Hd.
  destruct (fields_get _ _ _ _ _ _ Hc Hf) as (z & Hz & ->).
  pose proof (find_name _ _ _ Hf) as Hn.
  unfold field_value, lookup in Hz. rewrite Ha, Hn, Hd, Ht, Hv in Hz.
  cbn [is_none andb validate bind run] in Hz.
  rewrite andb_false_r in Hz. cbn [bind] in Hz. congruence.
Qed.

Lemma plain_keyed cls fields fld key dx y s :
  find (fun f => String.eqb key (fname f)) fields = Some fld ->
  faliases fld = [] ->
  ftype fld = TStr ->
  validate (TModel cls fields no_hooks) (VDict dx) = Ok y ->
  dict_get key dx = Some (VStr s) ->
  getattr y key = VStr s.
Proof.
  intros Hf Ha Ht H Hd.
  apply validate_model_dict in H as (fs & Hc & Hr); [|reflexivity].
  cbn [after no_hooks run] in Hr. injection Hr as <-. cbn [getattr].
  now rewrite (str_attr _ _ _ _ _ _ s Hc Hf Ha Ht eq_refl Hd).
Qed.

(** The attribute of a subtable with one object. *)
Lemma keyed_attr h d O name key model s :
  field_value h d (opt name model) = Ok (name, getattr O name) ->
  keyed_entry key (VStr s) (dict_get name d) ->
  (forall y z, run (validators_of h name) y = Ok z -> z = y) ->
  (forall dx y, validate model (VDict dx) = Ok y ->
                dict_get key dx = Some (VStr s) ->
                getattr y key = VStr s) ->
  getattr O name = VNone \/ getattr (getattr O name) key = VStr s.
Proof.
  intros Hf Hk Hv Hinv. unfold field_value, opt in Hf.
  cbn [fname faliases frequired ftype lookup] in Hf.
  unfold keyed_entry in Hk.
  destruct (dict_get name d) as [x|].
  2:{ injection Hf as <-. now left. }
  apply bind_ok in Hf as (y & Hy & Hf).
  apply bind_ok in Hf as (z & Hz & [= Hz']). apply Hv in Hz. subst z.
  cbn [negb andb] in Hy.
  destruct x; cbn [is_none] in Hy;
    try (injection Hy as <-; now left);
    destruct Hk as (dx & [= <-] & Hk).
  right. rewrite <- Hz'. exact (Hinv _ _ Hy Hk).
Qed.

(** The attribute of a subtable with a list of objects. *)
Lemma keyed_attrs h d O name key model s :
  field_value h d (opt name (TList model)) = Ok (name, getattr O name) ->
  keyed_list key (VStr s) (dict_get name d) ->
  (forall y z, run (validators_of h name) y = Ok z -> z = y \/ z = VNone) ->
  (forall dx y, validate model (VDict dx) = Ok y ->
                dict_get key dx = Some (VStr s) ->
                getattr y key = VStr s) ->
  match getattr O name with
  | VList l => Forall (fun o => getattr o key = VStr s) l
  | _ => True
  end.
Proof.
  intros Hf Hk Hv Hinv. unfold field_value, opt in Hf.
  cbn [fname faliases frequired ftype lookup] in Hf.
  unfold keyed_list in Hk.
  destruct (dict_get name d) as [x|].
  2:{ injection Hf as <-. exact I. }
  apply bind_ok in Hf as (y & Hy & Hf).
  apply bind_ok in Hf as (z & Hz & [= Hz']).
  apply Hv in Hz as [->| ->]; [|rewrite <- Hz'; exact I].
  cbn [negb andb] in Hy. rewrite <- Hz'.
  destruct x; cbn [is_none] in Hy;
    try (injection Hy as <-; exact I); try discriminate.
  rewrite validate_list_eq in Hy.
  apply bind_ok in Hy as (ys & Hc & [= <-]).
  apply collect_map_ok in Hc.
  clear Hz'. induction Hc as [|x y l ys Hxy _ IH]; constructor.
  - apply Forall_inv in Hk. destruct Hk as (dx & -> & Hk).
    exact (Hinv _ _ Hxy Hk).
  - apply IH. exact (Forall_inv_tail Hk).
Qed.

Lemma model_inv name fields h raw w :
  frames "id" (run (rev (before h))) ->
  validate (TModel name fields h) (VDict raw) = Ok w ->
  exists d fs,
    run (rev (before h)) (VDict raw) = Ok (VDict d)
    /\ dict_get "id" d = dict_get "id" raw
    /\ collect (map (field_value h d) fields) = Ok fs
    /\ run (after h) (VObj name fs) = Ok w.
Proof.
  intros F H. rewrite validate_model_eq in H.
  apply bind_ok in H as (v1 & Hb & H).
  destruct (F _ _ Hb) as (d & -> & Hid).
  apply bind_ok in H as (fs & Hc & Hr). eauto 8.
Qed.

Lemma ensures_run1 P name (V : validator) :
  ensures P name V -> ensures P name (run [V]).
Proof.
  intros E r r' idv H Hi. cbn [run] in H.
  apply bind_ok in H as (x & Hx & [= ->]). apply wrap_ok in Hx.
  exact (E _ _ _ Hx Hi).
Qed.

Lemma not_empty_same (V : validator) y z :
  (forall v, V v = (if is_none v then Ok VNone
                    else n <- py_len v ;;
                         if (n =? 0)%nat then Ok VNone else Ok v)) ->
  run [V] y = Ok z -> z = y \/ z = VNone.
Proof.
  intros HV H. cbn [run] in H.
  apply bind_ok in H as (x & Hx & [= <-]). apply wrap_ok in Hx.
  rewrite HV in Hx. destruct (is_none y); [injection Hx as <-; now right|].
  apply bind_ok in Hx as (n & _ & Hx).
  destruct (n =? 0)%nat; injection Hx as <-; tauto.
Qed.

Lemma run_nil_keeps y z : run [] y = Ok z -> z = y \/ z = VNone.
Proof. cbn. intros [= <-]. now left. Qed.

Ltac frames_key :=
  repeat first
    [ apply frames_ret
    | apply frames_into; discriminate
    | apply frames_into_each; discriminate
    | apply frames_bind ].

Ltac ensures_key :=
  first
    [ apply ensures_bind_l;
      [ frames_key
      | first [ apply ensures_into | apply ensures_into_each ]
      | frames_key ]
    | apply ensures_bind_r; [frames_key | ensures_key] ].

(** X5.  Every object of a subtable of a normalized work, the topics
    apart, carries the id of the work as its work_id: the one object of
    primary_location, best_oa_location, biblio, ids and open_access, and
    each object of locations, authorships, concepts, mesh, referenced_works
    and related_works. *)
Theorem subtable_objects_carry_work_id raw O :
  Work.new raw = Ok O ->
  exists s,
    getattr O "id" = VStr s
    /\ (forall n,
          In n ["primary_location"; "best_oa_location"; "biblio"; "ids";
                "open_access"] ->
          getattr O n = VNone \/ getattr (getattr O n) "work_id" = VStr s)
    /\ (forall n,
          In n ["locations"; "authorships"; "concepts"; "mesh";
                "referenced_works"; "related_works"] ->
          match getattr O n with
          | VList l => Forall (fun o => getattr o "work_id" = VStr s) l
          | _ => True
          end).
Proof.
  intros Hw.
  apply work_new_inv in Hw as (d & fs & Hbef & Hfs & HO).
  assert (A : forall n fld,
            find (fun f => String.eqb n (fname f)) Work.fields = Some fld ->
            field_value Work.hooks d fld = Ok (n, getattr O n)).
  { intros n fld Hf.
    destruct (fields_get _ _ _ _ n _ Hfs Hf) as (z & Hz & Hg).
    subst O. cbn [getattr]. now rewrite Hg. }
  pose proof (A "id" _ eq_refl) as Hz.
  apply required_str_field in Hz as (s & Hid & Hd); [|reflexivity].
  destruct (before_keyed raw d (VStr s) Hbef Hd) as (K1 & K2 & K3).
  exists s. split; [exact Hid|]. split; intros n Hn; cbn [In] in Hn.
  - destruct Hn as [<-|[<-|[<-|[<-|[<-|[]]]]]].
    + refine (keyed_attr _ _ _ _ _ _ _ (A "primary_location" _ eq_refl)
                (K1 "primary_location" _) run_nil_same _);
        [cbn; tauto|].
      intros dx y Hv Hx. exact (proj1 (proj2 (location_entry _ dx y s Hv Hx))).
    + refine (keyed_attr _ _ _ _ _ _ _ (A "best_oa_location" _ eq_refl)
                (K1 "best_oa_location" _) best_oa_same _);
        [cbn; tauto|].
      intros dx y Hv Hx. exact (proj1 (proj2 (location_entry _ dx y s Hv Hx))).
    + refine (keyed_attr _ _ _ _ _ _ _ (A "biblio" _ eq_refl)
                (K1 "biblio" _) run_nil_same _);
        [cbn; tauto|].
      intros dx y. refine (plain_keyed _ _ _ _ dx y s _ _ _); reflexivity.
    + refine (keyed_attr _ _ _ _ _ _ _ (A "ids" _ eq_refl)
                (K1 "ids" _) run_nil_same _);
        [cbn; tauto|].
      intros dx y. refine (plain_keyed _ _ _ _ dx y s _ _ _); reflexivity.
    + refine (keyed_attr _ _ _ _ _ _ _ (A "open_access" _ eq_refl)
                (K1 "open_access" _) run_nil_same _);
        [cbn; tauto|].
      intros dx y. refine (plain_keyed _ _ _ _ dx y s _ _ _); reflexivity.
  - destruct Hn as [<-|[<-|[<-|[<-|[<-|[<-|[]]]]]]].
    + refine (keyed_attrs _ _ _ _ _ _ _ (A "locations" _ eq_refl)
                (K2 "locations" _) run_nil_keeps _);
        [cbn; tauto|].
      intros dx y Hv Hx. exact (proj1 (proj2 (location_entry _ dx y s Hv Hx))).
    + refine (keyed_attrs _ _ _ _ _ _ _ (A "authorships" _ eq_refl)
                (K2 "authorships" _) run_nil_keeps _);
        [cbn; tauto|].
      intros dx y Hv Hx.
      exact (proj1 (proj2 (authorship_entry dx y s Hv Hx))).
    + refine (keyed_attrs _ _ _ _ _ _ _ (A "concepts" _ eq_refl)
                (K2 "concepts" _) run_nil_keeps _);
        [cbn; tauto|].
      intros dx y. refine (plain_keyed _ _ _ _ dx y s _ _ _); reflexivity.
    + refine (keyed_attrs _ _ _ _ _ _ _ (A "mesh" _ eq_refl)
                (K2 "mesh" _) run_nil_keeps _);
        [cbn; tauto|].
      intros dx y. refine (plain_keyed _ _ _ _ dx y s _ _ _); reflexivity.
    + refine (keyed_attrs _ _ _ _ _ _ _ (A "referenced_works" _ eq_refl)
                (wrapped_keyed _ _ (K3 "referenced_works" _))
                run_nil_keeps _);
        [cbn; tauto|].
      intros dx y. refine (plain_keyed _ _ _ _ dx y s _ _ _); reflexivity.
    + refine (keyed_attrs _ _ _ _ _ _ _ (A "related_works" _ eq_refl)
                (wrapped_keyed _ _ (K3 "related_works" _))
                run_nil_keeps _);
        [cbn; tauto|].
      intros dx y. refine (plain_keyed _ _ _ _ dx y s _ _ _); reflexivity.
Qed.

Lemma subtable_objects_carry_work_id_witness :
  exists O,
    Work.new
      [("id", VStr "W1");
       ("biblio", VDict [("volume", VStr "1")]);
       ("locations", VList [VDict [("is_oa", VBool true)]]);
       ("related_works", VList [VStr "W2"])] = Ok O
    /\ exists s,
         getattr O "id" = VStr s
         /\ (forall n,
               In n ["primary_location"; "best_oa_location"; "biblio";
                     "ids"; "open_access"] ->
               getattr O n = VNone
               \/ getattr (getattr O n) "work_id" = VStr s)
         /\ (forall n,
               In n ["locations"; "authorships"; "concepts"; "mesh";
                     "referenced_works"; "related_works"] ->
               match getattr O n with
               | VList l =>
                   Forall (fun o => getattr o "work_id" = VStr s) l
               | _ => True
               end).
Proof.
  eexists. split; [vm_compute; reflexivity|].
  apply (subtable_objects_carry_work_id
           [("id", VStr "W1");
            ("biblio", VDict [("volume", VStr "1")]);
            ("locations", VList [VDict [("is_oa", VBool true)]]);
            ("related_works", VList [VStr "W2"])]).
  vm_compute. reflexivity.
Defined.

(** X6.  The ids and each counts_by_year entry of a validated author carry
    the id of the author as author_id. *)
Theorem author_subtables_carry_author_id raw a :
  Authors.Author.new raw = Ok a ->
  exists s,
    getattr a "id" = VStr s
    /\ (getattr a "ids" = VNone
        \/ getattr (getattr a "ids") "author_id" = VStr s)
    /\ match getattr a "counts_by_year" with
       | VList l => Forall (fun o => getattr o "author_id" = VStr s) l
       | _ => True
       end.
Proof.
  intros H. unfold Authors.Author.new, Authors.Author.model in H.
  apply model_inv in H as (d & fs & Hb & Hi & Hc & Hr).
  2:{ apply run_frames. cbn [rev before Authors.Author.hooks app].
      repeat constructor. unfold Authors.Author._replicate_id.
      frames_key. }
  cbn [after Authors.Author.hooks run] in Hr. injection Hr as <-.
  assert (A : forall n fld,
            find (fun f => String.eqb n (fname f)) Authors.Author.fields
            = Some fld ->
            field_value Authors.Author.hooks d fld
            = Ok (n, getattr (VObj "Author" fs) n)).
  { intros n fld Hf.
    destruct (fields_get _ _ _ _ n _ Hc Hf) as (z & Hz & Hg).
    cbn [getattr]. now rewrite Hg. }
  pose proof (A "id" _ eq_refl) as Hz.
  apply required_str_field in Hz as (s & Hid & Hd); [|reflexivity].
  rewrite Hi in Hd.
  exists s. split; [exact Hid|]. split.
  - refine (keyed_attr _ _ _ _ "author_id" _ s (A "ids" _ eq_refl) _
              run_nil_same _).
    + refine (ensures_run1 _ _ _ _ _ _ _ Hb Hd).
      unfold Authors.Author._replicate_id. ensures_key.
    + intros dx y. refine (plain_keyed _ _ _ _ dx y s _ _ _); reflexivity.
  - refine (keyed_attrs _ _ _ _ "author_id" _ s
              (A "counts_by_year" _ eq_refl) _ _ _).
    + refine (ensures_run1 _ _ _ _ _ _ _ Hb Hd).
      unfold Authors.Author._replicate_id. ensures_key.
    + intros y z. apply not_empty_same. reflexivity.
    + intros dx y. refine (plain_keyed _ _ _ _ dx y s _ _ _); reflexivity.
Qed.

Lemma author_subtables_carry_author_id_witness :
  exists a,
    Authors.Author.new
      [("id", VStr "A1");
       ("ids", VDict [("orcid", VStr "0000")]);
       ("counts_by_year", VList [VDict [("year", VInt 2020)]])] = Ok a
    /\ exists s,
         getattr a "id" = VStr s
         /\ (getattr a "ids" = VNone
             \/ getattr (getattr a "ids") "author_id" = VStr s)
         /\ match getattr a "counts_by_year" with
            | VList l => Forall (fun o => getattr o "author_id" = VStr s) l
            | _ => True
            end.
Proof.
  eexists. split; [vm_compute; reflexivity|].
  apply (author_subtables_carry_author_id
           [("id", VStr "A1");
            ("ids", VDict [("orcid", VStr "0000")]);
            ("counts_by_year", VList [VDict [("year", VInt 2020)]])]).
  vm_compute. reflexivity.
Defined.

Lemma check_repositories_same self w :
  Institutions.Institution._check_repositories self = Ok w -> w = self.
Proof.
  unfold Institutions.Institution._check_repositories.
  destruct (getattr self "repositories"); try (now intros [= <-]);
    intros H; apply bind_ok in H as (repos & _ & H);
    match type of H with
    | (if ?b then _ else _) = _ => destruct b
    end; congruence.
Qed.

(** X7.  The geo, the ids, each counts_by_year entry and each associated
    institution of a validated institution carry the id of the institution
    as institution_id. *)
Theorem institution_subtables_carry_institution_id raw i :
  Institutions.Institution.new raw = Ok i ->
  exists s,
    getattr i "id" = VStr s
    /\ (forall n, In n ["geo"; "ids"] ->
          getattr i n = VNone
          \/ getattr (getattr i n) "institution_id" = VStr s)
    /\ (forall n, In n ["counts_by_year"; "associated_institutions"] ->
          match getattr i n with
          | VList l =>
              Forall (fun o => getattr o "institution_id" = VStr s) l
          | _ => True
          end).
Proof.
  intros H.
  unfold Institutions.Institution.new, Institutions.Institution.model in H.
  apply model_inv in H as (d & fs & Hb & Hi & Hc & Hr).
  2:{ apply run_frames. cbn [rev before Institutions.Institution.hooks app].
      repeat constructor. unfold Institutions.Institution._replicate_id.
      frames_key. }
  cbn [after Institutions.Institution.hooks run] in Hr.
  apply bind_ok in Hr as (w & Hw & [= <-]). apply wrap_ok in Hw.
  apply check_repositories_same in Hw. subst w.
  assert (A : forall n fld,
            find (fun f => String.eqb n (fname f))
              Institutions.Institution.fields = Some fld ->
            field_value Institutions.Institution.hooks d fld
            = Ok (n, getattr (VObj "Institution" fs) n)).
  { intros n fld Hf.
    destruct (fields_get _ _ _ _ n _ Hc Hf) as (z & Hz & Hg).
    cbn [getattr]. now rewrite Hg. }
  pose proof (A "id" _ eq_refl) as Hz.
  apply required_str_field in Hz as (s & Hid & Hd); [|reflexivity].
  rewrite Hi in Hd.
  exists s. split; [exact Hid|]. split; intros n Hn; cbn [In] in Hn.
  - destruct Hn as [<-|[<-|[]]].
    + refine (keyed_attr _ _ _ _ "institution_id" _ s (A "geo" _ eq_refl) _
                run_nil_same _).
      * refine (ensures_run1 _ _ _ _ _ _ _ Hb Hd).
        unfold Institutions.Institution._replicate_id. ensures_key.
      * intros dx y.
        refine (plain_keyed _ _ _ _ dx y s _ _ _); reflexivity.
    + refine (keyed_attr _ _ _ _ "institution_id" _ s (A "ids" _ eq_refl) _
                run_nil_same _).
      * refine (ensures_run1 _ _ _ _ _ _ _ Hb Hd).
        unfold Institutions.Institution._replicate_id. ensures_key.
      * intros dx y.
        refine (plain_keyed _ _ _ _ dx y s _ _ _); reflexivity.
  - destruct Hn as [<-|[<-|[]]].
    + refine (keyed_attrs _ _ _ _ "institution_id" _ s
                (A "counts_by_year" _ eq_refl) _ _ _).
      * refine (ensures_run1 _ _ _ _ _ _ _ Hb Hd).
        unfold Institutions.Institution._replicate_id. ensures_key.
      * intros y z. apply not_empty_same. reflexivity.
      * intros dx y.
        refine (plain_keyed _ _ _ _ dx y s _ _ _); reflexivity.
    + refine (keyed_attrs _ _ _ _ "institution_id" _ s
                (A "associated_institutions" _ eq_refl) _ _ _).
      * refine (ensures_run1 _ _ _ _ _ _ _ Hb Hd).
        unfold Institutions.Institution._replicate_id. ensures_key.
      * intros y z. apply not_empty_same. reflexivity.
      * intros dx y.
        refine (plain_keyed _ _ _ _ dx y s _ _ _); reflexivity.
Qed.

Lemma institution_subtables_carry_institution_id_witness :
  exists i,
    Institutions.Institution.new
      [("id", VStr "I1");
       ("geo", VDict [("city", VStr "Oslo")]);
       ("associated_institutions", VList [VDict [("id", VStr "I2")]])]
    = Ok i
    /\ exists s,
         getattr i "id" = VStr s
         /\ (forall n, In n ["geo"; "ids"] ->
               getattr i n = VNone
               \/ getattr (getattr i n) "institution_id" = VStr s)
         /\ (forall n, In n ["counts_by_year"; "associated_institutions"] ->
               match getattr i n with
               | VList l =>
                   Forall (fun o => getattr o "institution_id" = VStr s) l
               | _ => True
               end).
Proof.
  eexists. split; [vm_compute; reflexivity|].
  apply (institution_subtables_carry_institution_id
           [("id", VStr "I1");
            ("geo", VDict [("city", VStr "Oslo")]);
            ("associated_institutions",
             VList [VDict [("id", VStr "I2")]])]).
  vm_compute. reflexivity.
Defined.

(** X8.  The ids and each counts_by_year entry of a validated source carry
    the id of the source as source_id. *)
Theorem source_subtables_carry_source_id raw x :
  validate Sources.Source.model (VDict raw) = Ok x ->
  exists s,
    getattr x "id" = VStr s
    /\ (getattr x "ids" = VNone
        \/ getattr (getattr x "ids") "source_id" = VStr s)
    /\ match getattr x "counts_by_year" with
       | VList l => Forall (fun o => getattr o "source_id" = VStr s) l
       | _ => True
       end.
Proof.
  intros H. unfold Sources.Source.model in H.
  apply model_inv in H as (d & fs & Hb & Hi & Hc & Hr).
  2:{ apply run_frames. cbn [rev before app].
      repeat constructor. unfold Sources.Source._replicate_id.
      frames_key. }
  cbn [after run] in Hr. injection Hr as <-.
  assert (A : forall n fld,
            find (fun f => String.eqb n (fname f)) Sources.Source.fields
            = Some fld ->
            field_value (mkHooks [Sources.Source._replicate_id] [] []) d fld
            = Ok (n, getattr (VObj "Source" fs) n)).
  { intros n fld Hf.
    destruct (fields_get _ _ _ _ n _ Hc Hf) as (z & Hz & Hg).
    cbn [getattr]. now rewrite Hg. }
  pose proof (A "id" _ eq_refl) as Hz.
  apply required_str_field in Hz as (s & Hid & Hd); [|reflexivity].
  rewrite Hi in Hd.
  exists s. split; [exact Hid|]. split.
  - refine (keyed_attr _ _ _ _ "source_id" _ s (A "ids" _ eq_refl) _
              run_nil_same _).
    + refine (ensures_run1 _ _ _ _ _ _ _ Hb Hd).
      unfold Sources.Source._replicate_id. ensures_key.
    + intros dx y. refine (plain_keyed _ _ _ _ dx y s _ _ _); reflexivity.
  - refine (keyed_attrs _ _ _ _ "source_id" _ s
              (A "counts_by_year" _ eq_refl) _ run_nil_keeps _).
    + refine (ensures_run1 _ _ _ _ _ _ _ Hb Hd).
      unfold Sources.Source._replicate_id. ensures_key.
    + intros dx y. refine (plain_keyed _ _ _ _ dx y s _ _ _); reflexivity.
Qed.

Lemma source_subtables_carry_source_id_witness :
  exists x,
    validate Sources.Source.model
      (VDict [("id", VStr "S1");
              ("ids", VDict [("issn_l", VStr "1234-5678")]);
              ("counts_by_year", VList [VDict [("year", VInt 2020)]])])
    = Ok x
    /\ exists s,
         getattr x "id" = VStr s
         /\ (getattr x "ids" = VNone
             \/ getattr (getattr x "ids") "source_id" = VStr s)
         /\ match getattr x "counts_by_year" with
            | VList l => Forall (fun o => getattr o "source_id" = VStr s) l
            | _ => True
            end.
Proof.
  eexists. split; [vm_compute; reflexivity|].
  apply (source_subtables_carry_source_id
           [("id", VStr "S1");
            ("ids", VDict [("issn_l", VStr "1234-5678")]);
            ("counts_by_year", VList [VDict [("year", VInt 2020)]])]).
  vm_compute. reflexivity.
Defined.

End ForeignKeys.

(** ** Topics, authors and the helpers of common and utils *)

Section Entities.
Import Datetime.

Lemma topic_after self t :
  run (after Topics.Topic.hooks) self = Ok t ->
  Topics.Topic._check_ids self = Ok self
  /\ t = Topics.Topic.flatten_one "subfield"
           (Topics.Topic.flatten_one "field"
              (Topics.Topic.flatten_one "domain" self)).
Proof.
  cbn [after Topics.Topic.hooks run]. intros H.
  apply bind_ok in H as (w & Hw & H). apply wrap_ok in Hw.
  apply bind_ok in H as (w2 & Hw2 & [= <-]). apply wrap_ok in Hw2.
  assert (w = self).
  { revert Hw. unfold Topics.Topic._check_ids.
    destruct (getattr self "ids"); try congruence;
      match goal with
      | |- (if ?b then _ else _) = _ -> _ => destruct b
      end; congruence. }
  subst w. split; [exact Hw|].
  unfold Topics.Topic._flatten in Hw2. now injection Hw2 as <-.
Qed.

Lemma flatten_one_other name self k :
  k <> (name ++ "_id")%string ->
  k <> (name ++ "_display_name")%string ->
  getattr (Topics.Topic.flatten_one name self) k = getattr self k.
Proof.
  intros H1 H2. unfold Topics.Topic.flatten_one.
  destruct self; try (destruct (getattr _ name); reflexivity).
  destruct (getattr (VObj cls fields) name); try reflexivity;
    cbn [setattr getattr]; now rewrite !dict_get_set_other.
Qed.

Lemma flatten_one_sets name cls fs :
  getattr (VObj cls fs) name <> VNone ->
  getattr (Topics.Topic.flatten_one name (VObj cls fs)) (name ++ "_id")
  = getattr (getattr (VObj cls fs) name) "id"
  /\ getattr (Topics.Topic.flatten_one name (VObj cls fs))
       (name ++ "_display_name")
     = getattr (getattr (VObj cls fs) name) "display_name".
Proof.
  intros H. unfold Topics.Topic.flatten_one.
  assert (N : (name ++ "_id")%string <> (name ++ "_display_name")%string).
  { clear. induction name as [|c name IH]; cbn [String.append];
      [discriminate|]. intros [= E]. now apply IH. }
  destruct (getattr (VObj cls fs) name) eqn:E; try contradiction;
    cbn [setattr getattr];
    rewrite dict_get_set_same, dict_get_set_other, dict_get_set_same by exact N;
    split; reflexivity.
Qed.

Lemma flatten_one_spec name cls fs :
  getattr (Topics.Topic.flatten_one name (VObj cls fs)) name = VNone
  \/ (getattr (Topics.Topic.flatten_one name (VObj cls fs)) (name ++ "_id")
      = getattr (getattr (Topics.Topic.flatten_one name (VObj cls fs)) name)
          "id"
      /\ getattr (Topics.Topic.flatten_one name (VObj cls fs))
           (name ++ "_display_name")
         = getattr
             (getattr (Topics.Topic.flatten_one name (VObj cls fs)) name)
             "display_name").
Proof.
  assert (N : forall suffix, suffix <> "" ->
            name <> (name ++ suffix)%string).
  { intros suffix Hs. induction name as [|c name IH]; cbn [String.append].
    - intros E. now apply Hs.
    - intros [= E]. now apply IH. }
  rewrite (flatten_one_other name _ name) by (apply N; discriminate).
  destruct (getattr (VObj cls fs) name) eqn:E; try (now left);
    right; rewrite <- E; apply flatten_one_sets; rewrite E; discriminate.
Qed.

(** X9.  A validated topic that has ids has its own id as their openalex
    id; and for each of domain, field and subfield that it has, it carries
    the id and the display name of that object in the two flat fields of
    the same name. *)
Theorem topic_ids_and_flat_fields raw t :
  Topics.Topic.new raw = Ok t ->
  (getattr t "ids" = VNone
   \/ exists s, getattr t "id" = VStr s
                /\ getattr (getattr t "ids") "openalex" = VStr s)
  /\ forall name, In name ["domain"; "field"; "subfield"] ->
       getattr t name = VNone
       \/ (getattr t (name ++ "_id") = getattr (getattr t name) "id"
           /\ getattr t (name ++ "_display_name")
              = getattr (getattr t name) "display_name").
Proof.
  intros H. unfold Topics.Topic.new, Topics.Topic.model in H.
  rewrite validate_model_eq in H.
  apply bind_ok in H as (v1 & Hb & H).
  assert (D : exists d, v1 = VDict d).
  { cbn [rev before Topics.Topic.hooks app run] in Hb.
    apply bind_ok in Hb as (x1 & H1 & Hb). apply wrap_ok in H1.
    apply bind_ok in Hb as (x2 & H2 & [= <-]). apply wrap_ok in H2.
    unfold Topics.Topic._str_to_list in H1.
    apply bind_ok in H1 as (kw & _ & H1).
    assert (exists d1, x1 = VDict d1) as (d1 & ->).
    { destruct kw; try (injection H1 as <-; eauto);
        destruct (Orjson.loads s); [|discriminate].
      cbn [py_setitem] in H1. injection H1 as <-. eauto. }
    unfold Topics.Topic._replicate_id in H2.
    destruct (frames_into "ids" "openalex" "id" ltac:(discriminate)
                _ _ H2) as (d2 & -> & _). eauto. }
  destruct D as (d & ->).
  apply bind_ok in H as (fs & Hc & Hr).
  apply topic_after in Hr as [Hck ->].
  destruct (fields_get _ _ _ _ "id" _ Hc eq_refl) as (z & Hz & Hg).
  apply required_str_field in Hz as (s & -> & _); [|reflexivity].
  split.
  - rewrite !flatten_one_other by discriminate.
    unfold Topics.Topic._check_ids in Hck.
    destruct (getattr (VObj "Topic" fs) "ids") eqn:E; try (now left);
      right; exists s; (split; [cbn [getattr]; now rewrite Hg|]);
      match type of Hck with
      | (if ?b then _ else _) = _ => destruct b eqn:B; [|discriminate]
      end;
      cbn [getattr] in B; rewrite Hg in B;
      exact (value_eqb_str _ _ B).
  - intros name Hn. cbn [In] in Hn.
    assert (O1 : exists fs1,
              Topics.Topic.flatten_one "domain" (VObj "Topic" fs)
              = VObj "Topic" fs1).
    { unfold Topics.Topic.flatten_one.
      destruct (getattr (VObj "Topic" fs) "domain"); cbn [setattr]; eauto. }
    destruct O1 as (fs1 & E1).
    assert (O2 : exists fs2,
              Topics.Topic.flatten_one "field" (VObj "Topic" fs1)
              = VObj "Topic" fs2).
    { unfold Topics.Topic.flatten_one.
      destruct (getattr (VObj "Topic" fs1) "field"); cbn [setattr]; eauto. }
    destruct O2 as (fs2 & E2).
    destruct Hn as [<-|[<-|[<-|[]]]].
    + rewrite !(flatten_one_other "subfield") by discriminate.
      rewrite !(flatten_one_other "field") by discriminate.
      apply flatten_one_spec.
    + rewrite !(flatten_one_other "subfield") by discriminate.
      rewrite E1. apply flatten_one_spec.
    + rewrite E1, E2. apply flatten_one_spec.
Qed.

Lemma topic_ids_and_flat_fields_witness :
  exists t,
    Topics.Topic.new
      [("id", VStr "T1"); ("keywords", VNone);
       ("ids", VDict [("wikipedia", VStr "w")]);
       ("domain", VDict [("id", VStr "D1"); ("display_name", VStr "Dom")])]
    = Ok t
    /\ (getattr t "ids" = VNone
        \/ exists s, getattr t "id" = VStr s
                     /\ getattr (getattr t "ids") "openalex" = VStr s)
    /\ forall name, In name ["domain"; "field"; "subfield"] ->
         getattr t name = VNone
         \/ (getattr t (name ++ "_id") = getattr (getattr t name) "id"
             /\ getattr t (name ++ "_display_name")
                = getattr (getattr t name) "display_name").
Proof.
  eexists. split; [vm_compute; reflexivity|].
  apply (topic_ids_and_flat_fields
           [("id", VStr "T1"); ("keywords", VNone);
            ("ids", VDict [("wikipedia", VStr "w")]);
            ("domain",
             VDict [("id", VStr "D1"); ("display_name", VStr "Dom")])]).
  vm_compute. reflexivity.
Defined.

Lemma remove_char_lacks c s : lacks c (Authors.Author.remove_char c s).
Proof.
  unfold lacks. induction s as [|a s IH]; cbn; [tauto|].
  destruct (Ascii.eqb c a) eqn:E; [exact IH|].
  cbn. intros [->|H]; [|now apply IH].
  now rewrite Ascii.eqb_refl in E.
Qed.

(** X10.  The display_name_alternatives of a validated author are [None]
    or a list that is not empty, of texts without quotation mark. *)
Theorem author_alternatives_without_quotation_marks raw a :
  Authors.Author.new raw = Ok a ->
  getattr a "display_name_alternatives" = VNone
  \/ exists names,
       getattr a "display_name_alternatives" = VList (map VStr names)
       /\ names <> []
       /\ Forall (lacks Orjson.dquote) names.
Proof.
  intros H. unfold Authors.Author.new, Authors.Author.model in H.
  apply model_inv in H as (d & fs & _ & _ & Hc & Hr).
  2:{ apply run_frames. cbn [rev before Authors.Author.hooks app].
      repeat constructor. unfold Authors.Author._replicate_id.
      repeat first [ apply frames_ret
                   | apply frames_into; discriminate
                   | apply frames_into_each; discriminate
                   | apply frames_bind ]. }
  cbn [after Authors.Author.hooks run] in Hr. injection Hr as <-.
  destruct (fields_get _ _ _ _ "display_name_alternatives" _ Hc eq_refl)
    as (z & Hz & Hg).
  cbn [getattr]. rewrite Hg. clear Hg Hc.
  unfold field_value, opt in Hz.
  cbn [fname faliases frequired ftype lookup] in Hz.
  destruct (dict_get "display_name_alternatives" d) as [x|];
    [|injection Hz as <-; now left].
  apply bind_ok in Hz as (y & Hy & Hz).
  apply bind_ok in Hz as (w & Hw & [= <-]).
  change (validators_of Authors.Author.hooks "display_name_alternatives")
    with [Authors.Author._remove_quotation_marks;
          Authors.Author._check_not_empty] in Hw.
  cbn [run] in Hw.
  apply bind_ok in Hw as (w1 & H1 & Hw). apply wrap_ok in H1.
  apply bind_ok in Hw as (w2 & H2 & [= <-]). apply wrap_ok in H2.
  assert (Y : y = VNone \/ exists l, y = VList l).
  { cbn [negb andb] in Hy. destruct (is_none x); [injection Hy as <-; tauto|].
    rewrite validate_list_eq in Hy. destruct x; try discriminate.
    apply bind_ok in Hy as (vs & _ & [= <-]). eauto. }
  destruct Y as [->|(l & ->)].
  { cbn in H1. injection H1 as <-. cbn in H2. injection H2 as <-.
    now left. }
  unfold Authors.Author._remove_quotation_marks in H1.
  cbn [py_iter bind] in H1.
  apply bind_ok in H1 as (ys & Hm & [= <-]).
  assert (N : exists names,
            ys = map VStr names /\ Forall (lacks Orjson.dquote) names).
  { apply mapM_ok in Hm. clear - Hm.
    induction Hm as [|x y l ys Hxy _ (names & -> & IH)].
    - exists []. split; [reflexivity | constructor].
    - destruct x; try discriminate. injection Hxy as <-.
      exists (Authors.Author.remove_char Orjson.dquote s :: names).
      split; [reflexivity|]. constructor; [apply remove_char_lacks|exact IH]. }
  destruct N as (names & -> & Hn).
  unfold Authors.Author._check_not_empty in H2.
  cbn [is_none py_len bind] in H2.
  destruct names as [|n names]; cbn in H2; injection H2 as <-;
    [now left|].
  right. exists (n :: names). split; [reflexivity|].
  split; [discriminate | exact Hn].
Qed.

Lemma author_alternatives_without_quotation_marks_witness :
  exists a,
    Authors.Author.new
      [("id", VStr "A1");
       ("display_name_alternatives",
        VList [VStr (String Orjson.dquote "Ada")])] = Ok a
    /\ (getattr a "display_name_alternatives" = VNone
        \/ exists names,
             getattr a "display_name_alternatives" = VList (map VStr names)
             /\ names <> []
             /\ Forall (lacks Orjson.dquote) names).
Proof.
  eexists. split; [vm_compute; reflexivity|].
  apply (author_alternatives_without_quotation_marks
           [("id", VStr "A1");
            ("display_name_alternatives",
             VList [VStr (String Orjson.dquote "Ada")])]).
  vm_compute. reflexivity.
Defined.

(** X11.  [check] answers [True] on a mapping that holds something other
    than [None] under the name, and on nothing else: on any other mapping
    it answers [False], and on a value that is no mapping it answers
    [False] or raises. *)
Theorem check_true_only_on_mappings name obj :
  (check name obj = Ok true
   <-> exists d v, obj = VDict d /\ dict_get name d = Some v /\ v <> VNone)
  /\ forall d, exists b, check name (VDict d) = Ok b.
Proof.
  split; [split|].
  - intros H. destruct (check_true _ _ H) as (d & v & -> & Hd & Hv).
    exists d, v. repeat split; [exact Hd|]. intros ->. discriminate.
  - intros (d & v & -> & Hd & Hv). rewrite check_dict, Hd.
    destruct v; try reflexivity. contradiction.
  - intros d. rewrite check_dict. eauto.
Qed.

Lemma parse_fields_strftime d :
  datetime_okb d = true ->
  (1000 <= dt_year d)%Z ->
  parse_fields (strftime d) = Some (whole_seconds d).
Proof.
  intros Hok Hy. pose proof (okb_bounds d Hok) as B.
  destruct d as [y mo dd h mi s us o].
  cbn [dt_year dt_month dt_day dt_hour dt_minute dt_second dt_microsecond
       dt_utcoffset] in *.
  unfold strftime, parse_fields, whole_seconds.
  cbn [dt_year dt_month dt_day dt_hour dt_minute dt_second dt_microsecond
       dt_utcoffset].
  replace (y <? 1000)%Z with false by (symmetry; apply Z.ltb_ge; lia).
  rewrite take4_pad4 by lia. cbn [String.append expect Ascii.eqb Bool.eqb].
  rewrite take2_pad2 by lia. cbn [String.append expect Ascii.eqb Bool.eqb].
  rewrite take2_pad2 by lia.
  cbn [String.append expect Ascii.eqb Bool.eqb orb].
  rewrite take2_pad2 by lia. cbn [String.append expect Ascii.eqb Bool.eqb].
  rewrite take2_pad2 by lia. cbn [String.append expect Ascii.eqb Bool.eqb].
  rewrite take2_pad2_end by lia. reflexivity.
Qed.

Lemma whole_seconds_okb d :
  datetime_okb d = true -> datetime_okb (whole_seconds d) = true.
Proof.
  unfold datetime_okb, whole_seconds.
  cbn [dt_year dt_month dt_day dt_hour dt_minute dt_second dt_microsecond
       dt_utcoffset].
  rewrite !andb_true_iff. intros H. repeat split; try apply H; reflexivity.
Qed.

(** X12.  [no_tz] prints a date of the year 1000 or later to whole
    seconds and without time zone, and [DateTimeNoTZ] validates the text it
    printed to the same text. *)
Theorem no_tz_keeps_whole_seconds d :
  datetime_okb d = true ->
  (1000 <= dt_year d)%Z ->
  no_tz (VDatetime d) = Ok (VStr (isoformat (whole_seconds d)))
  /\ validate DateTimeNoTZ (VStr (isoformat (whole_seconds d)))
     = Ok (VStr (isoformat (whole_seconds d))).
Proof.
  intros Hok Hy.
  assert (N : forall e, datetime_okb e = true -> (1000 <= dt_year e)%Z ->
            no_tz (VDatetime e) = Ok (VStr (isoformat (whole_seconds e)))).
  { intros e He Hye. unfold no_tz, fromisoformat.
    rewrite (parse_fields_strftime e He Hye).
    now rewrite (whole_seconds_okb e He). }
  split; [exact (N d Hok Hy)|].
  unfold DateTimeNoTZ. cbn [validate].
  rewrite (fromisoformat_isoformat _ (whole_seconds_okb d Hok)).
  cbn [bind]. rewrite (N _ (whole_seconds_okb d Hok) Hy). reflexivity.
Qed.

Lemma no_tz_keeps_whole_seconds_witness :
  no_tz (VDatetime (mkDatetime 2024 5 6 7 8 9 123 (Some 3600)))
  = Ok (VStr "2024-05-06T07:08:09")
  /\ validate DateTimeNoTZ (VStr "2024-05-06T07:08:09")
     = Ok (VStr "2024-05-06T07:08:09").
Proof.
  apply (no_tz_keeps_whole_seconds
           (mkDatetime 2024 5 6 7 8 9 123 (Some 3600)));
    [reflexivity | vm_compute; discriminate].
Defined.

End Entities.

(** ** Concepts and publishers *)

Section MoreForeignKeys.

Ltac frames_key :=
  repeat first
    [ apply frames_ret
    | apply frames_into; discriminate
    | apply frames_into_each; discriminate
    | apply frames_bind ].

Ltac ensures_key :=
  first
    [ apply ensures_bind_l;
      [ frames_key
      | first [ apply ensures_into | apply ensures_into_each ]
      | frames_key ]
    | apply ensures_bind_r; [frames_key | ensures_key] ].

(** X14.  The ids, each counts_by_year entry, each ancestor and each related
    concept of a validated concept carry the id of the concept as
    concept_id. *)
Theorem concept_subtables_carry_concept_id raw c :
  Concepts.Concept.new raw = Ok c ->
  exists s,
    getattr c "id" = VStr s
    /\ (getattr c "ids" = VNone
        \/ getattr (getattr c "ids") "concept_id" = VStr s)
    /\ (forall n, In n ["counts_by_year"; "ancestors"; "related_concepts"] ->
          match getattr c n with
          | VList l => Forall (fun o => getattr o "concept_id" = VStr s) l
          | _ => True
          end).
Proof.
  intros H. unfold Concepts.Concept.new, Concepts.Concept.model in H.
  apply model_inv in H as (d & fs & Hb & Hi & Hc & Hr).
  2:{ apply run_frames. cbn [rev before Concepts.Concept.hooks app].
      repeat constructor. unfold Concepts.Concept._replicate_id.
      frames_key. }
  cbn [after Concepts.Concept.hooks run] in Hr. injection Hr as <-.
  assert (A : forall n fld,
            find (fun f => String.eqb n (fname f)) Concepts.Concept.fields
            = Some fld ->
            field_value Concepts.Concept.hooks d fld
            = Ok (n, getattr (VObj "Concept" fs) n)).
  { intros n fld Hf.
    destruct (fields_get _ _ _ _ n _ Hc Hf) as (z & Hz & Hg).
    cbn [getattr]. now rewrite Hg. }
  pose proof (A "id" _ eq_refl) as Hz.
  apply required_str_field in Hz as (s & Hid & Hd); [|reflexivity].
  rewrite Hi in Hd.
  exists s. split; [exact Hid|]. split.
  - refine (keyed_attr _ _ _ _ "concept_id" _ s (A "ids" _ eq_refl) _
              run_nil_same _).
    + refine (ensures_run1 _ _ _ _ _ _ _ Hb Hd).
      unfold Concepts.Concept._replicate_id. ensures_key.
    + intros dx y. refine (plain_keyed _ _ _ _ dx y s _ _ _); reflexivity.
  - intros n Hn. cbn [In] in Hn. destruct Hn as [<-|[<-|[<-|[]]]].
    + refine (keyed_attrs _ _ _ _ "concept_id" _ s
                (A "counts_by_year" _ eq_refl) _ _ _).
      * refine (ensures_run1 _ _ _ _ _ _ _ Hb Hd).
        unfold Concepts.Concept._replicate_id. ensures_key.
      * intros y z. apply not_empty_same. reflexivity.
      * intros dx y.
        refine (plain_keyed _ _ _ _ dx y s _ _ _); reflexivity.
    + refine (keyed_attrs _ _ _ _ "concept_id" _ s
                (A "ancestors" _ eq_refl) _ _ _).
      * refine (ensures_run1 _ _ _ _ _ _ _ Hb Hd).
        unfold Concepts.Concept._replicate_id. ensures_key.
      * intros y z. apply not_empty_same. reflexivity.
      * intros dx y.
        refine (plain_keyed _ _ _ _ dx y s _ _ _); reflexivity.
    + refine (keyed_attrs _ _ _ _ "concept_id" _ s
                (A "related_concepts" _ eq_refl) _ _ _).
      * refine (ensures_run1 _ _ _ _ _ _ _ Hb Hd).
        unfold Concepts.Concept._replicate_id. ensures_key.
      * intros y z. apply not_empty_same. reflexivity.
      * intros dx y.
        refine (plain_keyed _ _ _ _ dx y s _ _ _); reflexivity.
Qed.

Lemma concept_subtables_carry_concept_id_witness :
  exists c,
    Concepts.Concept.new
      [("id", VStr "C1");
       ("ids", VDict [("wikidata", VStr "Q1")]);
       ("ancestors", VList [VDict [("id", VStr "C0")]]);
       ("related_concepts", VList [VDict [("id", VStr "C2")]])] = Ok c
    /\ exists s,
         getattr c "id" = VStr s
         /\ (getattr c "ids" = VNone
             \/ getattr (getattr c "ids") "concept_id" = VStr s)
         /\ (forall n,
               In n ["counts_by_year"; "ancestors"; "related_concepts"] ->
               match getattr c n with
               | VList l =>
                   Forall (fun o => getattr o "concept_id" = VStr s) l
               | _ => True
               end).
Proof.
  eexists. split; [vm_compute; reflexivity|].
  apply (concept_subtables_carry_concept_id
           [("id", VStr "C1");
            ("ids", VDict [("wikidata", VStr "Q1")]);
            ("ancestors", VList [VDict [("id", VStr "C0")]]);
            ("related_concepts", VList [VDict [("id", VStr "C2")]])]).
  vm_compute. reflexivity.
Defined.

(** X15.  The ids and each counts_by_year entry of a validated publisher
    carry the id of the publisher as publisher_id. *)
Theorem publisher_subtables_carry_publisher_id raw p :
  Publishers.Publisher.new raw = Ok p ->
  exists s,
    getattr p "id" = VStr s
    /\ (getattr p "ids" = VNone
        \/ getattr (getattr p "ids") "publisher_id" = VStr s)
    /\ match getattr p "counts_by_year" with
       | VList l => Forall (fun o => getattr o "publisher_id" = VStr s) l
       | _ => True
       end.
Proof.
  intros H. unfold Publishers.Publisher.new, Publishers.Publisher.model in H.
  apply model_inv in H as (d & fs & Hb & Hi & Hc & Hr).
  2:{ apply run_frames. cbn [rev before Publishers.Publisher.hooks app].
      repeat constructor. unfold Publishers.Publisher._replicate_id.
      frames_key. }
  cbn [after Publishers.Publisher.hooks run] in Hr. injection Hr as <-.
  assert (A : forall n fld,
            find (fun f => String.eqb n (fname f))
              Publishers.Publisher.fields = Some fld ->
            field_value Publishers.Publisher.hooks d fld
            = Ok (n, getattr (VObj "Publisher" fs) n)).
  { intros n fld Hf.
    destruct (fields_get _ _ _ _ n _ Hc Hf) as (z & Hz & Hg).
    cbn [getattr]. now rewrite Hg. }
  pose proof (A "id" _ eq_refl) as Hz.
  apply required_str_field in Hz as (s & Hid & Hd); [|reflexivity].
  rewrite Hi in Hd.
  exists s. split; [exact Hid|]. split.
  - refine (keyed_attr _ _ _ _ "publisher_id" _ s (A "ids" _ eq_refl) _
              run_nil_same _).
    + refine (ensures_run1 _ _ _ _ _ _ _ Hb Hd).
      unfold Publishers.Publisher._replicate_id. ensures_key.
    + intros dx y. refine (plain_keyed _ _ _ _ dx y s _ _ _); reflexivity.
  - refine (keyed_attrs _ _ _ _ "publisher_id" _ s
              (A "counts_by_year" _ eq_refl) _ run_nil_keeps _).
    + refine (ensures_run1 _ _ _ _ _ _ _ Hb Hd).
      unfold Publishers.Publisher._replicate_id. ensures_key.
    + intros dx y. refine (plain_keyed _ _ _ _ dx y s _ _ _); reflexivity.
Qed.

Lemma publisher_subtables_carry_publisher_id_witness :
  exists p,
    Publishers.Publisher.new
      [("id", VStr "P1");
       ("ids", VDict [("ror", VStr "R1")]);
       ("counts_by_year", VList [VDict [("year", VInt 2020)]])] = Ok p
    /\ exists s,
         getattr p "id" = VStr s
         /\ (getattr p "ids" = VNone
             \/ getattr (getattr p "ids") "publisher_id" = VStr s)
         /\ match getattr p "counts_by_year" with
            | VList l =>
                Forall (fun o => getattr o "publisher_id" = VStr s) l
            | _ => True
            end.
Proof.
  eexists. split; [vm_compute; reflexivity|].
  apply (publisher_subtables_carry_publisher_id
           [("id", VStr "P1");
            ("ids", VDict [("ror", VStr "R1")]);
            ("counts_by_year", VList [VDict [("year", VInt 2020)]])]).
  vm_compute. reflexivity.
Defined.

End MoreForeignKeys.

(** ** The directories of the snapshot *)

Section Prefixes.
Import Data.

Lemma split_cons sep s : exists p ps, split sep s = p :: ps.
Proof.
  induction s as [|c s (p & ps & IH)]; cbn [split]; [eauto|].
  destruct (Ascii.eqb c sep); [eauto|]. rewrite IH. eauto.
Qed.

Lemma concat_split sep s :
  String.concat (String sep "") (split sep s) = s.
Proof.
  induction s as [|c s IH]; [reflexivity|]. cbn [split].
  destruct (split_cons sep s) as (p & ps & E). rewrite E in *.
  destruct (Ascii.eqb c sep) eqn:Ec.
  - apply Ascii.eqb_eq in Ec. subst c.
    change (String.concat (String sep "") ("" :: p :: ps))
      with (String sep (String.concat (String sep "") (p :: ps))).
    now rewrite IH.
  - rewrite <- IH. destruct ps; reflexivity.
Qed.

Lemma split_lacks sep s : Forall (lacks sep) (split sep s).
Proof.
  induction s as [|c s IH]; cbn [split].
  - constructor; [|constructor]. intros [].
  - destruct (Ascii.eqb c sep) eqn:Ec.
    + constructor; [intros []|exact IH].
    + destruct (split sep s) as [|p ps].
      * constructor; [|constructor]. cbn. intros [->|[]].
        now rewrite Ascii.eqb_refl in Ec.
      * constructor; [|exact (Forall_inv_tail IH)].
        apply Forall_inv in IH. unfold lacks in *. cbn.
        intros [->|H]; [|now apply IH].
        now rewrite Ascii.eqb_refl in Ec.
Qed.

Lemma prefix_app a s : String.prefix a s = true -> exists r, s = (a ++ r)%string.
Proof.
  revert s. induction a as [|c a IH]; intros s H; [now exists s|].
  destruct s as [|c' s]; [discriminate|]. cbn in H.
  destruct (ascii_dec c c') as [->|]; [|discriminate].
  destruct (IH _ H) as (r & ->). now exists r.
Qed.

(** X16.  A prefix that [_from_prefix] accepts reads
    data/TYPE/KEY=DATE.../REST with no further slash; the type of the
    directory is TYPE and its date is DATE, the text between the first sign
    of equality of the third segment and the next one (or the end of the
    segment); nothing else of the record changes. *)
Theorem from_prefix_reads_type_and_date self y :
  S3Directory._from_prefix self = Some (Ok y) ->
  exists d t part rest k date more,
    self = VDict d
    /\ dict_get "Prefix" d
       = Some (VStr ("data/" ++ t ++ "/" ++ part ++ "/" ++ rest))
    /\ lacks "/" t /\ lacks "/" part /\ lacks "/" rest
    /\ part = String.concat "=" (k :: date :: more)
    /\ Forall (lacks "=") (k :: date :: more)
    /\ y = VDict (dict_set "date" (VStr date)
                    (dict_set "type" (VStr t) d)).
Proof.
  unfold S3Directory._from_prefix. intros H.
  destruct self as [| | | | | | |d|]; try discriminate.
  cbn [py_getitem] in H.
  destruct (dict_get "Prefix" d) as [[| | | |p| | | |]|] eqn:Hp;
    try discriminate.
  destruct (String.prefix "data/" p) eqn:Hpre; [|discriminate].
  cbn [negb] in H. apply prefix_app in Hpre as (q & ->).
  change (split "/" ("data/" ++ q)) with ("data" :: split "/" q) in H.
  pose proof (concat_split "/" q) as Hq.
  pose proof (split_lacks "/" q) as Hl.
  destruct (split "/" q) as [|t [|part [|rest [|x xs]]]]; try discriminate.
  cbn [List.length Nat.eqb negb map py_index nth_error bind py_setitem] in H.
  pose proof (concat_split "=" part) as Hc.
  pose proof (split_lacks "=" part) as He.
  destruct (split "=" part) as [|k [|date more]]; try discriminate.
  cbn [map py_index nth_error bind py_setitem] in H.
  injection H as <-.
  exists d, t, part, rest, k, date, more.
  split; [reflexivity|]. split.
  - rewrite Hp, <- Hq. reflexivity.
  - inversion Hl as [|? ? L1 Hl1]; subst.
    inversion Hl1 as [|? ? L2 Hl2]; subst.
    inversion Hl2 as [|? ? L3 _]; subst.
    repeat split; auto.
Qed.

Lemma from_prefix_reads_type_and_date_witness :
  exists y,
    S3Directory._from_prefix
      (VDict [("Prefix", VStr "data/works/updated_date=2024-01-01/")])
    = Some (Ok y)
    /\ exists d t part rest k date more,
         VDict [("Prefix", VStr "data/works/updated_date=2024-01-01/")]
         = VDict d
         /\ dict_get "Prefix" d
            = Some (VStr ("data/" ++ t ++ "/" ++ part ++ "/" ++ rest))
         /\ lacks "/" t /\ lacks "/" part /\ lacks "/" rest
         /\ part = String.concat "=" (k :: date :: more)
         /\ Forall (lacks "=") (k :: date :: more)
         /\ y = VDict (dict_set "date" (VStr date)
                         (dict_set "type" (VStr t) d)).
Proof.
  eexists. split; [vm_compute; reflexivity|].
  apply (from_prefix_reads_type_and_date
           (VDict [("Prefix", VStr "data/works/updated_date=2024-01-01/")])).
  vm_compute. reflexivity.
Defined.

End Prefixes.

(** ** The literals of an INSERT statement *)

Section Literals.

Lemma paired_app a b :
  forall p, quotes_paired p a = true ->
            quotes_paired p (a ++ b) = quotes_paired false b.
Proof.
  induction a as [|c a IH]; intros p H; cbn [String.append quotes_paired] in *.
  - destruct p; [discriminate | reflexivity].
  - destruct (Ascii.eqb c "'"); [now apply IH|].
    destruct p; [discriminate | now apply IH].
Qed.

Lemma paired_replace s :
  quotes_paired false (SQLTable.replace_char "'" "''" s) = true.
Proof.
  induction s as [|c s IH]; [reflexivity|].
  cbn [SQLTable.replace_char]. destruct (Ascii.eqb "'" c) eqn:E.
  - cbn [String.append quotes_paired Ascii.eqb Bool.eqb negb]. exact IH.
  - cbn [quotes_paired]. rewrite Ascii.eqb_sym, E. exact IH.
Qed.

Lemma paired_concat sep parts :
  quotes_paired false sep = true ->
  Forall (fun x => quotes_paired false x = true) parts ->
  quotes_paired false (String.concat sep parts) = true.
Proof.
  intros Hs. induction 1 as [|x parts Hx Hp IH]; [reflexivity|].
  cbn [String.concat]. destruct parts as [|y parts]; [exact Hx|].
  rewrite (paired_app x _ false Hx), (paired_app sep _ false Hs).
  exact IH.
Qed.

Lemma undouble_app a b :
  forall p, quotes_paired p a = true ->
            undouble p (a ++ b)
            = (undouble p a ++ undouble false b)%string.
Proof.
  induction a as [|c a IH]; intros p H;
    cbn [String.append quotes_paired undouble] in *.
  - destruct p; [discriminate | reflexivity].
  - destruct (Ascii.eqb c "'").
    + destruct p; cbn [negb] in H; rewrite (IH _ H); reflexivity.
    + destruct p; [discriminate|]. now rewrite (IH _ H).
Qed.

Lemma undouble_replace s :
  undouble false (SQLTable.replace_char "'" "''" s) = s.
Proof.
  induction s as [|c s IH]; [reflexivity|].
  cbn [SQLTable.replace_char]. destruct (Ascii.eqb "'" c) eqn:E.
  - apply Ascii.eqb_eq in E. subst c.
    cbn [String.append undouble Ascii.eqb Bool.eqb]. now rewrite IH.
  - cbn [undouble]. rewrite Ascii.eqb_sym, E. now rewrite IH.
Qed.

Lemma undouble_concat sep parts :
  quotes_paired false sep = true ->
  Forall (fun x => quotes_paired false x = true) parts ->
  undouble false (String.concat sep parts)
  = String.concat (undouble false sep) (map (undouble false) parts).
Proof.
  intros Hs. induction 1 as [|x parts Hx Hp IH]; [reflexivity|].
  cbn [String.concat map]. destruct parts as [|y parts]; [reflexivity|].
  rewrite (undouble_app x _ false Hx), (undouble_app sep _ false Hs), IH.
  reflexivity.
Qed.

Lemma all_some_Forall2 {A B} (f : A -> option B) l ys :
  SQLTable.all_some (map f l) = Some ys ->
  Forall2 (fun x y => f x = Some y) l ys.
Proof.
  revert ys. induction l as [|x l IH]; cbn [map SQLTable.all_some];
    intros ys H.
  - injection H as <-. constructor.
  - destruct (f x) as [y|] eqn:E; [|discriminate].
    destruct (SQLTable.all_some (map f l)) as [ys'|]; [|discriminate].
    injection H as <-. constructor; auto.
Qed.

(** The parts of the literal of a list of texts. *)
Lemma text_parts l parts :
  Forall2 (fun x y =>
             match x with
             | VStr s =>
                 Some (String Orjson.dquote
                         (SQLTable.replace_char "'" "''" s
                          ++ String Orjson.dquote ""))%string
             | _ => None
             end = Some y) l parts ->
  exists items,
    l = map VStr items
    /\ Forall (fun x => quotes_paired false x = true) parts
    /\ map (undouble false) parts = map quoted items.
Proof.
  induction 1 as [|x y l parts Hxy _ (items & -> & Hp & Hu)].
  - exists []. repeat split. constructor.
  - destruct x; try discriminate. injection Hxy as <-.
    exists (s :: items). split; [reflexivity|]. split.
    + constructor; [|exact Hp]. cbn [quotes_paired].
      change (Ascii.eqb Orjson.dquote "'") with false. cbv iota.
      rewrite (paired_app _ _ false (paired_replace _)). reflexivity.
    + cbn [map]. rewrite Hu. f_equal. cbn [undouble].
      change (Ascii.eqb Orjson.dquote "'") with false. cbv iota.
      rewrite (undouble_app _ _ false (paired_replace _)), undouble_replace.
      reflexivity.
Qed.

(** X13.  The SQL literal [_get_arg] builds for a text, for a list of
    texts and for a mapping is enclosed in single quotes, and between them
    every single quote is one of a pair: the literal ends where it is meant
    to.  Read with each pair as one quote, it is the text itself, for a
    list the texts of the list, all of them and in their order, each
    between quotation marks, separated by commas and enclosed in brackets,
    and for a mapping its JSON text. *)
Theorem text_literal_doubles_quotes self arg_name out :
  SQLTable._get_arg self arg_name = Some (Ok out) ->
  textual (getattr self arg_name) ->
  exists body,
    out = ("'" ++ body ++ "'")%string
    /\ quotes_paired false body = true
    /\ match getattr self arg_name with
       | VStr s => undouble false body = s
       | VList l =>
           exists items,
             l = map VStr items
             /\ undouble false body
                = ("[" ++ String.concat "," (map quoted items) ++ "]")%string
       | VDict d => Orjson.dumps (VDict d) = Ok (undouble false body)
       | _ => True
       end.
Proof.
  unfold SQLTable._get_arg, textual.
  destruct self as [| | | | | | | |cls fs]; try discriminate.
  cbn [getattr]. destruct (dict_get arg_name fs) as [arg|]; [|discriminate].
  destruct arg as [| | | |s| |l|d|]; try contradiction.
  - intros [= <-] _. eexists. split; [reflexivity|].
    split; [apply paired_replace | apply undouble_replace].
  - destruct l as [|x l]; [contradiction|].
    destruct x; try contradiction. intros H _.
    match type of H with
    | match ?o with Some _ => _ | None => _ end = _ =>
        destruct o as [parts|] eqn:E; [|discriminate]
    end.
    injection H as <-. apply all_some_Forall2 in E.
    apply text_parts in E as (items & E & Hp & Hu).
    exists ("[" ++ String.concat "," parts ++ "]")%string.
    split; [|split].
    + cbn [String.append]. f_equal. f_equal.
      generalize (String.concat "," parts) as u. clear.
      induction u as [|c u IH]; cbn [String.append]; [reflexivity|].
      now rewrite IH.
    + cbn [String.append quotes_paired Ascii.eqb Bool.eqb].
      rewrite (paired_app _ "]" false); [reflexivity|].
      apply paired_concat; [reflexivity | exact Hp].
    + exists items. split; [exact E|].
      cbn [String.append undouble Ascii.eqb Bool.eqb].
      rewrite (undouble_app _ "]" false)
        by (apply paired_concat; [reflexivity | exact Hp]).
      rewrite (undouble_concat "," parts eq_refl Hp), Hu. reflexivity.
  - intros H _. injection H as H. apply bind_ok in H as (s & Hs & [= <-]).
    eexists. split; [reflexivity|].
    split; [apply paired_replace|]. now rewrite undouble_replace.
Qed.

Lemma text_literal_doubles_quotes_witness :
  exists out,
    SQLTable._get_arg
      (VObj "Source"
         [("id", VStr "S1");
          ("alternate_titles", VList [VStr "O'Brien"; VStr "x,y"])])
      "alternate_titles" = Some (Ok out)
    /\ exists body,
         out = ("'" ++ body ++ "'")%string
         /\ quotes_paired false body = true
         /\ exists items,
              [VStr "O'Brien"; VStr "x,y"] = map VStr items
              /\ undouble false body
                 = ("[" ++ String.concat "," (map quoted items)
                    ++ "]")%string.
Proof.
  eexists. split; [vm_compute; reflexivity|].
  apply (text_literal_doubles_quotes
           (VObj "Source"
              [("id", VStr "S1");
               ("alternate_titles", VList [VStr "O'Brien"; VStr "x,y"])])
           "alternate_titles");
    [vm_compute; reflexivity | exact I].
Defined.

End Literals.

(** ** The rows handed to the database *)

Section RowShape.

Lemma sql_value_cases x v :
  SQLTable.sql_value x = Ok v ->
  is_dict v = false
  /\ match x with
     | VDict d => exists s, Orjson.dumps (VDict d) = Ok s /\ v = VStr s
     | VStr s =>
         v = VStr s \/ (datelike s = true /\ exists d, v = VDatetime d)
     | _ => v = x
     end.
Proof.
  unfold SQLTable.sql_value.
  destruct x; try (intros [= <-]; split; reflexivity).
  - unfold datelike. intros H.
    destruct (negb (s =? "")); cbn [andb] in H;
      [|injection H as <-; split; [reflexivity | now left]].
    destruct (10 <=? String.length s)%nat; cbn [andb] in *;
      [|injection H as <-; split; [reflexivity | now left]].
    destruct (SQLTable.char_is 4 "-" s && SQLTable.char_is 7 "-" s)%bool;
      [|injection H as <-; split; [reflexivity | now left]].
    match type of H with
    | match ?o with Some _ => _ | None => _ end = _ => destruct o as [d|]
    end; injection H as <-; split; try reflexivity; [right|left]; eauto.
  - intros H. apply bind_ok in H as (s & Hs & [= <-]).
    split; [reflexivity|]. eauto.
Qed.

(** X17.  The row [to_sql_values] returns has one value for each column of
    [_sql_order], in the order of the columns, and none of them is a
    mapping: for an attribute that is a mapping the value is its JSON text;
    for a text it is the text, or a datetime when the text has ten
    characters or more and a hyphen at positions 4 and 7; for anything else
    it is the attribute itself ([None] for an attribute that is not
    set). *)
Theorem to_sql_values_row_shape order self row :
  SQLTable.to_sql_values order self = Ok row ->
  Forall2
    (fun key v =>
       is_dict v = false
       /\ match getattr self key with
          | VDict d => exists s, Orjson.dumps (VDict d) = Ok s /\ v = VStr s
          | VStr s =>
              v = VStr s \/ (datelike s = true /\ exists d, v = VDatetime d)
          | x => v = x
          end)
    order row.
Proof.
  unfold SQLTable.to_sql_values. intros H. apply mapM_ok in H.
  induction H as [|k v l vs Hkv _ IH]; constructor; [|exact IH].
  destruct (sql_value_cases _ _ Hkv) as [H1 H2]. split; [exact H1|].
  destruct (getattr self k); exact H2.
Qed.

Lemma to_sql_values_row_shape_witness :
  exists row,
    SQLTable.to_sql_values ["id"; "abstract_inverted_index"; "title"]
      (VObj "Work"
         [("id", VStr "W1");
          ("title", VStr "On rows");
          ("abstract_inverted_index", VDict [("rows", VList [VInt 0])])])
    = Ok row
    /\ Forall2
         (fun key v =>
            is_dict v = false
            /\ match
                 getattr
                   (VObj "Work"
                      [("id", VStr "W1");
                       ("title", VStr "On rows");
                       ("abstract_inverted_index",
                        VDict [("rows", VList [VInt 0])])]) key
               with
               | VDict d =>
                   exists s, Orjson.dumps (VDict d) = Ok s /\ v = VStr s
               | VStr s =>
                   v = VStr s
                   \/ (datelike s = true /\ exists d, v = VDatetime d)
               | x => v = x
               end)
         ["id"; "abstract_inverted_index"; "title"] row.
Proof.
  eexists. split; [vm_compute; reflexivity|].
  apply (to_sql_values_row_shape
           ["id"; "abstract_inverted_index"; "title"]
           (VObj "Work"
              [("id", VStr "W1");
               ("title", VStr "On rows");
               ("abstract_inverted_index",
                VDict [("rows", VList [VInt 0])])])).
  vm_compute. reflexivity.
Defined.

End RowShape.

(** * Empty lists *)

Section EmptyLists.

Lemma keeps_of_frames f V : frames f V -> keeps_empty f V.
Proof.
  intros F r v Hf Hv. destruct (F _ _ Hv) as (r' & -> & E).
  exists r'. split; [reflexivity | congruence].
Qed.

Lemma keeps_ret f : keeps_empty f (fun s => Ok s).
Proof. intros r v Hf [= <-]. eauto. Qed.

Lemma keeps_bind f (V1 V2 : validator) :
  keeps_empty f V1 -> keeps_empty f V2 ->
  keeps_empty f (fun s => x <- V1 s ;; V2 x).
Proof.
  intros H1 H2 r v Hf H. apply bind_ok in H as (x & Hx & H).
  destruct (H1 _ _ Hf Hx) as (r1 & -> & E1). exact (H2 _ _ E1 H).
Qed.

Lemma keeps_into name key f :
  f <> name -> keeps_empty f (Replicate.into name key).
Proof. intros Hne. apply keeps_of_frames. now apply frames_into. Qed.

Lemma keeps_into_each name key f :
  keeps_empty f (Replicate.into_each name key).
Proof.
  destruct (String.eqb f name) eqn:E.
  - apply String.eqb_eq in E. subst name. intros r v Hf.
    rewrite into_each_dict. cbv zeta. rewrite Hf. cbn [mapM bind].
    intros [= <-]. eexists. split; [reflexivity|].
    apply dict_get_set_same.
  - apply String.eqb_neq in E. apply keeps_of_frames.
    now apply frames_into_each.
Qed.

Lemma keeps_wrap_ids name f : keeps_empty f (Works.Work.wrap_ids name).
Proof.
  destruct (String.eqb f name) eqn:E.
  - apply String.eqb_eq in E. subst name. intros r v Hf.
    rewrite wrap_ids_dict, Hf. cbn [mapM bind].
    intros [= <-]. eexists. split; [reflexivity|].
    apply dict_get_set_same.
  - apply String.eqb_neq in E. apply keeps_of_frames.
    now apply frames_wrap_ids.
Qed.

Lemma keeps_flatten f : keeps_empty f Works.Work._flatten_authorships.
Proof.
  destruct (String.eqb f "authorships") eqn:E.
  - apply String.eqb_eq in E. subst f. intros r v Hf.
    rewrite flatten_dict, Hf. cbn [py_iter mapM bind List.concat].
    intros [= <-]. eexists. split; [reflexivity|].
    apply dict_get_set_same.
  - apply String.eqb_neq in E. apply keeps_of_frames.
    now apply frames_flatten.
Qed.

Lemma keeps_str_to_list f : keeps_empty f Topics.Topic._str_to_list.
Proof.
  intros r v Hf. unfold Topics.Topic._str_to_list. cbn [py_getitem].
  destruct (dict_get "keywords" r) as [kw|] eqn:Ek; [|discriminate].
  cbn [bind].
  destruct kw; try (intros [= <-]; eauto; fail).
  destruct (Orjson.loads s); [|discriminate].
  cbn [py_setitem]. intros [= <-]. eexists. split; [reflexivity|].
  destruct (String.eqb f "keywords") eqn:E.
  - apply String.eqb_eq in E. subst f. congruence.
  - apply String.eqb_neq in E. now rewrite dict_get_set_other.
Qed.

Lemma keeps_run f Vs :
  Forall (keeps_empty f) Vs -> keeps_empty f (run Vs).
Proof.
  induction 1 as [|V Vs HV _ IH]; intros r v Hf; cbn [run].
  - intros [= <-]. eauto.
  - intros H. apply bind_ok in H as (x & Hx & H). apply wrap_ok in Hx.
    destruct (HV _ _ Hf Hx) as (r1 & -> & E1). exact (IH _ _ E1 H).
Qed.

(** A declared optional list that the validators of the class leave alone
    keeps the empty list. *)
Lemma model_keeps_empty name fields h f t raw w :
  Forall (keeps_empty f) (before h) ->
  find (fun fld => String.eqb f (fname fld)) fields
  = Some (opt f (TList t)) ->
  validators_of h f = [] ->
  (forall o o', run (after h) o = Ok o' -> getattr o' f = getattr o f) ->
  dict_get f raw = Some (VList []) ->
  validate (TModel name fields h) (VDict raw) = Ok w ->
  getattr w f = VList [].
Proof.
  intros Hb Hfind Hv Ha Hf H. rewrite validate_model_eq in H.
  apply bind_ok in H as (v1 & H1 & H).
  assert (K : keeps_empty f (run (rev (before h))))
    by (apply keeps_run, Forall_rev, Hb).
  destruct (K _ _ Hf H1) as (d & -> & Hd).
  apply bind_ok in H as (fs & Hc & Hr).
  destruct (fields_get _ _ _ _ f _ Hc Hfind) as (z & Hz & Hg).
  rewrite (Ha _ _ Hr). cbn [getattr]. rewrite Hg.
  unfold field_value, opt in Hz.
  cbn [fname faliases frequired ftype lookup] in Hz.
  rewrite Hd, Hv in Hz. cbn in Hz. congruence.
Qed.

Ltac keeps_tac :=
  repeat first
    [ apply keeps_ret
    | apply keeps_into_each
    | apply keeps_into; discriminate
    | apply keeps_wrap_ids
    | apply keeps_bind ].

Lemma run_nil_attr f o o' : run [] o = Ok o' -> getattr o' f = getattr o f.
Proof. cbn. now intros [= <-]. Qed.

Lemma concept_empty_list raw f :
  In f ["ancestors"; "related_concepts"; "counts_by_year"] ->
  dict_get f raw = Some (VList []) ->
  Concepts.Concept.new (dict_remove f raw) = Concepts.Concept.new raw.
Proof.
  intros Hin Hf. unfold Concepts.Concept.new.
  apply model_ignores_empty with (V := Concepts.Concept._replicate_id);
    [reflexivity | | | exact Hf].
  - unfold Concepts.Concept._replicate_id.
    cbn [In] in Hin. destruct Hin as [<-|[<-|[<-|[]]]];
      repeat first
        [ apply ignores_ret
        | apply ignores_into; discriminate
        | apply ignores_into_each; discriminate
        | apply ignores_bind ].
  - unfold Concepts.Concept.fields, OpenAlexObject.fields.
    cbn [app In] in *.
    destruct Hin as [<-|[<-|[<-|[]]]];
      repeat (apply Forall_cons;
              [ split; [reflexivity|];
                first [ left; discriminate
                      | right; split; [reflexivity|]; split; [reflexivity|];
                        split; [eexists; reflexivity | reflexivity] ]
              | ]);
      apply Forall_nil.
Qed.

Lemma work_keeps_empty f :
  In f ["locations"; "authorships"; "topics"; "concepts"; "mesh";
        "referenced_works"; "related_works"; "corresponding_author_ids";
        "corresponding_institution_ids"; "counts_by_year"; "grants";
        "indexed_in"; "keywords"; "sustainable_development_goals"] ->
  kept_when_empty Works.Work.new f.
Proof.
  intros Hin raw w Hf H. unfold Works.Work.new, Works.Work.model in H.
  assert (B : Forall (keeps_empty f) (before Works.Work.hooks)).
  { cbn [before Works.Work.hooks].
    repeat constructor;
      [ unfold Works.Work._replicate_id_1
      | unfold Works.Work._replicate_id_2
      | unfold Works.Work._replicate_id_3
      | unfold Works.Work._work_id_ref_related
      | apply keeps_flatten ];
      cbn [In] in Hin; intuition (subst f; keeps_tac). }
  cbn [In] in Hin.
  repeat (destruct Hin as [<-|Hin];
          [ refine (model_keeps_empty _ _ _ _ _ raw w B _ _
                      (run_nil_attr _) Hf H); reflexivity | ]).
  contradiction.
Qed.

Lemma institution_keeps_empty f :
  In f ["lineage"; "repositories"; "roles"] ->
  kept_when_empty Institutions.Institution.new f.
Proof.
  intros Hin raw w Hf H.
  unfold Institutions.Institution.new, Institutions.Institution.model in H.
  assert (B : Forall (keeps_empty f) (before Institutions.Institution.hooks)).
  { cbn [before Institutions.Institution.hooks]. repeat constructor.
    unfold Institutions.Institution._replicate_id.
    cbn [In] in Hin. intuition (subst f; keeps_tac). }
  assert (A : forall o o',
            run (after Institutions.Institution.hooks) o = Ok o' ->
            getattr o' f = getattr o f).
  { intros o o' Ho. cbn [after Institutions.Institution.hooks run] in Ho.
    apply bind_ok in Ho as (x & Hx & [= <-]). apply wrap_ok in Hx.
    now rewrite (check_repositories_same _ _ Hx). }
  cbn [In] in Hin.
  repeat (destruct Hin as [<-|Hin];
          [ refine (model_keeps_empty _ _ _ _ _ raw w B _ _ A Hf H);
            reflexivity | ]).
  contradiction.
Qed.

Lemma author_keeps_empty f :
  In f ["affiliations"; "last_known_institutions"] ->
  kept_when_empty Authors.Author.new f.
Proof.
  intros Hin raw w Hf H.
  unfold Authors.Author.new, Authors.Author.model in H.
  assert (B : Forall (keeps_empty f) (before Authors.Author.hooks)).
  { cbn [before Authors.Author.hooks]. repeat constructor.
    unfold Authors.Author._replicate_id.
    cbn [In] in Hin. intuition (subst f; keeps_tac). }
  cbn [In] in Hin.
  repeat (destruct Hin as [<-|Hin];
          [ refine (model_keeps_empty _ _ _ _ _ raw w B _ _
                      (run_nil_attr _) Hf H); reflexivity | ]).
  contradiction.
Qed.

Lemma source_keeps_empty f :
  In f ["issn"; "alternate_titles"; "apc_prices"; "counts_by_year";
        "host_organization_lineage"] ->
  kept_when_empty (fun raw => validate Sources.Source.model (VDict raw)) f.
Proof.
  intros Hin raw w Hf H. unfold Sources.Source.model in H.
  assert (B : Forall (keeps_empty f)
                (before (mkHooks [Sources.Source._replicate_id] [] []))).
  { cbn [before]. repeat constructor.
    unfold Sources.Source._replicate_id.
    cbn [In] in Hin. intuition (subst f; keeps_tac). }
  cbn [In] in Hin.
  repeat (destruct Hin as [<-|Hin];
          [ refine (model_keeps_empty _ _ _ _ _ raw w B _ _
                      (run_nil_attr _) Hf H); reflexivity | ]).
  contradiction.
Qed.

Lemma publisher_keeps_empty f :
  In f ["alternate_titles"; "country_codes"; "counts_by_year"; "lineage";
        "roles"] ->
  kept_when_empty Publishers.Publisher.new f.
Proof.
  intros Hin raw w Hf H.
  unfold Publishers.Publisher.new, Publishers.Publisher.model in H.
  assert (B : Forall (keeps_empty f) (before Publishers.Publisher.hooks)).
  { cbn [before Publishers.Publisher.hooks]. repeat constructor.
    unfold Publishers.Publisher._replicate_id.
    cbn [In] in Hin. intuition (subst f; keeps_tac). }
  cbn [In] in Hin.
  repeat (destruct Hin as [<-|Hin];
          [ refine (model_keeps_empty _ _ _ _ _ raw w B _ _
                      (run_nil_attr _) Hf H); reflexivity | ]).
  contradiction.
Qed.

Lemma topic_keeps_empty : kept_when_empty Topics.Topic.new "keywords".
Proof.
  intros raw w Hf H. unfold Topics.Topic.new, Topics.Topic.model in H.
  refine (model_keeps_empty "Topic" Topics.Topic.fields Topics.Topic.hooks
            "keywords" TStr raw w _ eq_refl eq_refl _ Hf H).
  - cbn [before Topics.Topic.hooks]. repeat constructor.
    + unfold Topics.Topic._replicate_id. apply keeps_into. discriminate.
    + apply keeps_str_to_list.
  - intros o o' Ho. apply topic_after in Ho as [_ ->].
    rewrite !flatten_one_other by discriminate. reflexivity.
Qed.

(** C8 (as amended).  A list field that the [_check_not_empty] validator of
    its class names (Institution: display_name_acronyms,
    display_name_alternatives, associated_institutions, counts_by_year;
    Author: counts_by_year, display_name_alternatives; Concept: ancestors,
    related_concepts, counts_by_year) collapses: a record that supplies it
    as an empty list normalizes exactly as the record without the field
    does.  The other declared list fields of Institution, Author, Work,
    Source, Publisher and Topic keep the empty list: lineage, repositories
    and roles of an Institution, affiliations and last_known_institutions of
    an Author, and all the list fields of a Work, a Source, a Publisher and
    a Topic. *)
Theorem checked_empty_list_is_absent :
  (forall f,
     In f ["display_name_acronyms"; "display_name_alternatives";
           "associated_institutions"; "counts_by_year"] ->
     absent_when_empty Institutions.Institution.new f)
  /\ (forall f,
        In f ["counts_by_year"; "display_name_alternatives"] ->
        absent_when_empty Authors.Author.new f)
  /\ (forall f,
        In f ["ancestors"; "related_concepts"; "counts_by_year"] ->
        absent_when_empty Concepts.Concept.new f)
  /\ (forall f,
        In f ["lineage"; "repositories"; "roles"] ->
        kept_when_empty Institutions.Institution.new f)
  /\ (forall f,
        In f ["affiliations"; "last_known_institutions"] ->
        kept_when_empty Authors.Author.new f)
  /\ (forall f,
        In f ["locations"; "authorships"; "topics"; "concepts"; "mesh";
              "referenced_works"; "related_works";
              "corresponding_author_ids"; "corresponding_institution_ids";
              "counts_by_year"; "grants"; "indexed_in"; "keywords";
              "sustainable_development_goals"] ->
        kept_when_empty Works.Work.new f)
  /\ (forall f,
        In f ["issn"; "alternate_titles"; "apc_prices"; "counts_by_year";
              "host_organization_lineage"] ->
        kept_when_empty
          (fun raw => validate Sources.Source.model (VDict raw)) f)
  /\ (forall f,
        In f ["alternate_titles"; "country_codes"; "counts_by_year";
              "lineage"; "roles"] ->
        kept_when_empty Publishers.Publisher.new f)
  /\ kept_when_empty Topics.Topic.new "keywords".
Proof.
  repeat split.
  - intros f Hin raw. now apply institution_empty_list.
  - intros f Hin raw. now apply author_empty_list.
  - intros f Hin raw. now apply concept_empty_list.
  - exact institution_keeps_empty.
  - exact author_keeps_empty.
  - exact work_keeps_empty.
  - exact source_keeps_empty.
  - exact publisher_keeps_empty.
  - exact topic_keeps_empty.
Qed.

Lemma checked_empty_list_is_absent_witness :
  Institutions.Institution.new [("id", VStr "I1"); ("ror", VStr "r")]
  = Institutions.Institution.new
      [("id", VStr "I1"); ("display_name_alternatives", VList []);
       ("ror", VStr "r")]
  /\ Authors.Author.new [("id", VStr "A1")]
     = Authors.Author.new
         [("id", VStr "A1"); ("display_name_alternatives", VList [])]
  /\ Concepts.Concept.new [("id", VStr "C1")]
     = Concepts.Concept.new [("id", VStr "C1"); ("ancestors", VList [])]
  /\ (exists w,
        Works.Work.new [("id", VStr "W1"); ("authorships", VList [])] = Ok w
        /\ getattr w "authorships" = VList [])
  /\ (exists i,
        Institutions.Institution.new
          [("id", VStr "I1"); ("repositories", VList [])] = Ok i
        /\ getattr i "repositories" = VList []).
Proof.
  split; [|split; [|split; [|split]]].
  - apply (proj1 checked_empty_list_is_absent
             "display_name_alternatives"
             (or_intror (or_introl eq_refl))
             [("id", VStr "I1"); ("display_name_alternatives", VList []);
              ("ror", VStr "r")]).
    reflexivity.
  - apply (proj1 (proj2 checked_empty_list_is_absent)
             "display_name_alternatives"
             (or_intror (or_introl eq_refl))
             [("id", VStr "A1"); ("display_name_alternatives", VList [])]).
    reflexivity.
  - apply (proj1 (proj2 (proj2 checked_empty_list_is_absent))
             "ancestors" (or_introl eq_refl)
             [("id", VStr "C1"); ("ancestors", VList [])]).
    reflexivity.
  - eexists. split; [vm_compute; reflexivity|].
    apply (proj1 (proj2 (proj2 (proj2 (proj2 (proj2
                    checked_empty_list_is_absent)))))
             "authorships" (or_intror (or_introl eq_refl))
             [("id", VStr "W1"); ("authorships", VList [])]);
      vm_compute; reflexivity.
  - eexists. split; [vm_compute; reflexivity|].
    apply (proj1 (proj2 (proj2 (proj2 checked_empty_list_is_absent)))
             "repositories" (or_intror (or_introl eq_refl))
             [("id", VStr "I1"); ("repositories", VList [])]);
      vm_compute; reflexivity.
Defined.

(** C8 (counterexample).  [lineage] of an Institution is a declared list
    field that no validator checks: the empty list stays, and the record
    without the field has [None].  The same for [locations] of a Work. *)
Lemma unchecked_empty_list_is_kept :
  (x <- Institutions.Institution.new
          [("id", VStr "I1"); ("lineage", VList [])] ;;
   Ok (getattr x "lineage")) = Ok (VList [])
  /\ (x <- Institutions.Institution.new [("id", VStr "I1")] ;;
      Ok (getattr x "lineage")) = Ok VNone
  /\ (x <- Works.Work.new [("id", VStr "W1"); ("locations", VList [])] ;;
      Ok (getattr x "locations")) = Ok (VList [])
  /\ (x <- Works.Work.new [("id", VStr "W1")] ;;
      Ok (getattr x "locations")) = Ok VNone.
Proof. repeat split; vm_compute; reflexivity. Qed.

End EmptyLists.
